(** * mpp-import-pipeline: the manifest pre-processor that imports pipelines

    A shallow embedding of [tools/mpp-import-pipeline.py] and the
    properties of its manifest-merge algorithm.

    Layout of the development:
    - [json] and [Dict]: parsed JSON documents, insertion-ordered
      dictionaries.
    - [Py]: the Python operations the script applies to such documents
      ([in], subscripting, [dict.get], [dict.update], [==], [<],
      [sorted], truthiness), with the exceptions they raise.
    - [Store]: the manifest as a mutable object tree; object references
      are access paths into it.
    - [Mpp]: the functions of the script; the two [_manifest_process]
      functions are cut into the blocks their comments announce.
    - the vocabulary of the statements and sample manifests.
    - the properties, C1 to C10 among them. *)

From Stdlib Require Import ZArith Ascii String Sorted Permutation.
From Stdlib Require OrdersEx.
From stdpp Require Import base tactics option list strings.

(** ** JSON documents *)

(** What [json.load] returns: [None], [bool], [int], [str], [list] and
    [dict] with [str] keys. A [dict] keeps its keys in insertion order
    and the script depends on that order ([list(d.keys())], [sorted] over
    [d.items()], the order of the emitted keys), so a [dict] is the list
    of its items, first inserted first; [json.load] never produces two
    items with one key. Numbers are restricted to integers and a
    character to one [ascii]. *)
#[local] Unset Elimination Schemes.
Inductive json : Type :=
| JNull
| JBool (b : bool)
| JNum (n : Z)
| JStr (s : string)
| JArr (l : list json)
| JObj (d : list (string * json)).
#[local] Set Elimination Schemes.

Module Dict.
Section Dict.
Context {V : Type}.
Implicit Types (k : string) (v : V) (d : list (string * V)).

(** [d.get(k)] on the item list. *)
Fixpoint get k d : option V :=
  match d with
  | [] => None
  | (k', v) :: r => if String.eqb k k' then Some v else get k r
  end.

Definition mem k d : bool :=
  match get k d with Some _ => true | None => false end.

(** [d[k] = v]: an existing key keeps its position, a new key goes last. *)
Fixpoint set k v d : list (string * V) :=
  match d with
  | [] => [(k, v)]
  | (k', v') :: r =>
      if String.eqb k k' then (k', v) :: r else (k', v') :: set k v r
  end.

(** [del d[k]] (the caller checks that the key is there). *)
Fixpoint del k d : list (string * V) :=
  match d with
  | [] => []
  | (k', v') :: r => if String.eqb k k' then del k r else (k', v') :: del k r
  end.

Definition keys d : list string := map fst d.

(** [d.update(d2)] for a dictionary [d2]: its items are stored one
    after the other, in their order. *)
Definition update d (d2 : list (string * V)) : list (string * V) :=
  fold_left (fun acc kv => set (fst kv) (snd kv) acc) d2 d.

(** The well-formedness of a Python dictionary: no key twice. *)
Definition wf d : Prop := NoDup (keys d).
End Dict.
End Dict.

(** ** Python exceptions and results *)

(** The pieces of an f-string: literal text and interpolated values. *)
Inductive fpart : Type :=
| FLit (s : string)
| FVal (v : json).

(** The exceptions of Python that the script can end with, and three
    ways for the model to stop. [NonStringKey]: [dict.update] over a list
    of pairs would store a key that is not a [str], which a dictionary of
    [json] cannot hold. [DanglingReference]: a reference names no object
    of the store. [OutOfFuel]: a loop has used up its bound. The script
    takes a reference only to an object that is there, and the bound of
    its one loop is enough: no run ends in one of the last two
    ([run_is_sound]). *)
Inductive exn : Type :=
| KeyError (k : string)
| TypeError
| AttributeError
| AssertionError
| ValueError (msg : list fpart)
| OSError
| JSONDecodeError
| NonStringKey
| DanglingReference
| OutOfFuel.

Inductive result (A : Type) : Type :=
| Ok (a : A)
| Raise (e : exn).
Arguments Ok {A} a.
Arguments Raise {A} e.

Definition bind {A B} (m : result A) (f : A -> result B) : result B :=
  match m with
  | Ok a => f a
  | Raise e => Raise e
  end.

Notation "'let*' x ':=' m 'in' k" := (bind m (fun x => k))
  (at level 10, x pattern, m at level 100, k at level 200,
   format "'[v' 'let*'  x  ':='  m  'in' '/' k ']'").

(** The computation ends with an exception. *)
Definition raises {A} (m : result A) : Prop := exists e, m = Raise e.

(** A loop body run over a list, stopping at the first exception. *)
Fixpoint foldM {A S} (f : S -> A -> result S) (l : list A) (s : S) : result S :=
  match l with
  | [] => Ok s
  | a :: r => let* s' := f s a in foldM f r s'
  end.

Fixpoint mapM {A B} (f : A -> result B) (l : list A) : result (list B) :=
  match l with
  | [] => Ok []
  | a :: r => let* b := f a in let* bs := mapM f r in Ok (b :: bs)
  end.

(** ** The Python operations of the script *)

Module Py.

(** [bool(v)]: [None], [False], [0] and the empty string, list and
    dictionary are false. *)
Definition truthy (v : json) : bool :=
  match v with
  | JNull => false
  | JBool b => b
  | JNum n => negb (n =? 0)%Z
  | JStr s => negb (String.eqb s "")
  | JArr l => match l with [] => false | _ => true end
  | JObj d => match d with [] => false | _ => true end
  end.

Definition int_of_bool (b : bool) : Z := if b then 1%Z else 0%Z.

(** [a == b]. A [bool] is an [int]; dictionaries compare without
    regard to the order of their keys. *)
Fixpoint eq (a b : json) {struct a} : bool :=
  match a, b with
  | JNull, JNull => true
  | JBool x, JBool y => Bool.eqb x y
  | JBool x, JNum n => (int_of_bool x =? n)%Z
  | JNum n, JBool y => (n =? int_of_bool y)%Z
  | JNum n, JNum m => (n =? m)%Z
  | JStr s, JStr t => String.eqb s t
  | JArr l, JArr l' =>
      (fix all2 (l l' : list json) : bool :=
         match l, l' with
         | [], [] => true
         | x :: r, y :: r' => eq x y && all2 r r'
         | _, _ => false
         end) l l'
  | JObj d, JObj d' =>
      Nat.eqb (length d) (length d') &&
      (fix sub (d : list (string * json)) : bool :=
         match d with
         | [] => true
         | (k, v) :: r =>
             match Dict.get k d' with
             | Some v' => eq v v'
             | None => false
             end && sub r
         end) d
  | _, _ => false
  end.

(** [a < b], which raises [TypeError] between values that are not
    ordered: only numbers, strings and lists are. Two lists compare at
    the first position where they are not [==]. *)
Fixpoint lt (a b : json) {struct a} : result bool :=
  match a, b with
  | JBool x, JBool y => Ok (int_of_bool x <? int_of_bool y)%Z
  | JBool x, JNum n => Ok (int_of_bool x <? n)%Z
  | JNum n, JBool y => Ok (n <? int_of_bool y)%Z
  | JNum n, JNum m => Ok (n <? m)%Z
  | JStr s, JStr t => Ok (String.ltb s t)
  | JArr l, JArr l' =>
      (fix lex (l l' : list json) : result bool :=
         match l, l' with
         | _, [] => Ok false
         | [], _ :: _ => Ok true
         | x :: r, y :: r' => if eq x y then lex r r' else lt x y
         end) l l'
  | _, _ => Raise TypeError
  end.

(** [needle in hay] for two strings. *)
Fixpoint str_contains (needle hay : string) : bool :=
  String.prefix needle hay ||
  match hay with
  | EmptyString => false
  | String _ t => str_contains needle t
  end.

(** [key in c] for a string [key]: a key of a dictionary, an element
    of a list, a substring of a string. *)
Definition contains (key : string) (c : json) : result bool :=
  match c with
  | JObj d => Ok (Dict.mem key d)
  | JArr l => Ok (existsb (eq (JStr key)) l)
  | JStr s => Ok (str_contains key s)
  | _ => Raise TypeError
  end.

(** [c[key]] for a string [key]. *)
Definition getitem (c : json) (key : string) : result json :=
  match c with
  | JObj d =>
      match Dict.get key d with
      | Some v => Ok v
      | None => Raise (KeyError key)
      end
  | _ => Raise TypeError
  end.

(** [c[key] = v] for a string [key]. *)
Definition setitem (c : json) (key : string) (v : json) : result json :=
  match c with
  | JObj d => Ok (JObj (Dict.set key v d))
  | _ => Raise TypeError
  end.

(** [del c[key]] for a string [key]. *)
Definition delitem (c : json) (key : string) : result json :=
  match c with
  | JObj d =>
      if Dict.mem key d then Ok (JObj (Dict.del key d))
      else Raise (KeyError key)
  | _ => Raise TypeError
  end.

(** [c.get(key, default)]; only a dictionary has the method. *)
Definition get (c : json) (key : string) (default : json) : result json :=
  match c with
  | JObj d => Ok (match Dict.get key d with Some v => v | None => default end)
  | _ => Raise AttributeError
  end.

(** [c.items()] and [c.keys()]. *)
Definition items (c : json) : result (list (string * json)) :=
  match c with
  | JObj d => Ok d
  | _ => Raise AttributeError
  end.

Definition keys (c : json) : result (list string) :=
  match c with
  | JObj d => Ok (Dict.keys d)
  | _ => Raise AttributeError
  end.

Fixpoint chars (s : string) : list json :=
  match s with
  | EmptyString => []
  | String c t => JStr (String c EmptyString) :: chars t
  end.

(** [for x in c]: the elements of a list, the keys of a dictionary,
    the characters of a string. *)
Definition iter (c : json) : result (list json) :=
  match c with
  | JArr l => Ok l
  | JObj d => Ok (map JStr (Dict.keys d))
  | JStr s => Ok (chars s)
  | _ => Raise TypeError
  end.

(** One element of the sequence given to [dict.update]: it is made a
    sequence, must have length two, and its first component must be
    hashable. [i] is the position of the element, for the message.
    Python stores a first component that is hashable and no [str] (a
    number, a boolean, [None]) as a key, and the run goes on; a
    dictionary of [json] cannot hold such a key, and here the
    computation stops with [NonStringKey]. A run that gets there is
    outside of what this development describes: a statement about what
    a run writes holds of the script on the runs that [keys_are_str]
    names. *)
Definition update_pair (i : nat) (d : list (string * json)) (e : json)
  : result (list (string * json)) :=
  let* cs := iter e in
  match cs with
  | [k; v] =>
      match k with
      | JStr s => Ok (Dict.set s v d)
      | JArr _ | JObj _ => Raise TypeError
      | JNull | JBool _ | JNum _ => Raise NonStringKey
      end
  | _ =>
      Raise (ValueError
               [FLit "dictionary update sequence element #";
                FVal (JNum (Z.of_nat i)); FLit " has length ";
                FVal (JNum (Z.of_nat (length cs)));
                FLit "; 2 is required"])
  end.

Fixpoint update_pairs (i : nat) (d : list (string * json)) (l : list json)
  : result (list (string * json)) :=
  match l with
  | [] => Ok d
  | e :: r => let* d' := update_pair i d e in update_pairs (S i) d' r
  end.

(** [c.update(x)]. Only a dictionary has the method. A dictionary [x]
    is merged key by key; anything else is read as a sequence of
    key/value pairs. *)
Definition update (c x : json) : result json :=
  match c with
  | JObj d =>
      match x with
      | JObj d2 => Ok (JObj (Dict.update d d2))
      | _ => let* l := iter x in
             let* d' := update_pairs 0 d l in
             Ok (JObj d')
      end
  | _ => Raise AttributeError
  end.

(** [sorted(l, key=key)]. The keys are computed first, one call per
    element. The sort is stable and compares keys with [<] only, so
    on keys that [<] orders totally its result is the one of any stable
    sort: here the elements are inserted one by one, each after the
    elements that are not greater. An exception of [key] or of [<]
    ends the sort. (Between lists that [<] orders only in part,
    which comparisons CPython makes is not fixed by this model.) *)
Fixpoint insert {A} (x : json * A) (l : list (json * A))
  : result (list (json * A)) :=
  match l with
  | [] => Ok [x]
  | y :: r =>
      let* b := lt (fst x) (fst y) in
      if b then Ok (x :: y :: r)
      else let* r' := insert x r in Ok (y :: r')
  end.

Definition sorted {A} (key : A -> result json) (l : list A)
  : result (list A) :=
  let* keyed := mapM (fun a => let* k := key a in Ok (k, a)) l in
  let* s := foldM (fun acc x => insert x acc) keyed [] in
  Ok (map snd s).

(** [l.sort()] on a list of strings: the list is sorted in place and
    the call itself evaluates to [None]. *)
Fixpoint str_insert (x : string) (l : list string) : list string :=
  match l with
  | [] => [x]
  | y :: r => if String.ltb x y then x :: y :: r else y :: str_insert x r
  end.

Definition list_sort (l : list string) : list string * json :=
  (fold_left (fun acc x => str_insert x acc) l [], JNull).

(** [assert b]. *)
Definition assert (b : bool) : result unit :=
  if b then Ok tt else Raise AssertionError.

(** [os.path.join(a, b)] of [posixpath], for a string [a]. *)
Fixpoint ends_with_slash (s : string) : bool :=
  match s with
  | EmptyString => false
  | String c EmptyString => Ascii.eqb c "/"
  | String _ t => ends_with_slash t
  end.

Definition path_join (a : string) (b : json) : result string :=
  match b with
  | JStr b =>
      if String.prefix "/" b then Ok b
      else if String.eqb a "" || ends_with_slash a then Ok (String.append a b)
      else Ok (String.append a (String.append "/" b))
  | _ => Raise TypeError
  end.
End Py.

(** ** The object store *)

(** The script mutates the manifest in place through references it
    keeps to inner objects ([state.manifest_urls], the entries of
    [state.manifest_todo]). A document that [json.load] returns is a
    tree: no object is reachable in two ways. So an object is named by
    the path that leads to it from the root, and a mutation through a
    reference is an update of the root at that path. No statement of the
    script unlinks an object that it still holds a reference to. *)
Inductive step : Type :=
| Key (k : string)
| Idx (i : nat).

Definition ref : Type := list step.

Module Store.
(** The object a reference names. *)
Fixpoint deref (root : json) (r : ref) : option json :=
  match r with
  | [] => Some root
  | Key k :: r' =>
      match root with
      | JObj d => match Dict.get k d with
                  | Some c => deref c r'
                  | None => None
                  end
      | _ => None
      end
  | Idx i :: r' =>
      match root with
      | JArr l => match l !! i with
                  | Some c => deref c r'
                  | None => None
                  end
      | _ => None
      end
  end.

(** The root after the object at [r] has become [v]. *)
Fixpoint assign (root : json) (r : ref) (v : json) : json :=
  match r with
  | [] => v
  | Key k :: r' =>
      match root with
      | JObj d => match Dict.get k d with
                  | Some c => JObj (Dict.set k (assign c r' v) d)
                  | None => root
                  end
      | _ => root
      end
  | Idx i :: r' =>
      match root with
      | JArr l => match l !! i with
                  | Some c => JArr (<[i := assign c r' v]> l)
                  | None => root
                  end
      | _ => root
      end
  end.

Definition load (root : json) (r : ref) : result json :=
  match deref root r with
  | Some v => Ok v
  | None => Raise DanglingReference
  end.

(** A method or statement [f] that mutates the object at [r]. *)
Definition modify (root : json) (r : ref) (f : json -> result json)
  : result json :=
  let* obj := load root r in
  let* obj' := f obj in
  Ok (assign root r obj').
End Store.

(** ** The script *)

(** The number of constructors of a document bounds the length of any
    chain of nested objects in it. *)
Fixpoint json_size (j : json) : nat :=
  match j with
  | JArr l => S (list_sum (map json_size l))
  | JObj d => S (list_sum (map (fun kv => json_size (snd kv)) d))
  | _ => 1
  end.

(** [class State]. [manifest_urls] and the entries of [manifest_todo]
    are references into [manifest]; [None] is the value the class gives
    [manifest_urls] before a parser sets it. *)
Record State : Type := mkState {
  cwd : string;
  manifest : json;
  manifest_urls : option ref;
  manifest_todo : list ref;
}.

(** What a run leaves behind: the exit status and the document written
    to the standard output, if one was. *)
Record Outcome : Type := mkOutcome {
  status : Z;
  stdout : option json;
}.

Module Mpp.
Section Mpp.
(** [json.load(open(p))] of the files the imports name: the file
    system the script runs on. *)
Variable read_json : string -> result json.

Definition directive : string := "mpp-import-pipeline".

(** [_manifest_enter(manifest, key, default)], for the object
    [manifest] of the tree [root]. Gives the tree, where the default may
    have been stored, and the reference to [manifest[key]]. *)
Definition _manifest_enter (root : json) (manifest : ref) (key : string)
    (default : json) : result (json * ref) :=
  let* obj := Store.load root manifest in
  let* present := Py.contains key obj in
  let* obj := (if negb present then Py.setitem obj key default else Ok obj) in
  let* _ := Py.getitem obj key in
  Ok (Store.assign root manifest obj, manifest ++ [Key key]).

(** [get_sort_key] of [_sort_urls]. *)
Definition get_sort_key (item : string * json) : result json :=
  let key := snd item in
  match key with
  | JObj _ => Py.getitem key "url"
  | _ => Ok key
  end.

(** [_sort_urls(urls)]. *)
Definition _sort_urls (root : json) (urls : option ref) : result json :=
  match urls with
  | None => Ok root
  | Some r =>
      let* obj := Store.load root r in
      if negb (Py.truthy obj) then Ok root
      else
        let* items := Py.items obj in
        let* urls_sorted := Py.sorted get_sort_key items in
        let cleared : list (string * json) := [] in
        let ordered := Dict.update [] urls_sorted in
        Ok (Store.assign root r (JObj (Dict.update cleared ordered)))
  end.

(** The [while current:] loop of [_manifest_parse_v1]. [fuel] bounds
    the number of iterations. *)
Fixpoint find_import (fuel : nat) (root : json) (current : ref)
  : option (result (list ref)) :=
  match fuel with
  | 0 => None
  | S fuel =>
      match Store.deref root current with
      | None => Some (Raise DanglingReference)
      | Some obj =>
          if negb (Py.truthy obj) then Some (Ok [])
          else
            match Py.contains directive obj with
            | Raise e => Some (Raise e)
            | Ok true => Some (Ok [current])
            | Ok false =>
                match Py.get obj "pipeline" (JObj []) with
                | Raise e => Some (Raise e)
                | Ok pipeline =>
                    match Py.get pipeline "build" JNull with
                    | Raise e => Some (Raise e)
                    | Ok JNull => Some (Ok [])
                    | Ok _ =>
                        find_import fuel root
                          (current ++ [Key "pipeline"; Key "build"])
                    end
                end
            end
      end
  end.

(** [_manifest_parse_v1(state, data)]. *)
Definition _manifest_parse_v1 (state : State) (data : json) : result State :=
  let manifest := data in
  let* (manifest, manifest_sources) :=
    _manifest_enter manifest [] "sources" (JObj []) in
  let* (manifest, manifest_files) :=
    _manifest_enter manifest manifest_sources "org.osbuild.files" (JObj []) in
  let* (manifest, manifest_urls) :=
    _manifest_enter manifest manifest_files "urls" (JObj []) in
  let* manifest_todo :=
    match find_import (json_size manifest) manifest [] with
    | Some r => r
    | None => Raise OutOfFuel
    end in
  Ok (mkState (cwd state) manifest (Some manifest_urls) manifest_todo).

(** [state.manifest_urls.update(imp_urls)]; [None] has no [update]. *)
Definition update_urls (root : json) (urls : option ref) (imp_urls : json)
  : result json :=
  match urls with
  | Some r => Store.modify root r (fun u => Py.update u imp_urls)
  | None => Raise AttributeError
  end.

(** [_manifest_process_v1], the directive and the file it names:
    from [mpp = _manifest_enter(...)] to [imp = json.load(f)]. *)
Definition open_import_v1 (state : State) (todo : ref) : result (json * json) :=
  let* (manifest, mpp) :=
    _manifest_enter (manifest state) todo directive (JObj []) in
  let* mpp_obj := Store.load manifest mpp in
  let* mpp_path := Py.getitem mpp_obj "path" in
  let* file := Py.path_join (cwd state) mpp_path in
  let* imp := read_json file in
  Ok (manifest, imp).

(** [_manifest_process_v1], "Resolve keys from the import" and the
    two assertions. Gives [imp_urls] and [imp_pipeline]. *)
Definition check_import_v1 (imp : json) : result (json * json) :=
  let* (imp, imp_sources) := _manifest_enter imp [] "sources" (JObj []) in
  let* (imp, imp_files) :=
    _manifest_enter imp imp_sources "org.osbuild.files" (JObj []) in
  let* (imp, imp_urls) := _manifest_enter imp imp_files "urls" (JObj []) in
  let* (imp, imp_pipeline) := _manifest_enter imp [] "pipeline" (JObj []) in
  let* sources_obj := Store.load imp imp_sources in
  let* sources_keys := Py.keys sources_obj in
  let* _ := Py.assert (bool_decide (sources_keys = ["org.osbuild.files"%string])) in
  let* imp_keys := Py.keys imp in
  let* _ := Py.assert (Py.eq (snd (Py.list_sort imp_keys))
                             (snd (Py.list_sort ["pipeline"%string; "sources"%string]))) in
  let* urls_obj := Store.load imp imp_urls in
  let* pipeline_obj := Store.load imp imp_pipeline in
  Ok (urls_obj, pipeline_obj).

(** [_manifest_process_v1], the merge into the manifest. *)
Definition splice_v1 (state : State) (manifest : json) (todo : ref)
    (imp_urls imp_pipeline : json) : result State :=
  let* manifest := update_urls manifest (manifest_urls state) imp_urls in
  let* manifest :=
    Store.modify manifest todo (fun t => Py.setitem t "pipeline" imp_pipeline) in
  let* manifest :=
    Store.modify manifest todo (fun t => Py.delitem t directive) in
  Ok (mkState (cwd state) manifest (manifest_urls state) (manifest_todo state)).

(** [_manifest_process_v1(state, todo)]. *)
Definition _manifest_process_v1 (state : State) (todo : ref) : result State :=
  let* (manifest, imp) := open_import_v1 state todo in
  let* (imp_urls, imp_pipeline) := check_import_v1 imp in
  splice_v1 state manifest todo imp_urls imp_pipeline.

(** [_manifest_import_v1(state, src)]. *)
Definition _manifest_import_v1 (state : State) (src : json) : result State :=
  let* state := _manifest_parse_v1 state src in
  foldM _manifest_process_v1 (manifest_todo state) state.

(** The body of the loop of [_manifest_parse_v2], for the element at
    position [i] of [pipelines]. *)
Definition collect_v2 (todo : list ref) (ip : nat * json) : result (list ref) :=
  let* current := Py.get (snd ip) directive JNull in
  if Py.truthy current then Ok (todo ++ [[Key "pipelines"; Idx (fst ip)]])
  else Ok todo.

(** [_manifest_parse_v2(state, manifest)]. *)
Definition _manifest_parse_v2 (state : State) (manifest : json) : result State :=
  let* pipelines := Py.get manifest "pipelines" (JArr []) in
  let* elements := Py.iter pipelines in
  let* todo :=
    foldM collect_v2 (zip (seq 0 (length elements)) elements) [] in
  Ok (mkState (cwd state) manifest (manifest_urls state) todo).

(** The body of the loop "merge the sources" of [_manifest_process_v2]. *)
Definition merge_source (sources : ref) (manifest : json) (item : string * json)
  : result json :=
  let '(source, desc) := item in
  let* sources_obj := Store.load manifest sources in
  let* target := Py.get sources_obj source JNull in
  if negb (Py.truthy target) then
    Store.modify manifest sources (fun s => Py.setitem s source desc)
  else
    let target := sources ++ [Key source] in
    let* desc_options := Py.get desc "options" JNull in
    let* manifest :=
      (if Py.truthy desc_options then
         let* (manifest, options) :=
           _manifest_enter manifest target "options" (JObj []) in
         let* new := Py.getitem desc "options" in
         Store.modify manifest options (fun o => Py.update o new)
       else Ok manifest) in
    let* (manifest, items) := _manifest_enter manifest target "items" (JObj []) in
    let* new := Py.get desc "items" (JObj []) in
    Store.modify manifest items (fun o => Py.update o new).

(** The loop "get the pipeline" of [_manifest_process_v2]; [target]
    starts as [None]. *)
Fixpoint find_pipeline (pid : json) (pipelines : list json) : result json :=
  match pipelines with
  | [] => Ok JNull
  | pipeline :: rest =>
      let* name := Py.getitem pipeline "name" in
      if Py.eq name pid then Ok pipeline else find_pipeline pid rest
  end.

Definition not_found (pid path : json) : exn :=
  ValueError [FLit "Pipeline '"; FVal pid; FLit "' not found in "; FVal path].

(** [_manifest_process_v2], the directive and the file it names:
    from [sources = _manifest_enter(...)] to [imp = json.load(f)]. Gives
    the manifest, [sources], [mpp], [path] and [imp]. *)
Definition open_import_v2 (state : State) (todo : ref)
  : result (json * ref * json * json * json) :=
  let manifest := manifest state in
  let* (manifest, sources) := _manifest_enter manifest [] "sources" (JObj []) in
  let* todo_obj := Store.load manifest todo in
  let* mpp := Py.getitem todo_obj directive in
  let* path := Py.getitem mpp "path" in
  let* file := Py.path_join (cwd state) path in
  let* imp := read_json file in
  Ok (manifest, sources, mpp, path, imp).

(** [_manifest_process_v2], "merge the sources". *)
Definition merge_sources (sources : ref) (manifest imp : json) : result json :=
  let* imp_sources := Py.get imp "sources" (JObj []) in
  let* imp_items := Py.items imp_sources in
  foldM (merge_source sources) imp_items manifest.

(** [_manifest_process_v2], "get the pipeline". *)
Definition get_pipeline (mpp path imp : json) : result json :=
  let* pipelines := Py.get imp "pipelines" (JArr []) in
  let* pid := Py.getitem mpp "id" in
  let* elements := Py.iter pipelines in
  let* target := find_pipeline pid elements in
  if negb (Py.truthy target) then Raise (not_found pid path)
  else Ok target.

(** [_manifest_process_v2], the last two statements. *)
Definition splice_v2 (state : State) (manifest : json) (todo : ref)
    (target : json) : result State :=
  let* manifest := Store.modify manifest todo (fun t => Py.update t target) in
  let* manifest := Store.modify manifest todo (fun t => Py.delitem t directive) in
  Ok (mkState (cwd state) manifest (manifest_urls state) (manifest_todo state)).

(** [_manifest_process_v2(state, todo)]. *)
Definition _manifest_process_v2 (state : State) (todo : ref) : result State :=
  let* (manifest, sources, mpp, path, imp) := open_import_v2 state todo in
  let* manifest := merge_sources sources manifest imp in
  let* target := get_pipeline mpp path imp in
  splice_v2 state manifest todo target.

(** [_manifest_import_v2(state, src)]. *)
Definition _manifest_import_v2 (state : State) (src : json) : result State :=
  let* state := _manifest_parse_v2 state src in
  foldM _manifest_process_v2 (manifest_todo state) state.

(** [_main_state(args)]: [state.cwd = args.cwd or "."]. *)
Definition _main_state (args_cwd : option string) : State :=
  let cwd :=
    match args_cwd with
    | Some d => if String.eqb d "" then "." else d
    | None => "."
    end in
  mkState cwd JNull None [].

(** [_main_process(state)], for the document [src] read from the
    standard input. *)
Definition _main_process (state : State) (src : json) : result Outcome :=
  let* version := Py.get src "version" (JStr "1") in
  if Py.eq version (JStr "1") then
    let* state := _manifest_import_v1 state src in
    let* manifest := _sort_urls (manifest state) (manifest_urls state) in
    Ok (mkOutcome 0 (Some manifest))
  else if Py.eq version (JStr "2") then
    let* state := _manifest_import_v2 state src in
    let* manifest := _sort_urls (manifest state) (manifest_urls state) in
    Ok (mkOutcome 0 (Some manifest))
  else Ok (mkOutcome 1 None).

(** [main()]. *)
Definition main (args_cwd : option string) (stdin : json) : result Outcome :=
  _main_process (_main_state args_cwd) stdin.
End Mpp.
End Mpp.

(** * Vocabulary of the statements *)

(** The dictionary after [_manifest_enter]: the default is stored under
    a key that is not there yet. *)
Definition entered (key : string) (default : json) (d : list (string * json))
  : list (string * json) :=
  if Dict.mem key d then d else Dict.set key default d.

Definition entered_value (key : string) (default : json) (d : list (string * json))
  : json :=
  match Dict.get key d with Some v => v | None => default end.

Definition files_kind : string := "org.osbuild.files".

(** The mapping under key [k] of a descriptor, empty when the key is
    missing; nothing when the value under [k] is no mapping. *)
Definition submapping (k : string) (d : list (string * json))
  : option (list (string * json)) :=
  match Dict.get k d with
  | None => Some []
  | Some (JObj m) => Some m
  | Some _ => None
  end.

(** [sources.get(source)], [None] when there is no entry. *)
Definition entry_of (source : string) (srcs : list (string * json)) : json :=
  match Dict.get source srcs with Some v => v | None => JNull end.

(** What the version-2 merge makes of an existing descriptor [t] for an
    incoming descriptor [ds]. *)
Definition merged_descriptor (t ds : list (string * json))
  : result (list (string * json)) :=
  let incoming := match Dict.get "options" ds with Some v => v | None => JNull end in
  let* t :=
    (if Py.truthy incoming then
       let* options := Py.update (entered_value "options" (JObj []) t) incoming in
       Ok (Dict.set "options" options (entered "options" (JObj []) t))
     else Ok t) in
  let incoming := match Dict.get "items" ds with Some v => v | None => JObj [] end in
  let* items := Py.update (entered_value "items" (JObj []) t) incoming in
  Ok (Dict.set "items" items (entered "items" (JObj []) t)).

(** The reference to the entry at position [i] of [pipelines]. *)
Definition entry (i : nat) : ref := [Key "pipelines"; Idx i].

#[global] Instance step_eq_dec : EqDecision step.
Proof. solve_decision. Defined.

(** The reference to the node at depth [n] of the build chain: [n]
    times [.pipeline.build] from the root. *)
Fixpoint hops (n : nat) : ref :=
  match n with
  | 0 => []
  | S n => Key "pipeline" :: Key "build" :: hops n
  end.

(** The reference [state.manifest_urls] of a version-1 run. *)
Definition urls_ref : ref := [Key "sources"; Key files_kind; Key "urls"].

(** The root of a version-1 manifest after the three [_manifest_enter]
    of [_manifest_parse_v1]. *)
Definition defaulted (d : list (string * json)) : result (list (string * json)) :=
  match entered_value "sources" (JObj []) d with
  | JObj s =>
      match entered_value files_kind (JObj []) s with
      | JObj f =>
          Ok (Dict.set "sources"
                (JObj (Dict.set files_kind (JObj (entered "urls" (JObj []) f))
                         (entered files_kind (JObj []) s)))
                (entered "sources" (JObj []) d))
      | _ => Raise TypeError
      end
  | _ => Raise TypeError
  end.

(** Whether the node at depth [n] of the build chain of [root] holds the
    directive, as the walk tests it; nothing when the chain has no node
    at that depth. *)
Definition holds_directive (root : json) (n : nat) : option (result bool) :=
  match Store.deref root (hops n) with
  | Some o => Some (Py.contains Mpp.directive o)
  | None => None
  end.

(** The URL of an entry of [urls]: the string itself, or the [url] of a
    composite descriptor. *)
Definition url_of (v : json) : option string :=
  match v with
  | JStr s => Some s
  | JObj d => match Dict.get "url" d with
              | Some (JStr s) => Some s
              | _ => None
              end
  | _ => None
  end.

Definition url_shaped (item : string * json) : Prop := is_Some (url_of (snd item)).

(** [a] comes no later than [b] in the order of their URLs. *)
Definition url_le (a b : string * json) : Prop :=
  match url_of (snd a), url_of (snd b) with
  | Some x, Some y => String.leb x y = true
  | _, _ => False
  end.

(** In a sort, an element whose key is a string, and the order of two
    such elements. *)
Definition str_keyed {A} (x : json * A) : Prop := exists s, fst x = JStr s.

Definition key_le {A} (x y : json * A) : Prop :=
  exists s t, fst x = JStr s /\ fst y = JStr t /\ String.leb s t = true.

(** The two ways for the model to stop that are no exception of Python
    and no key that [json] cannot hold; [sound m] says that [m] does not
    end in one of them. *)
Definition model_stop (e : exn) : Prop := e = DanglingReference \/ e = OutOfFuel.

Definition sound {A} (m : result A) : Prop :=
  forall e, m = Raise e -> ~ model_stop e.

(** * Sample manifests *)

Module Examples.
(** A file system that holds the given documents. *)
Definition file_system (contents : list (string * json)) (p : string)
  : result json :=
  match Dict.get p contents with
  | Some j => Ok j
  | None => Raise OSError
  end.

Definition import_of (path : string) : json :=
  JObj [("mpp-import-pipeline", JObj [("path", JStr path)])].

(** A version-1 manifest whose build pipeline is imported. *)
Definition importer_v1 (path : string) : json :=
  JObj [("pipeline", JObj [("build", import_of path)])].

Definition some_urls : json := JObj [("sha256:aa", JStr "https://a")].

(** An import with a top-level key beside [pipeline] and [sources]. *)
Definition extra_key : json :=
  JObj [("pipeline", JObj [("stages", JArr [])]);
        ("sources", JObj [("org.osbuild.files", JObj [("urls", some_urls)])]);
        ("extra", JNum 1)].

(** An import whose sources hold no kind at all. *)
Definition no_kind : json :=
  JObj [("pipeline", JObj [("stages", JArr [])]); ("sources", JObj [])].

(** An import whose sources hold another kind. *)
Definition other_kind : json :=
  JObj [("pipeline", JObj []);
        ("sources", JObj [("org.osbuild.curl", JObj [])])].

Definition disk : string -> result json :=
  file_system [("./extra.json", extra_key); ("./no_kind.json", no_kind);
               ("./other_kind.json", other_kind)].
End Examples.

Module ExamplesV2.
Definition curl : string := "org.osbuild.curl".

(** An importing manifest that already describes [org.osbuild.curl]. *)
Definition with_curl (descriptor : json) : json :=
  JObj [("version", JStr "2"); ("sources", JObj [(curl, descriptor)])].

Definition pinned_fields : list (string * json) :=
  [("secrets", JStr "rhsm"); ("items", JObj [("sha256:aa", JStr "https://a")])].

Definition pinned : json := JObj pinned_fields.

Definition incoming_fields : list (string * json) :=
  [("origin", JStr "base"); ("items", JObj [("sha256:bb", JStr "https://b")])].

Definition incoming : json := JObj incoming_fields.

Definition stage1 : list (string * json) :=
  [("name", JStr "stage1"); ("type", JStr "org.osbuild.foo")].

(** The manifest [base.json] that the imports below name. *)
Definition base : json :=
  JObj [("pipelines", JArr [JObj stage1]);
        ("sources", JObj [(curl, JObj [("items", JObj [("a", JObj [])])])])].

Definition disk : string -> result json :=
  Examples.file_system [("./base.json", base)].

Definition directive_of (id : string) : json :=
  JObj [("path", JStr "base.json"); ("id", JStr id)].

Definition directive_stage1 : json := directive_of "stage1".

(** A manifest whose pipeline [build] is the pipeline [id] of
    [base.json]. *)
Definition importer (id : string) : json :=
  JObj [("version", JStr "2");
        ("pipelines",
         JArr [JObj [("name", JStr "build"); ("runner", JStr "org.osbuild.linux");
                     ("mpp-import-pipeline", directive_of id)]])].

Definition start : State := mkState "." (importer "stage1") None [].

(** A pipeline entry with a directive of the given fields. *)
Definition directed (fields : list (string * json)) : json :=
  JObj [("version", JStr "2");
        ("pipelines",
         JArr [JObj [("name", JStr "build");
                     ("mpp-import-pipeline", JObj fields)]])].
End ExamplesV2.

Module ExamplesV1.
(** [Examples.importer_v1 "extra.json"] as [_manifest_parse_v1]
    leaves it, and after the import. *)
Definition parsed : State :=
  mkState "."
    (JObj [("pipeline", JObj [("build", Examples.import_of "extra.json")]);
           ("sources", JObj [(files_kind, JObj [("urls", JObj [])])])])
    (Some urls_ref) [hops 1].

(** [Examples.importer_v1 "other_kind.json"] as parsed. *)
Definition parsed_other : State :=
  mkState "."
    (JObj [("pipeline", JObj [("build", Examples.import_of "other_kind.json")]);
           ("sources", JObj [(files_kind, JObj [("urls", JObj [])])])])
    (Some urls_ref) [hops 1].

Definition resolved : State :=
  mkState "."
    (JObj [("pipeline",
            JObj [("build", JObj [("pipeline", JObj [("stages", JArr [])])])]);
           ("sources", JObj [(files_kind, JObj [("urls", Examples.some_urls)])])])
    (Some urls_ref) [hops 1].

(** A manifest without import whose [urls] are not in the order of the
    URLs; the second entry is a composite descriptor. *)
Definition unsorted_urls : list (string * json) :=
  [("sha256:cc", JStr "https://c");
   ("sha256:bb", JObj [("url", JStr "https://b"); ("etag", JStr "x")]);
   ("sha256:aa", JStr "https://a")].

Definition sorted_urls : list (string * json) :=
  [("sha256:aa", JStr "https://a");
   ("sha256:bb", JObj [("url", JStr "https://b"); ("etag", JStr "x")]);
   ("sha256:cc", JStr "https://c")].

(** What a run makes of the empty manifest. *)
Definition defaults_only : json :=
  JObj [("sources", JObj [(files_kind, JObj [("urls", JObj [])])])].

Definition with_urls (urls : list (string * json)) : json :=
  JObj [("pipeline", JObj []);
        ("sources", JObj [(files_kind, JObj [("urls", JObj urls)])])].
End ExamplesV1.

(** * Further vocabulary *)

(** [sources.org.osbuild.files.urls] of a manifest, the empty mapping
    when it is missing. *)
Definition urls_of (root : json) : json :=
  match Store.deref root urls_ref with Some u => u | None => JObj [] end.

(** The references into [sources] that do not lead into
    [sources.org.osbuild.files.urls]: to another kind of source, or to
    another field of [org.osbuild.files]. *)
Definition beside_urls (p : ref) : Prop :=
  (exists k r, k <> files_kind /\ p = Key "sources" :: Key k :: r) \/
  (exists f r, f <> "urls"%string /\ p = Key "sources" :: Key files_kind :: Key f :: r).

(** Whether the URL of an entry of [urls] is [u]; whether the key of an
    element in a sort is the string [k]. *)
Definition has_url (u : string) (item : string * json) : bool :=
  match url_of (snd item) with
  | Some s => String.eqb s u
  | None => false
  end.

Definition is_key {A} (k : string) (x : json * A) : bool :=
  match fst x with
  | JStr s => String.eqb s k
  | _ => false
  end.

(** * Further sample manifests *)

Module ExamplesMore.
(** A version-2 manifest without import: one entry has no directive, the
    other an empty one. *)
Definition plain_v2 : json :=
  JObj [("version", JStr "2");
        ("pipelines",
         JArr [JObj [("name", JStr "build")];
               JObj [("name", JStr "os"); ("mpp-import-pipeline", JObj [])]]);
        ("sources", JObj [(ExamplesV2.curl, ExamplesV2.pinned)])].

(** A version-2 manifest whose second entry is a string. *)
Definition bad_entry_v2 : json :=
  JObj [("version", JStr "2");
        ("pipelines", JArr [JObj [("name", JStr "build")]; JStr "os"])].

(** An imported manifest with two pipelines named [stage1], and an
    entry behind them that is no pipeline at all. *)
Definition first_stage1 : list (string * json) :=
  [("name", JStr "stage1"); ("runner", JStr "first")].

Definition twice : json :=
  JObj [("pipelines",
         JArr [JObj [("name", JStr "stage0")];
               JObj first_stage1;
               JObj [("name", JStr "stage1"); ("runner", JStr "second")];
               JNum 7])].

(** A version-1 manifest with URLs of its own, a further field in
    [org.osbuild.files] and a further kind of source; it imports
    [extra.json], which gives [sha256:aa] another URL. *)
Definition own_urls : list (string * json) :=
  [("sha256:zz", JStr "https://z"); ("sha256:aa", JStr "https://old")].

Definition importer_with_urls : json :=
  JObj [("pipeline", JObj [("build", Examples.import_of "extra.json")]);
        ("sources",
         JObj [(files_kind, JObj [("urls", JObj own_urls); ("note", JStr "kept")]);
               (ExamplesV2.curl, ExamplesV2.pinned)])].

(** A version-1 manifest with an entry of [urls] that has no [url]. *)
Definition without_url : json :=
  ExamplesV1.with_urls
    [("sha256:aa", JStr "https://a"); ("sha256:bb", JObj [("etag", JStr "x")])].

(** A version-2 manifest with two kinds of sources; [base.json] has the
    first of them only. *)
Definition inline : string := "org.osbuild.inline".

Definition two_kinds : json :=
  JObj [("version", JStr "2");
        ("sources", JObj [(ExamplesV2.curl, ExamplesV2.pinned);
                          (inline, JObj [("items", JObj [])])])].

(** [two_kinds] after the merge of the sources of [base.json]. *)
Definition merged_two_kinds : json :=
  JObj [("version", JStr "2");
        ("sources",
         JObj [(ExamplesV2.curl,
                JObj [("secrets", JStr "rhsm");
                      ("items", JObj [("sha256:aa", JStr "https://a");
                                      ("a", JObj [])])]);
               (inline, JObj [("items", JObj [])])])].

(** A version-2 manifest with a further top-level key and two entries,
    the first of which imports [stage1] of [base.json]; and what a run
    makes of it. *)
Definition two_entries : json :=
  JObj [("version", JStr "2");
        ("metadata", JObj [("owner", JStr "team")]);
        ("pipelines",
         JArr [JObj [("name", JStr "build");
                     ("mpp-import-pipeline", ExamplesV2.directive_stage1)];
               JObj [("name", JStr "os"); ("stages", JArr [])]])].

Definition two_entries_resolved : json :=
  JObj [("version", JStr "2");
        ("metadata", JObj [("owner", JStr "team")]);
        ("pipelines",
         JArr [JObj [("name", JStr "stage1"); ("type", JStr "org.osbuild.foo")];
               JObj [("name", JStr "os"); ("stages", JArr [])]]);
        ("sources",
         JObj [(ExamplesV2.curl, JObj [("items", JObj [("a", JObj [])])])])].

(** [importer_with_urls] after the run. *)
Definition resolved_with_urls : json :=
  JObj [("pipeline",
         JObj [("build", JObj [("pipeline", JObj [("stages", JArr [])])])]);
        ("sources",
         JObj [(files_kind,
                JObj [("urls", JObj [("sha256:aa", JStr "https://a");
                                     ("sha256:zz", JStr "https://z")]);
                      ("note", JStr "kept")]);
               (ExamplesV2.curl, ExamplesV2.pinned)])].

(** URLs two of which are the same. *)
Definition same_url : list (string * json) :=
  [("sha256:cc", JStr "https://b"); ("sha256:aa", JStr "https://a");
   ("sha256:bb", JStr "https://b")].
End ExamplesMore.

(** * Vocabulary of a version-2 import *)

(** The state [st] stands before the import of the entry at position
    [i] of [pipelines]: the entry is the mapping [e], it holds the
    directive [mpp], and the file that [mpp["path"]] names, joined to
    [state.cwd], holds the document [imp]. *)
Definition at_import_v2 (read_json : string -> result json) (st : State) (i : nat)
    (e : list (string * json)) (mpp path imp : json) : Prop :=
  exists file,
    Store.deref (manifest st) (entry i) = Some (JObj e) /\
    Dict.get Mpp.directive e = Some mpp /\
    Py.getitem mpp "path" = Ok path /\
    Py.path_join (cwd st) path = Ok file /\
    read_json file = Ok imp.

(** An entry of the imported [pipelines] that has a name, and the name
    is not [pid]. *)
Definition named_otherwise (pid : json) (p : json) : Prop :=
  exists name, Py.getitem p "name" = Ok name /\ Py.eq name pid = false.

(** An entry of the imported [pipelines] that is not named [pid]: it
    has another name, or none, or is no mapping. *)
Definition not_named (pid : json) (p : json) : Prop :=
  forall name, Py.getitem p "name" = Ok name -> Py.eq name pid = false.

(** The source descriptors of the document [imp] have mappings as their
    [options] and [items], where they have them: then no [dict.update] of
    an import of [imp] is given a sequence of pairs. *)
Definition mapping_sources (imp : json) : Prop :=
  forall srcs kind ds,
    Py.get imp "sources" (JObj []) = Ok (JObj srcs) ->
    (kind, JObj ds) ∈ srcs ->
    is_Some (submapping "options" ds) /\ is_Some (submapping "items" ds).

(** The computation [m] does not stop at a key that is no [str]: on
    such a run every key that a [dict.update] stores is one that [json]
    holds. *)
Definition keys_are_str {A} (m : result A) : Prop := m <> Raise NonStringKey.

(** * Sample imports *)

Module ExamplesImport.
(** A version-2 manifest with the given [sources] whose one pipeline
    imports the pipeline [id] of the file [path]. *)
Definition mpp (path id : string) : json :=
  JObj [("path", JStr path); ("id", JStr id)].

Definition build (path id : string) : list (string * json) :=
  [("name", JStr "build"); ("runner", JStr "org.osbuild.linux");
   ("mpp-import-pipeline", mpp path id)].

Definition importer (sources : json) (path id : string) : json :=
  JObj [("version", JStr "2");
        ("sources", sources);
        ("pipelines", JArr [JObj (build path id)])].

Definition nameless : json := JObj [("type", JStr "org.osbuild.bar")].

(** A manifest whose pipeline [stage1] stands behind an entry without
    name, and one whose only entry has no name. *)
Definition nameless_first : json :=
  JObj [("pipelines", JArr [nameless; JObj ExamplesV2.stage1])].

Definition nameless_only : json := JObj [("pipelines", JArr [nameless])].

(** A manifest that describes two kinds of sources. *)
Definition origin : json :=
  JObj [("pipelines", JArr [JObj ExamplesV2.stage1]);
        ("sources", JObj [(ExamplesV2.curl, ExamplesV2.incoming);
                          (ExamplesMore.inline,
                           JObj [("items", JObj [("sha256:cc", JStr "c")])])])].

(** A manifest without sources whose pipeline [stage1] is the second
    entry, and one whose descriptor of [org.osbuild.curl] has neither
    [options] nor [items]. *)
Definition plain : json :=
  JObj [("pipelines", JArr [JObj [("name", JStr "stage0")]; JObj ExamplesV2.stage1])].

Definition bare : json :=
  JObj [("pipelines", JArr [JObj ExamplesV2.stage1]);
        ("sources", JObj [(ExamplesV2.curl, JObj [("origin", JStr "base")])])].

Definition disk : string -> result json :=
  Examples.file_system
    [("./base.json", ExamplesV2.base); ("./twice.json", ExamplesMore.twice);
     ("./nameless_first.json", nameless_first);
     ("./nameless_only.json", nameless_only); ("./origin.json", origin);
     ("./plain.json", plain); ("./bare.json", bare)].

(** The state before the import of the pipeline [id] of the file [path]
    into a manifest with the given [sources]. *)
Definition ready (sources : json) (path id : string) : State :=
  mkState "." (importer sources path id) None [entry 0].

(** Before the import of [origin.json] into a manifest that has the
    descriptor [descriptor] for [org.osbuild.curl]. *)
Definition before (descriptor : json) : State :=
  ready (JObj [(ExamplesV2.curl, descriptor)]) "origin.json" "stage1".

Definition resolved_stage1 : json :=
  JObj [("name", JStr "stage1"); ("runner", JStr "org.osbuild.linux");
        ("type", JStr "org.osbuild.foo")].

(** After the import of [origin.json] into [before ExamplesV2.pinned]. *)
Definition after : State :=
  mkState "."
    (JObj [("version", JStr "2");
           ("sources",
            JObj [(ExamplesV2.curl,
                   JObj [("secrets", JStr "rhsm");
                         ("items", JObj [("sha256:aa", JStr "https://a");
                                         ("sha256:bb", JStr "https://b")])]);
                  (ExamplesMore.inline,
                   JObj [("items", JObj [("sha256:cc", JStr "c")])])]);
           ("pipelines", JArr [resolved_stage1])])
    None [entry 0].

(** Before and after the import of [bare.json] into a manifest whose
    descriptor of [org.osbuild.curl] has no [items] either. *)
Definition secrets : json := JObj [("secrets", JStr "rhsm")].

Definition before_bare : State :=
  ready (JObj [(ExamplesV2.curl, secrets)]) "bare.json" "stage1".

Definition after_bare : State :=
  mkState "."
    (JObj [("version", JStr "2");
           ("sources",
            JObj [(ExamplesV2.curl,
                   JObj [("secrets", JStr "rhsm"); ("items", JObj [])])]);
           ("pipelines", JArr [resolved_stage1])])
    None [entry 0].

(** After the import of [plain.json] into a manifest without sources. *)
Definition after_plain : State :=
  mkState "."
    (JObj [("version", JStr "2"); ("sources", JObj []);
           ("pipelines", JArr [resolved_stage1])])
    None [entry 0].

(** [ExamplesMore.two_kinds] after the merge of the sources of
    [origin]. *)
Definition merged_with_origin : json :=
  JObj [("version", JStr "2");
        ("sources",
         JObj [(ExamplesV2.curl,
                JObj [("secrets", JStr "rhsm");
                      ("items", JObj [("sha256:aa", JStr "https://a");
                                      ("sha256:bb", JStr "https://b")])]);
               (ExamplesMore.inline,
                JObj [("items", JObj [("sha256:cc", JStr "c")])])])].
End ExamplesImport.
(** * Properties *)

(** ** Results *)

Lemma bind_Ok {A B} (m : result A) (f : A -> result B) (b : B) :
  bind m f = Ok b -> exists a, m = Ok a /\ f a = Ok b.
Proof. destruct m as [a|e]; simpl; [eauto | discriminate]. Qed.

Lemma bind_Raise {A B} (m : result A) (f : A -> result B) (e : exn) :
  m = Raise e -> bind m f = Raise e.
Proof. intros ->. reflexivity. Qed.

(** Takes a hypothesis [let* x := m in k = Ok b] apart. *)
Ltac bind_inv H :=
  let a := fresh "a" in
  let Ha := fresh "E" in
  apply bind_Ok in H; destruct H as (a & Ha & H).

(** Closes [Dict.wf d] for a given list of items [d]. *)
Ltac solve_wf := apply (bool_decide_unpack _); reflexivity.

Lemma foldM_app {A S} (f : S -> A -> result S) (l1 l2 : list A) (s : S) :
  foldM f (l1 ++ l2) s = let* s' := foldM f l1 s in foldM f l2 s'.
Proof.
  revert s. induction l1 as [|a l1 IH]; intros s; simpl; [reflexivity|].
  destruct (f s a); simpl; auto.
Qed.

(** ** Dictionaries *)

Section DictFacts.
Context {V : Type}.
Implicit Types (k : string) (v : V) (d : list (string * V)).

Lemma eqb_refl' k : String.eqb k k = true.
Proof. apply String.eqb_refl. Qed.

Lemma eqb_ne k k' : k <> k' -> String.eqb k k' = false.
Proof. intros. by apply String.eqb_neq. Qed.

Lemma get_set_eq k v d : Dict.get k (Dict.set k v d) = Some v.
Proof.
  induction d as [|[k' v'] d IH]; simpl.
  - by rewrite eqb_refl'.
  - destruct (String.eqb k k') eqn:E; simpl; rewrite E; auto.
Qed.

Lemma get_set_ne k k' v d :
  k <> k' -> Dict.get k' (Dict.set k v d) = Dict.get k' d.
Proof.
  intros Hne. induction d as [|[k0 v0] d IH]; simpl.
  - rewrite eqb_ne; auto.
  - destruct (String.eqb k k0) eqn:E; simpl.
    + apply String.eqb_eq in E as <-. rewrite (eqb_ne k' k); auto.
    + by rewrite IH.
Qed.

Lemma get_set k k' v d :
  Dict.get k' (Dict.set k v d) = if String.eqb k k' then Some v else Dict.get k' d.
Proof.
  destruct (String.eqb k k') eqn:E.
  - apply String.eqb_eq in E as ->. apply get_set_eq.
  - apply String.eqb_neq in E. by apply get_set_ne.
Qed.

Lemma get_del_eq k d : Dict.get k (Dict.del k d) = None.
Proof.
  induction d as [|[k' v'] d IH]; simpl; [done|].
  destruct (String.eqb k k') eqn:E; simpl; [done|]. by rewrite E.
Qed.

Lemma get_del_ne k k' d :
  k <> k' -> Dict.get k' (Dict.del k d) = Dict.get k' d.
Proof.
  intros Hne. induction d as [|[k0 v0] d IH]; simpl; [done|].
  destruct (String.eqb k k0) eqn:E; simpl.
  - apply String.eqb_eq in E as <-. rewrite (eqb_ne k' k); auto.
  - by rewrite IH.
Qed.

Lemma get_None_notin k d : Dict.get k d = None <-> k ∉ Dict.keys d.
Proof.
  induction d as [|[k' v'] d IH]; simpl.
  - split; [intros _; apply not_elem_of_nil | done].
  - rewrite not_elem_of_cons. destruct (String.eqb k k') eqn:E.
    + apply String.eqb_eq in E. split; [done | tauto].
    + apply String.eqb_neq in E. rewrite IH. tauto.
Qed.

Lemma get_Some_in k v d : Dict.get k d = Some v -> (k, v) ∈ d.
Proof.
  induction d as [|[k' v'] d IH]; simpl; [done|].
  destruct (String.eqb k k') eqn:E.
  - apply String.eqb_eq in E as ->. intros [= ->]. left.
  - intros. right. auto.
Qed.

Lemma in_get_wf k v d : Dict.wf d -> (k, v) ∈ d -> Dict.get k d = Some v.
Proof.
  unfold Dict.wf. induction d as [|[k' v'] d IH]; simpl.
  - intros _ H. by apply elem_of_nil in H.
  - rewrite NoDup_cons. intros [Hk Hd] [[= -> ->]|Hin]%elem_of_cons.
    + by rewrite eqb_refl'.
    + rewrite eqb_ne; [auto|]. intros ->. apply Hk.
      apply list_elem_of_fmap. by exists (k', v).
Qed.

Lemma keys_set k v d :
  Dict.keys (Dict.set k v d) =
  if Dict.mem k d then Dict.keys d else Dict.keys d ++ [k].
Proof.
  unfold Dict.mem. induction d as [|[k' v'] d IH]; simpl; [done|].
  destruct (String.eqb k k') eqn:E; simpl; [done|].
  rewrite IH. by destruct (Dict.get k d).
Qed.

Lemma wf_set k v d : Dict.wf d -> Dict.wf (Dict.set k v d).
Proof.
  unfold Dict.wf. rewrite keys_set. unfold Dict.mem.
  destruct (Dict.get k d) eqn:E; [done|]. intros Hd.
  apply get_None_notin in E. apply NoDup_app. split_and!; [done| |apply NoDup_singleton].
  intros x Hx ->%list_elem_of_singleton. done.
Qed.

Lemma wf_update d d2 : Dict.wf d -> Dict.wf (Dict.update d d2).
Proof.
  unfold Dict.update. revert d.
  induction d2 as [|[k v] d2 IH]; intros d Hd; simpl; [done|].
  apply IH. by apply wf_set.
Qed.

(** After [d.update(d2)] a key of [d2] has the value [d2] gives it, and
    any other key the value it had. *)
Lemma get_update k d d2 :
  Dict.wf d2 ->
  Dict.get k (Dict.update d d2) =
  match Dict.get k d2 with Some v => Some v | None => Dict.get k d end.
Proof.
  unfold Dict.update, Dict.wf. revert d.
  induction d2 as [|[k' v'] d2 IH]; intros d; simpl; [done|].
  rewrite NoDup_cons. intros [Hk Hd2]. rewrite IH by done.
  destruct (String.eqb k k') eqn:E.
  - apply String.eqb_eq in E as ->.
    apply get_None_notin in Hk. rewrite Hk. apply get_set_eq.
  - apply String.eqb_neq in E. rewrite get_set_ne by done. done.
Qed.

(** What [urls.clear(); urls.update(...)] stores: the items as given. *)
Lemma update_nil_app d d2 :
  Dict.wf (d ++ d2) -> Dict.update d d2 = d ++ d2.
Proof.
  unfold Dict.update, Dict.wf, Dict.keys. revert d.
  induction d2 as [|[k v] d2 IH]; intros d Hd; simpl.
  - by rewrite app_nil_r.
  - assert (Hset : Dict.set k v d = d ++ [(k, v)]).
    { assert (Hk : k ∉ Dict.keys d).
      { unfold Dict.keys. rewrite fmap_app in Hd. apply NoDup_app in Hd as (_ & Hd & _).
        intros Hin. apply (Hd k Hin). simpl. left. }
      clear -Hk. induction d as [|[k0 v0] d IHd]; simpl; [done|].
      apply not_elem_of_cons in Hk as [Hne Hk]. rewrite eqb_ne by done.
      f_equal. by apply IHd. }
    rewrite Hset, IH; rewrite <- ?app_assoc; simpl; done.
Qed.

Lemma update_empty d : Dict.wf d -> Dict.update [] d = d.
Proof. intros. by apply (update_nil_app []). Qed.
End DictFacts.

(** ** The object store *)

Section StoreFacts.
Import Store.

Lemma set_get_id {V} k (v : V) d : Dict.get k d = Some v -> Dict.set k v d = d.
Proof.
  induction d as [|[k' v'] d IH]; simpl; [done|].
  destruct (String.eqb k k') eqn:E.
  - by intros [= ->].
  - intros. f_equal. auto.
Qed.

Lemma deref_app root r s :
  deref root (r ++ s) =
  match deref root r with Some o => deref o s | None => None end.
Proof.
  revert root. induction r as [|[k|i] r IH]; intros root; simpl; [done| |].
  - destruct root; try done. destruct (Dict.get k d); auto.
  - destruct root; try done. destruct (l !! i); auto.
Qed.

Lemma deref_assign_eq root r v :
  is_Some (deref root r) -> deref (assign root r v) r = Some v.
Proof.
  revert root. induction r as [|[k|i] r IH]; intros root; simpl; [done| |].
  - destruct root; try by intros [? [=]].
    destruct (Dict.get k d) eqn:E; [|by intros [? [=]]].
    intros H. simpl. rewrite get_set_eq. auto.
  - destruct root; try by intros [? [=]].
    destruct (l !! i) eqn:E; [|by intros [? [=]]].
    intros H. simpl. rewrite list_lookup_insert_eq; [auto|].
    by eapply lookup_lt_Some.
Qed.

Lemma assign_dangling root r v : deref root r = None -> assign root r v = root.
Proof.
  revert root. induction r as [|[k|i] r IH]; intros root; simpl; [done| |].
  - destruct root; try done. destruct (Dict.get k d) eqn:E; [|done].
    intros H. rewrite (IH _ H). by rewrite set_get_id.
  - destruct root; try done. destruct (l !! i) eqn:E; [|done].
    intros H. rewrite (IH _ H). by rewrite list_insert_id.
Qed.

Lemma assign_app root r s o v :
  deref root r = Some o -> assign root (r ++ s) v = assign root r (assign o s v).
Proof.
  revert root. induction r as [|[k|i] r IH]; intros root; simpl.
  - by intros [= ->].
  - destruct root; try done. destruct (Dict.get k d) eqn:E; [|done].
    intros H. by rewrite (IH _ H).
  - destruct root; try done. destruct (l !! i) eqn:E; [|done].
    intros H. by rewrite (IH _ H).
Qed.

(** An assignment under one key or index of an object leaves what the
    other keys and indices lead to as it was. *)
Lemma deref_assign_other root s s' r r' v :
  s <> s' -> deref (assign root (s :: r) v) (s' :: r') = deref root (s' :: r').
Proof.
  intros Hne. destruct s as [k|i], s' as [k'|i']; destruct root; simpl; try done.
  - destruct (Dict.get k d) eqn:E; [|done]. simpl.
    rewrite get_set_ne; [done | congruence].
  - by destruct (Dict.get k d).
  - by destruct (l !! i).
  - destruct (l !! i) eqn:E; [|done]. simpl.
    rewrite list_lookup_insert_ne; [done | congruence].
Qed.

Lemma deref_assign_diverge root c s s' r r' v :
  s <> s' ->
  deref (assign root (c ++ s :: r) v) (c ++ s' :: r') = deref root (c ++ s' :: r').
Proof.
  intros Hne. destruct (deref root c) as [o|] eqn:E.
  - rewrite (assign_app _ _ _ _ _ E), !deref_app, E.
    rewrite deref_assign_eq by eauto. by apply deref_assign_other.
  - rewrite assign_dangling; [done|]. by rewrite deref_app, E.
Qed.

Lemma load_Ok root r o : load root r = Ok o <-> deref root r = Some o.
Proof. unfold load. destruct (deref root r); split; congruence. Qed.

Lemma modify_Ok root r f root' :
  modify root r f = Ok root' ->
  exists o o', deref root r = Some o /\ f o = Ok o' /\ root' = assign root r o'.
Proof.
  unfold modify. intros H. bind_inv H. bind_inv H.
  apply load_Ok in E. injection H as <-. eauto.
Qed.

Lemma modify_eq root r f o :
  deref root r = Some o ->
  modify root r f = let* o' := f o in Ok (assign root r o').
Proof. unfold modify, load. by intros ->. Qed.
End StoreFacts.

(** ** [_manifest_enter] *)

Lemma get_entered key default d :
  Dict.get key (entered key default d) = Some (entered_value key default d).
Proof.
  unfold entered, entered_value, Dict.mem.
  destruct (Dict.get key d) eqn:E; [done|]. apply get_set_eq.
Qed.

Lemma get_entered_ne key k default d :
  key <> k -> Dict.get k (entered key default d) = Dict.get k d.
Proof.
  intros. unfold entered. destruct (Dict.mem key d); [done|]. by apply get_set_ne.
Qed.

Lemma enter_dict root m key default d :
  Store.deref root m = Some (JObj d) ->
  Mpp._manifest_enter root m key default =
  Ok (Store.assign root m (JObj (entered key default d)), m ++ [Key key]).
Proof.
  intros H. unfold Mpp._manifest_enter, Store.load. rewrite H. simpl.
  unfold entered, Dict.mem. destruct (Dict.get key d) eqn:E; simpl.
  - by rewrite E.
  - by rewrite get_set_eq.
Qed.

Lemma enter_not_dict root m key default o :
  Store.deref root m = Some o -> (forall d, o <> JObj d) ->
  Mpp._manifest_enter root m key default = Raise TypeError.
Proof.
  intros H Hd. unfold Mpp._manifest_enter, Store.load. rewrite H. simpl.
  destruct o; simpl; try done.
  - by destruct (Py.str_contains key s).
  - by destruct (existsb _ l).
  - by destruct (Hd d).
Qed.

Lemma enter_Ok root m key default root' r :
  Mpp._manifest_enter root m key default = Ok (root', r) ->
  exists d, Store.deref root m = Some (JObj d) /\
            root' = Store.assign root m (JObj (entered key default d)) /\
            r = m ++ [Key key].
Proof.
  intros H. destruct (Store.deref root m) as [o|] eqn:E.
  - destruct o; try (rewrite (enter_not_dict _ _ _ _ _ E) in H; [done|done]).
    rewrite (enter_dict _ _ _ _ _ E) in H. injection H as <- <-. eauto.
  - unfold Mpp._manifest_enter, Store.load in H. by rewrite E in H.
Qed.

(** The reference [_manifest_enter] returns names the entered value. *)
Lemma enter_deref root m key default d :
  Store.deref root m = Some (JObj d) ->
  Store.deref (Store.assign root m (JObj (entered key default d))) (m ++ [Key key])
  = Some (entered_value key default d).
Proof.
  intros H. rewrite deref_app, deref_assign_eq by eauto. simpl.
  by rewrite get_entered.
Qed.

Lemma keys_set_present {V} k (v : V) d :
  Dict.mem k d = true -> Dict.keys (Dict.set k v d) = Dict.keys d.
Proof. intros H. by rewrite keys_set, H. Qed.

Lemma mem_entered key default d : Dict.mem key (entered key default d) = true.
Proof. unfold Dict.mem. by rewrite get_entered. Qed.

(** ** The checks of a version-1 import *)

(** [check_import_v1] in closed form. *)
Lemma check_import_v1_dict d :
  Mpp.check_import_v1 (JObj d) =
  match entered_value "sources" (JObj []) d with
  | JObj s =>
      match entered_value files_kind (JObj []) s with
      | JObj f =>
          if bool_decide (Dict.keys (entered files_kind (JObj []) s) = [files_kind])
          then Ok (entered_value "urls" (JObj []) f,
                   entered_value "pipeline" (JObj []) d)
          else Raise AssertionError
      | _ => Raise TypeError
      end
  | _ => Raise TypeError
  end.
Proof.
  unfold Mpp.check_import_v1.
  rewrite (enter_dict (JObj d) [] "sources" (JObj []) d eq_refl). simpl.
  set (d1 := entered "sources" (JObj []) d).
  assert (H1 : Dict.get "sources" d1 = Some (entered_value "sources" (JObj []) d))
    by apply get_entered.
  destruct (entered_value "sources" (JObj []) d) as [| | | | |s] eqn:Esv;
    try (erewrite enter_not_dict; [done | simpl; rewrite H1; done | done]).
  erewrite (enter_dict _ _ _ _ s) by (simpl; by rewrite H1). simpl.
  rewrite H1.
  set (s1 := entered "org.osbuild.files" (JObj []) s).
  assert (H2 : Dict.get "org.osbuild.files" s1
               = Some (entered_value "org.osbuild.files" (JObj []) s))
    by apply get_entered.
  set (root2 := JObj (Dict.set "sources" (JObj s1) d1)).
  unfold files_kind.
  destruct (entered_value "org.osbuild.files" (JObj []) s) as [| | | | |f] eqn:Efv;
    try (erewrite enter_not_dict;
         [done | unfold root2; simpl; rewrite get_set_eq; simpl; rewrite H2; done | done]).
  erewrite (enter_dict _ _ _ _ f)
    by (unfold root2; simpl; rewrite get_set_eq; simpl; by rewrite H2).
  simpl. rewrite get_set_eq, H2.
  set (f1 := entered "urls" (JObj []) f).
  set (s2 := Dict.set "org.osbuild.files" (JObj f1) s1).
  set (d3 := Dict.set "sources" (JObj s2) (Dict.set "sources" (JObj s1) d1)).
  rewrite (enter_dict (JObj d3) [] "pipeline" (JObj []) d3 eq_refl). simpl.
  set (d4 := entered "pipeline" (JObj []) d3).
  assert (H4 : Dict.get "sources" d4 = Some (JObj s2)).
  { unfold d4. rewrite get_entered_ne by done. unfold d3. apply get_set_eq. }
  unfold Store.load. simpl. rewrite H4. simpl.
  assert (Hk : Dict.keys s2 = Dict.keys s1).
  { unfold s2. apply keys_set_present. apply mem_entered. }
  rewrite Hk. destruct (bool_decide _); simpl; [|done].
  unfold s2. rewrite get_set_eq. unfold f1. rewrite get_entered. simpl.
  unfold d4. rewrite get_entered. simpl. do 2 f_equal.
  unfold entered_value, d3. rewrite !get_set_ne by done.
  unfold d1. by rewrite get_entered_ne by done.
Qed.

Lemma check_import_v1_not_dict imp :
  (forall d, imp <> JObj d) -> Mpp.check_import_v1 imp = Raise TypeError.
Proof.
  intros H. unfold Mpp.check_import_v1.
  by rewrite (enter_not_dict imp [] _ _ imp eq_refl H).
Qed.

(** The second assertion compares [None] with [None]. *)
Lemma toplevel_keys_assert_passes (imp_keys : list string) :
  Py.assert (Py.eq (snd (Py.list_sort imp_keys))
                   (snd (Py.list_sort ["pipeline"%string; "sources"%string])))
  = Ok tt.
Proof. reflexivity. Qed.

(** C1. Stated: a version-1 import whose top-level key set is not
    exactly [{pipeline, sources}] is a hard failure. The script means to
    check it ("Make sure nothing else is in the manifest") but compares
    the results of two [list.sort()] calls, which are both [None]: here an
    import with the further top-level key [extra] is accepted and the
    resolved manifest is written. *)
Theorem C1_extra_toplevel_key_is_accepted :
  Py.keys Examples.extra_key = Ok ["pipeline"; "sources"; "extra"]%string /\
  Mpp.main Examples.disk None (Examples.importer_v1 "extra.json") =
  Ok (mkOutcome 0 (Some (JObj
    [("pipeline", JObj [("build", JObj [("pipeline", JObj [("stages", JArr [])])])]);
     ("sources", JObj [("org.osbuild.files",
                        JObj [("urls", Examples.some_urls)])])]))).
Proof. split; reflexivity. Qed.

(** C5 as stated fails: an import whose [sources] hold no
    kind at all is not rejected, because [org.osbuild.files] is entered by
    default before the assertion. *)
Lemma C5_empty_sources_accepted :
  Py.getitem Examples.no_kind "sources" = Ok (JObj []) /\
  Mpp.main Examples.disk None (Examples.importer_v1 "no_kind.json") =
  Ok (mkOutcome 0 (Some (JObj
    [("pipeline", JObj [("build", JObj [("pipeline", JObj [("stages", JArr [])])])]);
     ("sources", JObj [("org.osbuild.files", JObj [("urls", JObj [])])])]))).
Proof. split; reflexivity. Qed.

(** An import without [sources], or with empty [sources], passes the
    checks. *)
Lemma check_import_v1_defaults d :
  Dict.get "sources" d = None \/ Dict.get "sources" d = Some (JObj []) ->
  Mpp.check_import_v1 (JObj d) = Ok (JObj [], entered_value "pipeline" (JObj []) d).
Proof.
  intros H. rewrite check_import_v1_dict.
  assert (E : entered_value "sources" (JObj []) d = JObj []).
  { unfold entered_value. by destruct H as [-> | ->]. }
  by rewrite E.
Qed.

Lemma check_import_v1_other_kind d s k :
  Dict.get "sources" d = Some (JObj s) ->
  k ∈ Dict.keys s ->
  k <> files_kind ->
  Mpp.check_import_v1 (JObj d) = Raise AssertionError \/
  Mpp.check_import_v1 (JObj d) = Raise TypeError.
Proof.
  intros Hs Hk Hne.
  remember (Mpp.check_import_v1 (JObj d)) as c eqn:Ec.
  rewrite check_import_v1_dict in Ec.
  unfold entered_value at 1 in Ec. rewrite Hs in Ec.
  destruct (entered_value files_kind (JObj []) s); subst c; auto.
  case_bool_decide as Heq; [exfalso | auto].
  unfold entered in Heq.
  assert (Hin : k ∈ [files_kind]).
  { rewrite <- Heq. destruct (Dict.mem files_kind s) eqn:E; [done|].
    rewrite keys_set, E. apply elem_of_app. by left. }
  by apply list_elem_of_singleton in Hin.
Qed.

(** A version-1 run ends with the exception of its import. *)
Lemma main_process_v1_raises read_json st0 src version st todo err :
  Py.get src "version" (JStr "1") = Ok version ->
  Py.eq version (JStr "1") = true ->
  Mpp._manifest_parse_v1 st0 src = Ok st ->
  manifest_todo st = [todo] ->
  Mpp._manifest_process_v1 read_json st todo = Raise err ->
  Mpp._main_process read_json st0 src = Raise err.
Proof.
  intros Hv H1 Hparse Htodo Hp. unfold Mpp._main_process. rewrite Hv. simpl.
  rewrite H1. unfold Mpp._manifest_import_v1. rewrite Hparse. simpl.
  rewrite Htodo. simpl. by rewrite Hp.
Qed.

(** C5, amended. When the [sources] of the imported manifest hold a kind
    other than [org.osbuild.files], processing the import fails: with the
    [AssertionError] of the check, or before it with a [TypeError] when
    [org.osbuild.files] is not a mapping. The run whose walk has found
    this import ends with that exception and writes nothing. *)
Theorem C5_other_source_kind_is_fatal read_json st todo manifest d s k :
  Mpp.open_import_v1 read_json st todo = Ok (manifest, JObj d) ->
  Dict.get "sources" d = Some (JObj s) ->
  k ∈ Dict.keys s ->
  k <> files_kind ->
  exists err,
    (err = AssertionError \/ err = TypeError) /\
    Mpp._manifest_process_v1 read_json st todo = Raise err /\
    forall st0 src version,
      Py.get src "version" (JStr "1") = Ok version ->
      Py.eq version (JStr "1") = true ->
      Mpp._manifest_parse_v1 st0 src = Ok st ->
      manifest_todo st = [todo] ->
      Mpp._main_process read_json st0 src = Raise err.
Proof.
  intros Hopen Hs Hk Hne.
  assert (Hp : exists err, (err = AssertionError \/ err = TypeError) /\
                 Mpp._manifest_process_v1 read_json st todo = Raise err).
  { unfold Mpp._manifest_process_v1. rewrite Hopen. simpl.
    destruct (check_import_v1_other_kind d s k Hs Hk Hne) as [-> | ->]; eauto. }
  destruct Hp as (err & Herr & Hp). exists err. split_and!; try done.
  intros st0 src version Hv H1 Hparse Htodo.
  by eapply main_process_v1_raises.
Qed.

(** C5 on a sample manifest. *)
Lemma C5_other_source_kind_is_fatal_witness :
  exists err,
    (err = AssertionError \/ err = TypeError) /\
    Mpp._manifest_process_v1 Examples.disk ExamplesV1.parsed_other (hops 1)
    = Raise err /\
    forall st0 src version,
      Py.get src "version" (JStr "1") = Ok version ->
      Py.eq version (JStr "1") = true ->
      Mpp._manifest_parse_v1 st0 src = Ok ExamplesV1.parsed_other ->
      manifest_todo ExamplesV1.parsed_other = [hops 1] ->
      Mpp._main_process Examples.disk st0 src = Raise err.
Proof.
  eapply (C5_other_source_kind_is_fatal Examples.disk ExamplesV1.parsed_other
            (hops 1) _ _ [("org.osbuild.curl", JObj [])] "org.osbuild.curl").
  - reflexivity.
  - reflexivity.
  - simpl. left.
  - discriminate.
Defined.

(** ** The merge of the sources (version 2) *)

Section StoreMore.
Import Store.

Lemma set_set {V} k (v w : V) d : Dict.set k w (Dict.set k v d) = Dict.set k w d.
Proof.
  induction d as [|[k' v'] d IH]; simpl.
  - by rewrite eqb_refl'.
  - destruct (String.eqb k k') eqn:E; simpl; rewrite E; [done|]. by rewrite IH.
Qed.

Lemma assign_assign root r v w : assign (assign root r v) r w = assign root r w.
Proof.
  revert root. induction r as [|[k|i] r IH]; intros root; simpl; [done| |].
  - destruct root; try done. destruct (Dict.get k d) eqn:E; simpl; [|by rewrite E].
    by rewrite get_set_eq, IH, set_set.
  - destruct root; try done. destruct (l !! i) eqn:E; simpl; [|by rewrite E].
    rewrite list_lookup_insert_eq by (by eapply lookup_lt_Some).
    by rewrite IH, list_insert_insert_eq.
Qed.

Lemma assign_deref_id root r v : deref root r = Some v -> assign root r v = root.
Proof.
  revert root. induction r as [|[k|i] r IH]; intros root; simpl.
  - by intros [= ->].
  - destruct root; try done. destruct (Dict.get k d) eqn:E; [|done].
    intros H. rewrite (IH _ H). by rewrite set_get_id.
  - destruct root; try done. destruct (l !! i) eqn:E; [|done].
    intros H. rewrite (IH _ H). by rewrite list_insert_id.
Qed.

(** Storing under a key of the object at [m]. *)
Lemma assign_key root m k d v :
  deref root m = Some (JObj d) -> is_Some (Dict.get k d) ->
  assign root (m ++ [Key k]) v = assign root m (JObj (Dict.set k v d)).
Proof.
  intros H [c Hc]. rewrite (assign_app _ _ _ _ _ H). simpl. by rewrite Hc.
Qed.
End StoreMore.

(** [_manifest_enter] followed by a mutation of the entered object. *)
Lemma enter_then_modify root m key default d f :
  Store.deref root m = Some (JObj d) ->
  (let* (root', r) := Mpp._manifest_enter root m key default in
   Store.modify root' r f) =
  let* o := f (entered_value key default d) in
  Ok (Store.assign root m (JObj (Dict.set key o (entered key default d)))).
Proof.
  intros H. rewrite (enter_dict _ _ _ _ _ H). simpl.
  erewrite modify_eq by (by apply enter_deref).
  destruct (f _) as [o|e]; simpl; [|done]. f_equal.
  erewrite assign_key.
  - by rewrite assign_assign.
  - apply deref_assign_eq. eauto.
  - rewrite get_entered. eauto.
Qed.

Lemma merge_source_new sources manifest srcs source desc :
  Store.deref manifest sources = Some (JObj srcs) ->
  Py.truthy (entry_of source srcs) = false ->
  Mpp.merge_source sources manifest (source, desc) =
  Ok (Store.assign manifest sources (JObj (Dict.set source desc srcs))).
Proof.
  intros H Hf. unfold Mpp.merge_source, Store.load. rewrite H. simpl.
  fold (entry_of source srcs). rewrite Hf. simpl.
  by erewrite modify_eq by done.
Qed.

Lemma merge_source_existing sources manifest srcs source t ds :
  Store.deref manifest sources = Some (JObj srcs) ->
  Dict.get source srcs = Some (JObj t) ->
  t <> [] ->
  Mpp.merge_source sources manifest (source, JObj ds) =
  let* t' := merged_descriptor t ds in
  Ok (Store.assign manifest (sources ++ [Key source]) (JObj t')).
Proof.
  intros H Ht Hne. unfold Mpp.merge_source, Store.load. rewrite H. simpl.
  rewrite Ht. destruct t as [|kv t]; [done|]. simpl negb. cbv iota.
  set (t0 := kv :: t) in *. set (target := sources ++ [Key source]).
  assert (D : Store.deref manifest target = Some (JObj t0)).
  { unfold target. rewrite deref_app, H. simpl. by rewrite Ht. }
  unfold merged_descriptor. simpl Py.get. simpl bind at 1.
  destruct (Dict.get "options" ds) as [incoming|] eqn:Eds.
  2: { simpl. rewrite (enter_then_modify _ _ _ _ _ _ D).
       by destruct (Py.update _ _). }
  destruct (Py.truthy incoming) eqn:Eo.
  2: { simpl. rewrite (enter_then_modify _ _ _ _ _ _ D).
       by destruct (Py.update _ _). }
  rewrite (enter_dict _ _ _ _ _ D). simpl.
  erewrite modify_eq by (by apply enter_deref).
  destruct (Py.update _ incoming) as [o|e]; simpl; [|done].
  erewrite assign_key;
    [| apply deref_assign_eq; eauto | rewrite get_entered; eauto].
  rewrite assign_assign.
  set (t1 := Dict.set "options" o _).
  assert (D1 : Store.deref (Store.assign manifest target (JObj t1)) target
               = Some (JObj t1)) by (apply deref_assign_eq; eauto).
  rewrite (enter_then_modify _ _ _ _ _ _ D1).
  destruct (Py.update _ _); simpl; [|done]. by rewrite assign_assign.
Qed.

Lemma merge_source_Ok_shapes sources manifest srcs source target desc manifest' :
  Store.deref manifest sources = Some (JObj srcs) ->
  Dict.get source srcs = Some target ->
  Py.truthy target = true ->
  Mpp.merge_source sources manifest (source, desc) = Ok manifest' ->
  exists t ds, target = JObj t /\ t <> [] /\ desc = JObj ds.
Proof.
  intros H Ht Htr Hm.
  assert (D : Store.deref manifest (sources ++ [Key source]) = Some target).
  { rewrite deref_app, H. simpl. by rewrite Ht. }
  destruct desc as [| | | | |ds];
    try (unfold Mpp.merge_source, Store.load in Hm; rewrite H in Hm; simpl in Hm;
         rewrite Ht, Htr in Hm; discriminate).
  destruct target as [| | | | |t];
    try (exfalso; unfold Mpp.merge_source, Store.load in Hm; rewrite H in Hm;
         simpl in Hm; rewrite Ht, Htr in Hm; simpl in Hm;
         destruct (Py.truthy _) in Hm; simpl in Hm;
         erewrite enter_not_dict in Hm by (try apply D; done); discriminate).
  exists t, ds. split_and!; try done. by intros ->.
Qed.

Lemma merged_descriptor_has_items t ds t' :
  merged_descriptor t ds = Ok t' -> Dict.mem "items" t' = true.
Proof.
  unfold merged_descriptor. intros H. bind_inv H. bind_inv H.
  injection H as <-. unfold Dict.mem. by rewrite get_set_eq.
Qed.

Lemma merged_descriptor_no_items t ds t' :
  merged_descriptor t ds = Ok t' ->
  Dict.get "items" t = None -> Dict.get "items" ds = None ->
  Dict.get "items" t' = Some (JObj []).
Proof.
  unfold merged_descriptor. intros H Ht Hds. bind_inv H. bind_inv H.
  injection H as <-. rewrite get_set_eq. f_equal.
  assert (Ha : Dict.get "items" a = None).
  { destruct (Py.truthy _); [|by injection E as <-].
    bind_inv E. injection E as <-.
    rewrite get_set_ne by done. by rewrite get_entered_ne by done. }
  unfold entered_value in E0. rewrite Ha, Hds in E0. simpl in E0. congruence.
Qed.


Lemma submapping_entered_value k d m :
  submapping k d = Some m -> entered_value k (JObj []) d = JObj m.
Proof.
  unfold submapping, entered_value.
  destruct (Dict.get k d) as [[]|]; congruence.
Qed.

Lemma merged_descriptor_mappings t ds ti di to do_ :
  submapping "items" t = Some ti -> submapping "items" ds = Some di ->
  submapping "options" t = Some to -> submapping "options" ds = Some do_ ->
  exists t',
    merged_descriptor t ds = Ok t' /\
    (forall k, k <> "options"%string -> k <> "items"%string ->
               Dict.get k t' = Dict.get k t) /\
    Dict.get "items" t' = Some (JObj (Dict.update ti di)) /\
    submapping "options" t' = Some (Dict.update to do_).
Proof.
  intros Hti Hdi Hto Hdo. unfold merged_descriptor.
  set (t1 := if Py.truthy _ then _ else _).
  assert (H1 : exists t1', t1 = Ok t1' /\
            (forall k, k <> "options"%string -> Dict.get k t1' = Dict.get k t) /\
            submapping "options" t1' = Some (Dict.update to do_)).
  { unfold t1. destruct (Py.truthy _) eqn:Etr.
    - rewrite (submapping_entered_value _ _ _ Hto).
      unfold submapping in Hdo.
      destruct (Dict.get "options" ds) as [[]|]; try done.
      injection Hdo as ->. simpl. eexists. split_and!; [done| |].
      + intros k Hk. rewrite get_set_ne by done. by rewrite get_entered_ne.
      + unfold submapping. by rewrite get_set_eq.
    - exists t. split_and!; [done|done|]. rewrite Hto. f_equal.
      unfold submapping in Hdo.
      destruct (Dict.get "options" ds) as [[]|]; try done.
      + injection Hdo as ->. by destruct do_.
      + by injection Hdo as <-. }
  destruct H1 as (t1' & -> & Hk1 & Ho1). simpl.
  assert (Hi1 : submapping "items" t1' = Some ti).
  { unfold submapping. rewrite Hk1 by done. apply Hti. }
  rewrite (submapping_entered_value _ _ _ Hi1).
  assert (Hin : match Dict.get "items" ds with Some v => v | None => JObj [] end
                = JObj di).
  { unfold submapping in Hdi. destruct (Dict.get "items" ds) as [[]|]; congruence. }
  rewrite Hin. simpl. eexists. split_and!; [done| | |].
  - intros k Ho Hi. rewrite get_set_ne by done. rewrite get_entered_ne by done.
    by apply Hk1.
  - by rewrite get_set_eq.
  - unfold submapping. rewrite get_set_ne by done. rewrite get_entered_ne by done.
    apply Ho1.
Qed.





(** ** A version-2 import *)

Section ProcessV2.
Variable read_json : string -> result json.

Lemma open_import_v2_Ok st todo root sources mpp path imp :
  Mpp.open_import_v2 read_json st todo = Ok (root, sources, mpp, path, imp) ->
  exists d todo_obj file,
    manifest st = JObj d /\
    root = JObj (entered "sources" (JObj []) d) /\
    sources = [Key "sources"] /\
    Store.deref root todo = Some todo_obj /\
    Py.getitem todo_obj Mpp.directive = Ok mpp /\
    Py.getitem mpp "path" = Ok path /\
    Py.path_join (cwd st) path = Ok file /\
    read_json file = Ok imp.
Proof.
  unfold Mpp.open_import_v2. intros H.
  bind_inv H. destruct a as [m1 s1].
  apply enter_Ok in E as (d & Hd & -> & ->). simpl in Hd. injection Hd as Hd.
  bind_inv H. apply load_Ok in E. bind_inv H. bind_inv H. bind_inv H. bind_inv H.
  injection H as <- <- <- <- <-. simpl in *.
  exists d, a, a2. by split_and!.
Qed.

(** The merge of the sources stores under [sources] only. *)
Lemma merge_source_frame sources manifest item manifest' :
  Mpp.merge_source sources manifest item = Ok manifest' ->
  exists v, manifest' = Store.assign manifest sources v.
Proof.
  destruct item as [source desc]. intros H.
  destruct (Store.deref manifest sources) as [o|] eqn:D;
    [|by unfold Mpp.merge_source, Store.load in H; rewrite D in H].
  destruct o as [| | | | |srcs];
    try by (unfold Mpp.merge_source, Store.load in H; rewrite D in H).
  destruct (Py.truthy (entry_of source srcs)) eqn:Etr.
  - unfold entry_of in Etr.
    destruct (Dict.get source srcs) as [target|] eqn:Ht; [|done].
    destruct (merge_source_Ok_shapes _ _ _ _ _ _ _ D Ht Etr H)
      as (t & ds & -> & Hne & ->).
    rewrite (merge_source_existing _ _ _ _ _ _ D Ht Hne) in H.
    bind_inv H. injection H as <-.
    rewrite (assign_app _ _ _ _ _ D). eauto.
  - rewrite (merge_source_new _ _ _ _ _ D Etr) in H. injection H as <-. eauto.
Qed.

Lemma merge_sources_frame sources manifest imp manifest' :
  Mpp.merge_sources sources manifest imp = Ok manifest' ->
  manifest' = manifest \/ exists v, manifest' = Store.assign manifest sources v.
Proof.
  unfold Mpp.merge_sources. intros H. bind_inv H. bind_inv H.
  clear E E0. revert manifest H.
  induction a0 as [|item items IH]; intros manifest H; simpl in H.
  - injection H as <-. by left.
  - bind_inv H. apply merge_source_frame in E as (v & ->). right.
    destruct (IH _ H) as [-> | (w & ->)]; [eauto|].
    rewrite assign_assign. eauto.
Qed.

Lemma merge_sources_other sources manifest imp manifest' k r :
  Mpp.merge_sources [Key sources] manifest imp = Ok manifest' ->
  k <> sources ->
  Store.deref manifest' (Key k :: r) = Store.deref manifest (Key k :: r).
Proof.
  intros H Hk. destruct (merge_sources_frame _ _ _ _ H) as [-> | (v & ->)]; [done|].
  apply deref_assign_other. congruence.
Qed.

Lemma find_pipeline_Ok pid ps target :
  Mpp.find_pipeline pid ps = Ok target ->
  Py.truthy target = true ->
  exists t name,
    target = JObj t /\ target ∈ ps /\
    Dict.get "name" t = Some name /\ Py.eq name pid = true.
Proof.
  induction ps as [|p ps IH]; simpl; intros H Htr.
  - by injection H as <-.
  - bind_inv H. destruct (Py.eq a pid) eqn:Eeq.
    + injection H as <-. destruct p; try done. simpl in E.
      destruct (Dict.get "name" d) eqn:En; [|done]. injection E as ->.
      exists d, a. split_and!; try done. left.
    + destruct (IH H Htr) as (t & name & ? & ? & ? & ?).
      exists t, name. split_and!; try done. by right.
Qed.

Lemma find_pipeline_none pid ps :
  Forall (fun p => exists name, Py.getitem p "name" = Ok name /\
                                Py.eq name pid = false) ps ->
  Mpp.find_pipeline pid ps = Ok JNull.
Proof.
  induction 1 as [|p ps (name & Hn & Hne) _ IH]; simpl; [done|].
  by rewrite Hn; simpl; rewrite Hne.
Qed.

Lemma get_pipeline_Ok mpp path imp target :
  Mpp.get_pipeline mpp path imp = Ok target ->
  exists pid t name,
    Py.getitem mpp "id" = Ok pid /\ target = JObj t /\
    Dict.get "name" t = Some name /\ Py.eq name pid = true.
Proof.
  unfold Mpp.get_pipeline. intros H. bind_inv H. bind_inv H. bind_inv H. bind_inv H.
  destruct (Py.truthy a2) eqn:Etr; simpl in H; [|done]. injection H as ->.
  destruct (find_pipeline_Ok _ _ _ E2 Etr) as (t & name & ? & ? & ? & ?).
  exists a0, t, name. by split_and!.
Qed.

Lemma mem_set {V} k k' (v : V) d :
  Dict.mem k d = true -> Dict.mem k (Dict.set k' v d) = true.
Proof.
  unfold Dict.mem. rewrite get_set. destruct (String.eqb k' k); [done|]. done.
Qed.

Lemma mem_update {V} k (d d2 : list (string * V)) :
  Dict.mem k d = true -> Dict.mem k (Dict.update d d2) = true.
Proof.
  unfold Dict.update. revert d.
  induction d2 as [|[k' v'] d2 IH]; intros d H; simpl; [done|].
  apply IH. by apply mem_set.
Qed.

Lemma splice_v2_dict st manifest todo e t :
  Store.deref manifest todo = Some (JObj e) ->
  Dict.mem Mpp.directive e = true ->
  Mpp.splice_v2 st manifest todo (JObj t) =
  Ok (mkState (cwd st)
        (Store.assign manifest todo (JObj (Dict.del Mpp.directive (Dict.update e t))))
        (manifest_urls st) (manifest_todo st)).
Proof.
  intros D Hm. unfold Mpp.splice_v2.
  rewrite (modify_eq _ _ _ _ D). simpl.
  erewrite modify_eq by (apply deref_assign_eq; eauto). simpl.
  rewrite (mem_update _ _ _ Hm). simpl. by rewrite assign_assign.
Qed.
End ProcessV2.

Section ImportV2.
Variable read_json : string -> result json.

(** What is under a top-level key other than [sources] is as in the
    manifest at the start when the import has been opened and the
    sources merged. *)
Lemma open_import_v2_other st todo root sources mpp path imp k r :
  Mpp.open_import_v2 read_json st todo = Ok (root, sources, mpp, path, imp) ->
  k <> "sources"%string ->
  Store.deref root (Key k :: r) = Store.deref (manifest st) (Key k :: r).
Proof.
  intros H Hk. apply open_import_v2_Ok in H as (d & ? & ? & -> & -> & _).
  simpl. by rewrite get_entered_ne.
Qed.


End ImportV2.



(** ** A run over a version-2 manifest *)

Lemma raises_bind {A B} (m : result A) (f : A -> result B) :
  raises m -> raises (bind m f).
Proof. intros [e ->]. by exists e. Qed.

Lemma raises_bind_Ok {A B} (m : result A) (f : A -> result B) :
  (forall a, m = Ok a -> raises (f a)) -> raises (bind m f).
Proof. intros H. destruct m as [a|e]; simpl; [by apply H | by exists e]. Qed.

Lemma raises_Raise {A} e : raises (@Raise A e).
Proof. by exists e. Qed.

Section RunV2.
Variable read_json : string -> result json.

Lemma collect_v2_todo ps a acc todo :
  foldM Mpp.collect_v2 (zip (seq a (length ps)) ps) acc = Ok todo ->
  exists new,
    todo = acc ++ new /\
    (forall r, r ∈ new -> exists j, r = entry j /\ a <= j < a + length ps) /\
    (forall i p c, ps !! i = Some p ->
                   Py.get p Mpp.directive JNull = Ok c ->
                   Py.truthy c = true -> entry (a + i) ∈ new).
Proof.
  revert a acc. induction ps as [|p ps IH]; intros a acc H; simpl in H.
  - injection H as <-. exists []. rewrite app_nil_r. split_and!; [done| |done].
    intros r Hr. by apply elem_of_nil in Hr.
  - bind_inv H. unfold Mpp.collect_v2 in E. simpl in E. bind_inv E.
    destruct (IH _ _ H) as (new & -> & Hform & Hall).
    assert (Hform' : forall r, r ∈ new ->
              exists j, r = entry j /\ a <= j < a + length (p :: ps)).
    { intros r Hr. destruct (Hform r Hr) as (j & -> & Hj). exists j.
      split; [done|]. simpl. lia. }
    destruct (Py.truthy a1) eqn:Etr; injection E as <-.
    + exists (entry a :: new). rewrite <- app_assoc. split_and!; [done| |].
      * intros r [->|Hr]%elem_of_cons; [|by apply Hform'].
        exists a. split; [done|]. simpl. lia.
      * intros [|i] q c Hq Hc Hct; simpl in Hq.
        -- rewrite Nat.add_0_r. left.
        -- right. replace (a + S i) with (S a + i) by lia. eauto.
    + exists new. split_and!; [done|done|].
      intros [|i] q c Hq Hc Hct; simpl in Hq.
      * injection Hq as <-. congruence.
      * replace (a + S i) with (S a + i) by lia. eauto.
Qed.

Lemma splice_v2_frame st root todo target st' r :
  Mpp.splice_v2 st root todo target = Ok st' ->
  (forall v, Store.deref (Store.assign root todo v) r = Store.deref root r) ->
  Store.deref (manifest st') r = Store.deref root r.
Proof.
  unfold Mpp.splice_v2. intros H Hfr. bind_inv H. bind_inv H. injection H as <-.
  apply modify_Ok in E as (? & o1 & _ & _ & ->).
  apply modify_Ok in E0 as (? & o2 & _ & _ & ->).
  cbn [manifest]. by rewrite assign_assign, Hfr.
Qed.

(** An import leaves the other entries of [pipelines] as they are. *)
Lemma process_v2_other_entry st j st' i :
  Mpp._manifest_process_v2 read_json st (entry j) = Ok st' ->
  j <> i ->
  Store.deref (manifest st') (entry i) = Store.deref (manifest st) (entry i).
Proof.
  unfold Mpp._manifest_process_v2. intros H Hne.
  bind_inv H. destruct a as [[[[root sources] mpp] path] imp].
  bind_inv H. bind_inv H.
  pose proof (open_import_v2_other _ _ _ _ _ _ _ _ "pipelines" [Idx i] E) as Hfr.
  apply open_import_v2_Ok in E as (d & ? & ? & _ & _ & -> & _).
  rewrite (splice_v2_frame _ _ _ _ _ (entry i) H).
  - unfold entry. rewrite (merge_sources_other _ _ _ _ _ _ E0) by done.
    by apply Hfr.
  - intros v. apply (deref_assign_diverge _ [Key "pipelines"] (Idx j) (Idx i) [] []).
    congruence.
Qed.

Lemma imports_v2_other_entry processed st st' i :
  foldM (Mpp._manifest_process_v2 read_json) processed st = Ok st' ->
  (forall r, r ∈ processed -> exists j, r = entry j /\ j <> i) ->
  Store.deref (manifest st') (entry i) = Store.deref (manifest st) (entry i).
Proof.
  revert st. induction processed as [|r rs IH]; intros st H Hall; simpl in H.
  - by injection H as <-.
  - bind_inv H. destruct (Hall r) as (j & -> & Hj); [left|].
    rewrite (IH _ H) by (intros; apply Hall; by right).
    by eapply process_v2_other_entry.
Qed.

(** An import whose directive gives no [path] or no [id]. *)
Lemma process_v2_missing_field st i e mpp :
  Store.deref (manifest st) (entry i) = Some (JObj e) ->
  Dict.get Mpp.directive e = Some mpp ->
  raises (Py.getitem mpp "path") \/ raises (Py.getitem mpp "id") ->
  raises (Mpp._manifest_process_v2 read_json st (entry i)).
Proof.
  intros D Hmpp Hmiss. unfold Mpp._manifest_process_v2.
  destruct (Mpp.open_import_v2 read_json st (entry i))
    as [[[[[root sources] mpp'] path] imp]|err] eqn:Hopen; [|apply raises_Raise].
  pose proof (open_import_v2_other _ _ _ _ _ _ _ _ "pipelines" [Idx i] Hopen) as Hfr.
  apply open_import_v2_Ok in Hopen as (d & o & file & _ & _ & -> & Ho & Hg & Hp & _).
  fold (entry i) in Hfr. rewrite Hfr, D in Ho by done. injection Ho as <-.
  simpl in Hg. rewrite Hmpp in Hg. injection Hg as <-.
  destruct Hmiss as [[err Hpath] | [err Hid]]; [congruence|].
  simpl. apply raises_bind_Ok. intros root1 _. apply raises_bind.
  unfold Mpp.get_pipeline. apply raises_bind_Ok. intros pipelines _.
  rewrite Hid. apply raises_Raise.
Qed.

Lemma main_process_v2_missing_field st0 d version ps i e mpp :
  Py.get (JObj d) "version" (JStr "1") = Ok version ->
  Py.eq version (JStr "1") = false ->
  Py.eq version (JStr "2") = true ->
  Dict.get "pipelines" d = Some (JArr ps) ->
  ps !! i = Some (JObj e) ->
  Dict.get Mpp.directive e = Some mpp ->
  Py.truthy mpp = true ->
  raises (Py.getitem mpp "path") \/ raises (Py.getitem mpp "id") ->
  raises (Mpp._main_process read_json st0 (JObj d)).
Proof.
  intros Hv H1 H2 Hps Hi Hmpp Htr Hmiss.
  unfold Mpp._main_process. rewrite Hv. simpl. rewrite H1, H2.
  apply raises_bind. unfold Mpp._manifest_import_v2.
  apply raises_bind_Ok. intros st1 Hparse.
  unfold Mpp._manifest_parse_v2 in Hparse. simpl in Hparse. rewrite Hps in Hparse.
  simpl in Hparse. bind_inv Hparse. injection Hparse as <-. cbn [manifest_todo].
  apply collect_v2_todo in E as (todo & -> & Hform & Hall). simpl.
  assert (Hin : entry i ∈ todo).
  { apply (Hall i (JObj e) mpp Hi); [|done]. simpl. by rewrite Hmpp. }
  apply list_elem_of_split_l in Hin as (processed & rest & -> & Hnot).
  rewrite foldM_app. apply raises_bind_Ok. intros st Hfold. simpl.
  apply raises_bind. apply (process_v2_missing_field st i e mpp); [|done|done].
  rewrite (imports_v2_other_entry _ _ _ i Hfold).
  - simpl. by rewrite Hps, Hi.
  - intros r Hr. destruct (Hform r) as (j & -> & _); [apply elem_of_app; by left|].
    exists j. split; [done|]. by intros ->.
Qed.
End RunV2.

(** ** The walk down the build chain (version 1) *)

Lemma hops_app n m : hops (n + m) = hops n ++ hops m.
Proof. induction n as [|n IH]; simpl; [done|]. by rewrite IH. Qed.

Lemma hops_S_end n : hops (S n) = hops n ++ [Key "pipeline"; Key "build"].
Proof. replace (S n) with (n + 1) by lia. by rewrite hops_app. Qed.

Lemma json_size_pos j : 0 < json_size j.
Proof. destruct j; simpl; lia. Qed.

Lemma get_size k d v :
  Dict.get k d = Some v -> json_size v < json_size (JObj d).
Proof.
  simpl. induction d as [|[k' v'] d IH]; simpl; [done|].
  destruct (String.eqb k k').
  - intros [= ->]. lia.
  - intros H. specialize (IH H). lia.
Qed.

(** The walk ends: the fuel [_manifest_parse_v1] gives it is enough. *)
Lemma find_import_fuel fuel root current obj :
  Store.deref root current = Some obj ->
  json_size obj <= fuel ->
  is_Some (Mpp.find_import fuel root current).
Proof.
  revert current obj. induction fuel as [|fuel IH]; intros current obj D Hsz.
  - pose proof (json_size_pos obj). lia.
  - simpl. rewrite D. destruct (negb (Py.truthy obj)); [eauto|].
    destruct (Py.contains Mpp.directive obj) as [[]|]; eauto.
    destruct obj; simpl; eauto.
    destruct (Dict.get "pipeline" d) as [p|] eqn:Ep; simpl; eauto.
    destruct p; simpl; eauto.
    destruct (Dict.get "build" d0) as [b|] eqn:Eb; simpl; eauto.
    assert (Db : Store.deref root (current ++ [Key "pipeline"; Key "build"]) = Some b).
    { rewrite deref_app, D. simpl. by rewrite Ep, Eb. }
    assert (Hb : json_size b <= fuel).
    { apply get_size in Ep, Eb. lia. }
    destruct b; eauto.
Qed.

(** What the walk finds: the first node of the chain that holds the
    directive. *)
Lemma find_import_found fuel root current todo :
  Mpp.find_import fuel root current = Some (Ok todo) ->
  todo = [] \/
  exists n obj,
    todo = [current ++ hops n] /\
    Store.deref root (current ++ hops n) = Some obj /\
    Py.contains Mpp.directive obj = Ok true /\
    forall k o, k < n -> Store.deref root (current ++ hops k) = Some o ->
                Py.contains Mpp.directive o = Ok false.
Proof.
  revert current. induction fuel as [|fuel IH]; intros current H; simpl in H; [done|].
  destruct (Store.deref root current) as [obj|] eqn:D; [|done].
  destruct (negb (Py.truthy obj)); [injection H as <-; by left|].
  destruct (Py.contains Mpp.directive obj) as [[]|] eqn:Ec; [| |done].
  - injection H as <-. right. exists 0, obj. simpl. rewrite app_nil_r.
    split_and!; try done. intros; lia.
  - assert (Hstep : forall n, current ++ hops (S n)
                              = (current ++ [Key "pipeline"; Key "build"]) ++ hops n).
    { intros n. by rewrite <- app_assoc. }
    assert (Hnext :
      Mpp.find_import fuel root (current ++ [Key "pipeline"; Key "build"])
      = Some (Ok todo) -> todo = [] \/ exists n obj,
        todo = [current ++ hops n] /\
        Store.deref root (current ++ hops n) = Some obj /\
        Py.contains Mpp.directive obj = Ok true /\
        forall k o, k < n -> Store.deref root (current ++ hops k) = Some o ->
                    Py.contains Mpp.directive o = Ok false).
    { intros H'. destruct (IH _ H') as [-> | (n & o & -> & Dn & Hc & Hk)]; [by left|].
      right. exists (S n), o. rewrite Hstep. split_and!; try done.
      intros [|k] o' Hlt Do'.
      - simpl in Do'. rewrite app_nil_r in Do'. congruence.
      - rewrite Hstep in Do'. apply (Hk k); [lia|done]. }
    destruct (Py.get obj "pipeline" (JObj [])) as [p|]; [|done].
    destruct (Py.get p "build" JNull) as [b|]; [|done].
    destruct b; auto. injection H as <-. by left.
Qed.

Lemma find_import_not_found fuel root current :
  Mpp.find_import fuel root current = Some (Ok []) ->
  forall k o, Store.deref root (current ++ hops k) = Some o ->
              Py.contains Mpp.directive o <> Ok true.
Proof.
  intros H k o D Hc. revert current H k o D Hc.
  induction fuel as [|fuel IH]; intros current H k o D Hc; simpl in H; [done|].
  destruct k as [|k].
  - simpl in D. rewrite app_nil_r in D. rewrite D in H.
    destruct (negb (Py.truthy o)) eqn:Etr.
    + destruct o; simpl in *; try done.
      * apply negb_true_iff, negb_false_iff, String.eqb_eq in Etr as ->. done.
      * by destruct l.
      * by destruct d.
    + by rewrite Hc in H.
  - change (hops (S k)) with ([Key "pipeline"; Key "build"] ++ hops k) in D.
    rewrite app_assoc in D.
    destruct (Store.deref root current) as [obj|] eqn:Dc;
      [|by rewrite deref_app, deref_app, Dc in D].
    destruct (negb (Py.truthy obj)) eqn:Etr.
    { rewrite deref_app, deref_app, Dc in D.
      destruct obj; simpl in *; try done. by destruct d. }
    destruct (Py.contains Mpp.directive obj) as [[]|]; try done.
    destruct (Py.get obj "pipeline" (JObj [])) as [p|] eqn:Ep; [|done].
    destruct (Py.get p "build" JNull) as [b|] eqn:Eb; [|done].
    assert (Db : b <> JNull ->
                 Mpp.find_import fuel root (current ++ [Key "pipeline"; Key "build"])
                 = Some (Ok [])) by (by destruct b).
    destruct obj; try done. simpl in Ep. injection Ep as <-.
    rewrite deref_app, deref_app, Dc in D. simpl in D.
    destruct (Dict.get "pipeline" d) as [p|] eqn:Ep; [|done].
    destruct p; try done. simpl in Eb. injection Eb as <-.
    destruct (Dict.get "build" d0) as [b|] eqn:Eb; [|done].
    assert (b = JNull \/ b <> JNull) as [->|Hb] by (destruct b; auto).
    + destruct k; simpl in D; [|done]. by injection D as <-.
    + apply (IH _ (Db Hb) k o); [|done].
      rewrite deref_app, deref_app, Dc. simpl. by rewrite Ep, Eb.
Qed.

(** The walk ends with a list of references or with an exception of
    Python: a [TypeError] of [in] or an [AttributeError] of [get]. *)
Lemma find_import_outcome fuel root current r :
  Mpp.find_import fuel root current = Some r ->
  is_Some (Store.deref root current) ->
  (exists todo, r = Ok todo) \/ r = Raise TypeError \/ r = Raise AttributeError.
Proof.
  revert current. induction fuel as [|fuel IH]; intros current H [obj D]; [done|].
  simpl in H. rewrite D in H.
  destruct (negb (Py.truthy obj)); [injection H as <-; eauto|].
  destruct (Py.contains Mpp.directive obj) as [[]|e] eqn:Ec.
  - injection H as <-. eauto.
  - destruct obj; simpl in H; try (injection H as <-; auto).
    destruct (Dict.get "pipeline" d) as [p|] eqn:Ep; [|injection H as <-; eauto].
    destruct p; simpl in H; try (injection H as <-; auto).
    destruct (Dict.get "build" d0) as [b|] eqn:Eb; [|injection H as <-; eauto].
    assert (Db : is_Some (Store.deref root (current ++ [Key "pipeline"; Key "build"]))).
    { rewrite deref_app, D. simpl. rewrite Ep, Eb. eauto. }
    destruct b; try (by apply (IH _ H Db)). injection H as <-. eauto.
  - injection H as <-. destruct obj; simpl in Ec; try done; injection Ec as <-; auto.
Qed.

Lemma find_import_total root :
  exists r, Mpp.find_import (json_size root) root [] = Some r /\
            ((exists todo, r = Ok todo) \/ r = Raise TypeError \/
             r = Raise AttributeError).
Proof.
  destruct (find_import_fuel (json_size root) root [] root eq_refl ltac:(lia))
    as [r Hr].
  exists r. split; [done|]. eapply find_import_outcome; [done|]. simpl. eauto.
Qed.

(** ** [_manifest_parse_v1] *)

Lemma parse_v1_dict st d :
  Mpp._manifest_parse_v1 st (JObj d) =
  let* d' := defaulted d in
  let* todo := match Mpp.find_import (json_size (JObj d')) (JObj d') [] with
               | Some r => r
               | None => Raise OutOfFuel
               end in
  Ok (mkState (cwd st) (JObj d') (Some urls_ref) todo).
Proof.
  unfold Mpp._manifest_parse_v1, defaulted.
  rewrite (enter_dict (JObj d) [] "sources" (JObj []) d eq_refl). simpl.
  set (d1 := entered "sources" (JObj []) d).
  assert (H1 : Dict.get "sources" d1 = Some (entered_value "sources" (JObj []) d))
    by apply get_entered.
  destruct (entered_value "sources" (JObj []) d) as [| | | | |s] eqn:Esv;
    try (erewrite enter_not_dict; [done | simpl; rewrite H1; done | done]).
  erewrite (enter_dict _ _ _ _ s) by (simpl; by rewrite H1). simpl.
  rewrite H1. unfold files_kind.
  set (s1 := entered "org.osbuild.files" (JObj []) s).
  assert (H2 : Dict.get "org.osbuild.files" s1
               = Some (entered_value "org.osbuild.files" (JObj []) s))
    by apply get_entered.
  set (root2 := JObj (Dict.set "sources" (JObj s1) d1)).
  destruct (entered_value "org.osbuild.files" (JObj []) s) as [| | | | |f] eqn:Efv;
    try (erewrite enter_not_dict;
         [done | unfold root2; simpl; rewrite get_set_eq; simpl; rewrite H2; done | done]).
  erewrite (enter_dict _ _ _ _ f)
    by (unfold root2; simpl; rewrite get_set_eq; simpl; by rewrite H2).
  simpl. rewrite get_set_eq, H2, set_set. done.
Qed.

Lemma parse_v1_not_dict st data :
  (forall d, data <> JObj d) -> Mpp._manifest_parse_v1 st data = Raise TypeError.
Proof.
  intros H. unfold Mpp._manifest_parse_v1.
  by rewrite (enter_not_dict data [] _ _ data eq_refl H).
Qed.

Lemma parse_v1_Ok st data st1 :
  Mpp._manifest_parse_v1 st data = Ok st1 ->
  exists d d',
    data = JObj d /\ defaulted d = Ok d' /\
    st1 = mkState (cwd st) (JObj d') (Some urls_ref) (manifest_todo st1) /\
    Mpp.find_import (json_size (JObj d')) (JObj d') [] = Some (Ok (manifest_todo st1)).
Proof.
  intros H. destruct data as [| | | | |d];
    try (rewrite parse_v1_not_dict in H; done).
  rewrite parse_v1_dict in H. bind_inv H. bind_inv H. injection H as <-.
  exists d, a. split_and!; try done.
  destruct (Mpp.find_import _ _ _) as [r|]; [|done]. simpl. by rewrite E0.
Qed.

(** [_manifest_parse_v1] returns, or ends with a [TypeError] or an
    [AttributeError]: the walk never runs out of its bound. *)
Lemma parse_v1_outcome st data :
  (exists st1, Mpp._manifest_parse_v1 st data = Ok st1) \/
  Mpp._manifest_parse_v1 st data = Raise TypeError \/
  Mpp._manifest_parse_v1 st data = Raise AttributeError.
Proof.
  destruct data as [| | | | |d]; try (rewrite parse_v1_not_dict; by auto).
  rewrite parse_v1_dict. destruct (defaulted d) as [d'|e] eqn:Hd; cbn [bind].
  - destruct (find_import_total (JObj d')) as (r & -> & [[todo ->] | [-> | ->]]);
      cbn [bind]; eauto.
  - unfold defaulted in Hd.
    destruct (entered_value "sources" _ d); try (injection Hd as <-; auto).
    destruct (entered_value files_kind _ d0); try (injection Hd as <-; auto).
    done.
Qed.

Lemma defaulted_get_ne d d' k :
  defaulted d = Ok d' -> k <> "sources"%string -> Dict.get k d' = Dict.get k d.
Proof.
  unfold defaulted. intros H Hk.
  destruct (entered_value "sources" _ d); try done.
  destruct (entered_value files_kind _ d0); try done.
  injection H as <-. rewrite get_set_ne by done. by apply get_entered_ne.
Qed.

Lemma defaulted_urls d d' :
  defaulted d = Ok d' -> is_Some (Store.deref (JObj d') urls_ref).
Proof.
  unfold defaulted. intros H.
  destruct (entered_value "sources" _ d); try done.
  destruct (entered_value files_kind _ d0); try done.
  injection H as <-. simpl. rewrite !get_set_eq, get_entered. eauto.
Qed.

(** A manifest that has [sources.org.osbuild.files.urls] is its own
    defaulted form. *)
Lemma defaulted_id d u :
  Store.deref (JObj d) urls_ref = Some u -> defaulted d = Ok d.
Proof.
  unfold defaulted, entered_value, entered, Dict.mem. simpl. intros H.
  destruct (Dict.get "sources" d) as [sv|] eqn:Es; [|done].
  destruct sv as [| | | | |s]; try done.
  destruct (Dict.get files_kind s) as [fv|] eqn:Ef; [|done].
  destruct fv as [| | | | |f]; try done.
  destruct (Dict.get "urls" f) as [uv|] eqn:Eu; [|done].
  by rewrite (set_get_id _ _ _ Ef), (set_get_id _ _ _ Es).
Qed.

(** ** A version-1 import *)

Section ImportV1.
Variable read_json : string -> result json.

Lemma open_import_v1_dict st todo e :
  Store.deref (manifest st) todo = Some (JObj e) ->
  Mpp.open_import_v1 read_json st todo =
  let* mpp_path := Py.getitem (entered_value Mpp.directive (JObj []) e) "path" in
  let* file := Py.path_join (cwd st) mpp_path in
  let* imp := read_json file in
  Ok (Store.assign (manifest st) todo (JObj (entered Mpp.directive (JObj []) e)), imp).
Proof.
  intros D. unfold Mpp.open_import_v1.
  rewrite (enter_dict _ _ _ _ _ D). simpl.
  unfold Store.load. by rewrite (enter_deref _ _ _ _ _ D).
Qed.

Lemma open_import_v1_Ok st todo root imp :
  Mpp.open_import_v1 read_json st todo = Ok (root, imp) ->
  exists e,
    Store.deref (manifest st) todo = Some (JObj e) /\
    root = Store.assign (manifest st) todo (JObj (entered Mpp.directive (JObj []) e)).
Proof.
  intros H. pose proof H as H'. unfold Mpp.open_import_v1 in H'.
  bind_inv H'. destruct a as [m r]. apply enter_Ok in E as (e & D & _).
  rewrite (open_import_v1_dict _ _ _ D) in H.
  bind_inv H. bind_inv H. bind_inv H. injection H as <- <-. eauto.
Qed.

(** A directive without [path] ends the import with the exception of
    [mpp["path"]]. *)
Lemma process_v1_missing_path st todo e mpp err :
  Store.deref (manifest st) todo = Some (JObj e) ->
  Dict.get Mpp.directive e = Some mpp ->
  Py.getitem mpp "path" = Raise err ->
  Mpp._manifest_process_v1 read_json st todo = Raise err.
Proof.
  intros D Hmpp Hpath. unfold Mpp._manifest_process_v1.
  rewrite (open_import_v1_dict _ _ _ D). unfold entered_value.
  by rewrite Hmpp, Hpath.
Qed.

Lemma splice_v1_Ok st root todo imp_urls imp_pipeline st' :
  Mpp.splice_v1 st root todo imp_urls imp_pipeline = Ok st' ->
  exists r u u' e,
    manifest_urls st = Some r /\
    Store.deref root r = Some u /\ Py.update u imp_urls = Ok u' /\
    Store.deref (Store.assign root r u') todo = Some (JObj e) /\
    st' = mkState (cwd st)
            (Store.assign (Store.assign root r u') todo
               (JObj (Dict.del Mpp.directive (Dict.set "pipeline" imp_pipeline e))))
            (manifest_urls st) (manifest_todo st).
Proof.
  unfold Mpp.splice_v1, Mpp.update_urls. intros H.
  destruct (manifest_urls st) as [r|]; [|done].
  bind_inv H. bind_inv H. bind_inv H. injection H as <-.
  apply modify_Ok in E as (u & u' & Du & Hu & ->).
  apply modify_Ok in E0 as (t & t' & Dt & Ht & ->).
  apply modify_Ok in E1 as (t1 & t2 & Dt1 & Ht1 & ->).
  rewrite deref_assign_eq in Dt1 by eauto. injection Dt1 as <-.
  destruct t as [| | | | |e]; try done. injection Ht as <-.
  simpl in Ht1. destruct (Dict.mem _ _); [|done]. injection Ht1 as <-.
  exists r, u, u', e. split_and!; try done. by rewrite assign_assign.
Qed.
End ImportV1.

(** C9 as stated fails: a version-2 directive that is an
    empty mapping has no [path], yet the run ends well and writes the
    manifest, with the directive still in it. [_manifest_parse_v2] takes a
    directive up only when it is true. *)
Lemma C9_empty_directive_is_skipped :
  Py.contains "path" (JObj []) = Ok false /\
  Mpp.main ExamplesV2.disk None (ExamplesV2.directed []) =
  Ok (mkOutcome 0 (Some (ExamplesV2.directed []))).
Proof. split; reflexivity. Qed.

(** C9, amended. A run ends with an exception, and so writes nothing,
    when a directive that it takes up has no [path], and in version 2
    also when it has no [id]. The directives taken up are: in version 1
    the one the walk down the build chain finds, in version 2 those of
    the entries of [pipelines] that are true (an empty directive is left
    alone). The exception is the one of [mpp["path"]], in version 1 for
    the run and in version 2 for the import of the entry. *)
Theorem C9_missing_field_is_fatal read_json st0 src version :
  Py.get src "version" (JStr "1") = Ok version ->
  (Py.eq version (JStr "1") = true ->
   forall st1 todo e mpp err,
     Mpp._manifest_parse_v1 st0 src = Ok st1 ->
     manifest_todo st1 = [todo] ->
     Store.deref (manifest st1) todo = Some (JObj e) ->
     Dict.get Mpp.directive e = Some mpp ->
     Py.getitem mpp "path" = Raise err ->
     Mpp._main_process read_json st0 src = Raise err) /\
  (Py.eq version (JStr "1") = false ->
   Py.eq version (JStr "2") = true ->
   forall d ps i e mpp,
     src = JObj d ->
     Dict.get "pipelines" d = Some (JArr ps) ->
     ps !! i = Some (JObj e) ->
     Dict.get Mpp.directive e = Some mpp ->
     Py.truthy mpp = true ->
     raises (Py.getitem mpp "path") \/ raises (Py.getitem mpp "id") ->
     raises (Mpp._main_process read_json st0 src) /\
     forall st d' err,
       manifest st = JObj d' ->
       Store.deref (manifest st) (entry i) = Some (JObj e) ->
       Py.getitem mpp "path" = Raise err ->
       Mpp._manifest_process_v2 read_json st (entry i) = Raise err).
Proof.
  intros Hv. split.
  - intros H1 st1 todo e mpp err Hparse Htodo D Hmpp Hpath.
    apply (main_process_v1_raises _ _ _ _ _ _ _ Hv H1 Hparse Htodo).
    by apply (process_v1_missing_path _ _ _ _ _ _ D Hmpp Hpath).
  - intros H1 H2 d ps i e mpp -> Hps Hi Hmpp Htr Hmiss. split.
    + by eapply main_process_v2_missing_field.
    + intros st d' err Hst D Hpath.
      unfold Mpp._manifest_process_v2, Mpp.open_import_v2.
      rewrite (enter_dict _ [] _ _ d') by (by rewrite Hst).
      cbn [bind Store.assign]. unfold Store.load.
      assert (D' : Store.deref (JObj (entered "sources" (JObj []) d')) (entry i)
                   = Some (JObj e)).
      { rewrite Hst in D. simpl in D |- *. by rewrite get_entered_ne. }
      rewrite D'. cbn [bind Py.getitem]. rewrite Hmpp. cbn [bind].
      by rewrite Hpath.
Qed.

(** C9 on a sample manifest. *)
Lemma C9_missing_field_is_fatal_witness :
  Mpp.main Examples.disk None
    (JObj [("pipeline", JObj []); ("mpp-import-pipeline", JObj [("id", JStr "x")])])
  = Raise (KeyError "path") /\
  raises (Mpp.main ExamplesV2.disk None
            (ExamplesV2.directed [("path", JStr "base.json")])).
Proof.
  split.
  - eapply (proj1 (C9_missing_field_is_fatal Examples.disk (Mpp._main_state None)
                     (JObj [("pipeline", JObj []);
                            ("mpp-import-pipeline", JObj [("id", JStr "x")])])
                     (JStr "1") eq_refl) eq_refl _ [] _ (JObj [("id", JStr "x")])).
    + reflexivity.
    + reflexivity.
    + reflexivity.
    + reflexivity.
    + reflexivity.
  - eapply (proj2 (C9_missing_field_is_fatal ExamplesV2.disk (Mpp._main_state None)
                     (ExamplesV2.directed [("path", JStr "base.json")])
                     (JStr "2") eq_refl) eq_refl eq_refl _ _ 0 _
                  (JObj [("path", JStr "base.json")]) eq_refl).
    + reflexivity.
    + reflexivity.
    + reflexivity.
    + reflexivity.
    + right. eexists. reflexivity.
Defined.

(** ** The frame of a version-1 import *)

Lemma holds_directive_defaulted d d' n :
  defaulted d = Ok d' ->
  holds_directive (JObj d') n = holds_directive (JObj d) n.
Proof.
  intros H. unfold holds_directive. destruct n as [|n]; simpl.
  - unfold Dict.mem. by rewrite (defaulted_get_ne _ _ _ H).
  - by rewrite (defaulted_get_ne _ _ "pipeline" H).
Qed.

Lemma hops_split n k :
  k < n -> hops n = (hops k ++ [Key "pipeline"]) ++ Key "build" :: hops (n - S k).
Proof.
  intros Hlt. replace n with (k + S (n - S k)) at 1 by lia.
  rewrite hops_app. simpl. by rewrite <- app_assoc.
Qed.

Lemma hops_first n f r : exists s r', hops n ++ Key f :: r = s :: r' /\
  (s = Key f \/ s = Key "pipeline").
Proof. destruct n; simpl; eauto. Qed.

Section FrameV1.
Variable read_json : string -> result json.

(** The walk takes up the shallowest node that holds the directive. *)
Lemma parse_v1_todo st src st1 n :
  Mpp._manifest_parse_v1 st src = Ok st1 ->
  holds_directive src n = Some (Ok true) ->
  (forall k, k < n -> holds_directive src k <> Some (Ok true)) ->
  manifest_todo st1 = [hops n].
Proof.
  intros Hparse Hn Hlt.
  apply parse_v1_Ok in Hparse as (d & d' & -> & Hd & _ & Hfind).
  rewrite <- (holds_directive_defaulted _ _ _ Hd) in Hn.
  destruct (manifest_todo st1) as [|r rs] eqn:Htodo.
  - exfalso. unfold holds_directive in Hn.
    destruct (Store.deref (JObj d') (hops n)) as [o|] eqn:D; [|done].
    injection Hn as Hn.
    by apply (find_import_not_found _ _ _ Hfind n o).
  - apply find_import_found in Hfind as [[=] | (m & o & [= -> ->] & D & Hc & Hk)].
    simpl in *. f_equal. f_equal.
    destruct (Nat.lt_trichotomy m n) as [Hm | [-> | Hm]]; [|done|].
    + exfalso. apply (Hlt m Hm).
      rewrite <- (holds_directive_defaulted _ _ _ Hd).
      unfold holds_directive. by rewrite D, Hc.
    + exfalso. unfold holds_directive in Hn.
      destruct (Store.deref (JObj d') (hops n)) as [o'|] eqn:D'; [|done].
      injection Hn as Hn. rewrite (Hk n o' Hm D') in Hn. done.
Qed.

(** The manifest after a version-1 import, around the node [todo]
    that held the directive. *)
Lemma process_v1_frame st todo st' :
  Mpp._manifest_process_v1 read_json st todo = Ok st' ->
  manifest_urls st = Some urls_ref ->
  (exists o, Store.deref (manifest st) todo = Some o /\
             Py.contains Mpp.directive o = Ok true) ->
  exists e root imp imp_urls imp_pipeline,
    Store.deref (manifest st) todo = Some (JObj e) /\
    Mpp.open_import_v1 read_json st todo = Ok (root, imp) /\
    Mpp.check_import_v1 imp = Ok (imp_urls, imp_pipeline) /\
    Store.deref (manifest st') (todo ++ [Key "pipeline"]) = Some imp_pipeline /\
    Store.deref (manifest st') (todo ++ [Key Mpp.directive]) = None /\
    (forall f r, f <> "pipeline"%string -> f <> Mpp.directive ->
       forall s r', todo ++ Key f :: r = s :: r' -> s <> Key "sources" ->
       Store.deref (manifest st') (todo ++ Key f :: r)
       = Store.deref (manifest st) (todo ++ Key f :: r)) /\
    (forall c s s' r r', todo = c ++ s :: r -> s <> s' ->
       forall s0 r0, c ++ s' :: r' = s0 :: r0 -> s0 <> Key "sources" ->
       Store.deref (manifest st') (c ++ s' :: r')
       = Store.deref (manifest st) (c ++ s' :: r')).
Proof.
  unfold Mpp._manifest_process_v1. intros H Hurls (o & Do & Hc).
  bind_inv H. destruct a as [root imp]. bind_inv H. destruct a as [iu ip].
  destruct (open_import_v1_Ok _ _ _ _ _ E) as (e & D & Hroot).
  rewrite Do in D. injection D as ->.
  assert (Hmem : Dict.mem Mpp.directive e = true) by (simpl in Hc; congruence).
  unfold entered in Hroot. rewrite Hmem in Hroot.
  rewrite (assign_deref_id _ _ _ Do) in Hroot. subst root.
  apply splice_v1_Ok in H as (r & u & u' & e1 & Hr & Du & Hu & D1 & ->).
  rewrite Hurls in Hr. injection Hr as <-.
  exists e, (manifest st), imp, iu, ip. cbn [manifest].
  set (final := Dict.del Mpp.directive (Dict.set "pipeline" ip e1)).
  assert (Hat : forall p, Store.deref
            (Store.assign (Store.assign (manifest st) urls_ref u') todo (JObj final))
            (todo ++ p) = Store.deref (JObj final) p).
  { intros p. rewrite deref_app, deref_assign_eq by eauto. done. }
  split_and!; try done.
  - rewrite Hat. simpl. unfold final. rewrite get_del_ne by done.
    by rewrite get_set_eq.
  - rewrite Hat. simpl. unfold final. by rewrite get_del_eq.
  - intros f p Hf1 Hf2 s r' Hs Hne. rewrite Hat. simpl. unfold final.
    rewrite get_del_ne by done. rewrite get_set_ne by done.
    transitivity (Store.deref (Store.assign (manifest st) urls_ref u')
                    (todo ++ Key f :: p)).
    + rewrite deref_app, D1. done.
    + rewrite Hs. apply deref_assign_other. congruence.
  - intros c s s' p p' -> Hss s0 r0 Hs0 Hne.
    rewrite deref_assign_diverge by done.
    rewrite Hs0. apply deref_assign_other. congruence.
Qed.
End FrameV1.



(** ** The order of strings *)

Lemma ltb_lt s t : String.ltb s t = true <-> OrdersEx.String_as_OT.lt s t.
Proof.
  unfold String.ltb, OrdersEx.String_as_OT.lt.
  change (OrdersEx.String_as_OT.compare s t) with (String.compare s t).
  destruct (String.compare s t); split; congruence.
Qed.

Lemma leb_lt_eq s t :
  String.leb s t = true <-> s = t \/ OrdersEx.String_as_OT.lt s t.
Proof.
  unfold String.leb, OrdersEx.String_as_OT.lt.
  change (OrdersEx.String_as_OT.compare s t) with (String.compare s t).
  destruct (String.compare s t) eqn:E.
  - apply String.compare_eq_iff in E. tauto.
  - tauto.
  - split; [done|]. intros [-> | ?]; [|done].
    pose proof (OrdersEx.String_as_OT.compare_spec t t) as Hs.
    change (OrdersEx.String_as_OT.compare t t) with (String.compare t t) in Hs.
    rewrite E in Hs. inversion Hs as [| |Hlt].
    by apply (StrictOrder_Irreflexive (R := OrdersEx.String_as_OT.lt)) in Hlt.
Qed.

Lemma ltb_leb s t : String.ltb s t = true -> String.leb s t = true.
Proof. rewrite ltb_lt, leb_lt_eq. tauto. Qed.

Lemma not_ltb_leb s t : String.ltb s t = false -> String.leb t s = true.
Proof.
  unfold String.ltb, String.leb. rewrite (String.compare_antisym t s).
  by destruct (String.compare s t).
Qed.

Lemma leb_trans s t u :
  String.leb s t = true -> String.leb t u = true -> String.leb s u = true.
Proof.
  rewrite !leb_lt_eq. intros [-> | H1] [-> | H2]; auto.
  right. by etransitivity.
Qed.

(** ** [sorted] *)

Section Sorted.
Context {A : Type}.
Implicit Types (x y : json * A) (l : list (json * A)).

(** Whatever the keys, a sort that ends gives the elements back. *)
Lemma insert_perm x l l' : Py.insert x l = Ok l' -> Permutation l' (x :: l).
Proof.
  revert l'. induction l as [|y r IH]; intros l' H; simpl in H.
  - by injection H as <-.
  - bind_inv H. destruct a.
    + by injection H as <-.
    + bind_inv H. injection H as <-. rewrite (IH _ E0). apply perm_swap.
Qed.

Lemma insertion_perm keyed acc s :
  foldM (fun acc x => Py.insert x acc) keyed acc = Ok s ->
  Permutation s (keyed ++ acc).
Proof.
  revert acc. induction keyed as [|x r IH]; intros acc H; simpl in H.
  - by injection H as <-.
  - bind_inv H. rewrite (IH _ H). apply insert_perm in E. rewrite E.
    simpl. by rewrite Permutation_middle.
Qed.

Lemma insert_str x l :
  str_keyed x -> Forall str_keyed l -> StronglySorted key_le l ->
  exists l', Py.insert x l = Ok l' /\ StronglySorted key_le l'.
Proof.
  intros [s Hs] Hl Hsorted. induction l as [|y r IH]; simpl.
  - eexists. split; [done|]. repeat constructor.
  - apply Forall_cons in Hl as [[t Ht] Hr].
    apply StronglySorted_inv in Hsorted as [Hsr Hy].
    rewrite Hs, Ht. simpl. destruct (String.ltb s t) eqn:Elt.
    + eexists. split; [done|].
      assert (Hxy : key_le x y) by (exists s, t; eauto using ltb_leb).
      constructor; [by constructor|]. constructor; [done|].
      eapply Forall_impl; [apply Hy|]. intros z (t' & u & Ht' & Hu & Hle).
      exists s, u. split_and!; try done.
      rewrite Ht in Ht'. injection Ht' as <-.
      eapply leb_trans; [by apply ltb_leb | done].
    + destruct (IH Hr Hsr) as (r' & Hins & Hsr'). rewrite Hins. simpl.
      eexists. split; [done|]. constructor; [done|].
      apply insert_perm in Hins. rewrite Hins. constructor; [|done].
      exists t, s. eauto using not_ltb_leb.
Qed.

Lemma insertion_str keyed acc :
  Forall str_keyed keyed -> Forall str_keyed acc -> StronglySorted key_le acc ->
  exists s, foldM (fun acc x => Py.insert x acc) keyed acc = Ok s /\
            StronglySorted key_le s.
Proof.
  revert acc. induction keyed as [|x r IH]; intros acc Hk Hacc Hs; simpl; [eauto|].
  apply Forall_cons in Hk as [Hx Hr].
  destruct (insert_str x acc Hx Hacc Hs) as (acc' & Hins & Hs').
  rewrite Hins. simpl. apply IH; try done.
  apply insert_perm in Hins. rewrite Hins. by constructor.
Qed.
End Sorted.

Lemma sorted_perm {A} (key : A -> result json) (l s : list A) :
  Py.sorted key l = Ok s -> Permutation s l.
Proof.
  unfold Py.sorted. intros H. bind_inv H. bind_inv H. injection H as <-.
  apply insertion_perm in E0. rewrite app_nil_r in E0. rewrite E0.
  clear E0 a0. revert a E. induction l as [|x l IH]; intros keyed H; simpl in H.
  - by injection H as <-.
  - bind_inv H. bind_inv E. injection E as <-. bind_inv H. injection H as <-.
    simpl. constructor. by apply IH.
Qed.

Lemma get_sort_key_url item :
  url_shaped item ->
  exists u, url_of (snd item) = Some u /\ Mpp.get_sort_key item = Ok (JStr u).
Proof.
  unfold url_shaped, Mpp.get_sort_key. intros [u Hu]. exists u. split; [done|].
  destruct (snd item) as [| | | | |d]; simpl in *; try congruence.
  destruct (Dict.get "url" d) as [[]|]; congruence.
Qed.

(** On entries that have a URL the sort ends, and orders them by it. *)
Lemma sorted_urls items :
  Forall url_shaped items ->
  exists s, Py.sorted Mpp.get_sort_key items = Ok s /\
            Permutation s items /\ StronglySorted url_le s.
Proof.
  intros Hshape. unfold Py.sorted.
  assert (Hkeys : exists keyed,
    mapM (fun a => let* k := Mpp.get_sort_key a in Ok (k, a)) items = Ok keyed /\
    Forall (fun x => exists u, url_of (snd (snd x)) = Some u /\ fst x = JStr u) keyed).
  { induction Hshape as [|item items Hi _ (keyed & Hm & Hk)]; simpl; [eauto|].
    destruct (get_sort_key_url item Hi) as (u & Hu & ->). simpl. rewrite Hm. simpl.
    eexists. split; [done|]. constructor; [|done]. eauto. }
  destruct Hkeys as (keyed & Hm & Hk). rewrite Hm. simpl.
  destruct (insertion_str keyed []) as (s & Hs & Hsorted);
    [|done|constructor|].
  { eapply Forall_impl; [apply Hk|]. intros x (u & _ & Hu). by exists u. }
  rewrite Hs. simpl. eexists. split; [done|]. split.
  - apply (sorted_perm Mpp.get_sort_key). unfold Py.sorted. by rewrite Hm; simpl; rewrite Hs.
  - apply insertion_perm in Hs. rewrite app_nil_r in Hs.
    assert (Hk' : Forall (fun x => exists u, url_of (snd (snd x)) = Some u /\
                                             fst x = JStr u) s) by (by rewrite Hs).
    clear -Hsorted Hk'. induction Hsorted as [|x r Hr IH Hx]; simpl; [constructor|].
    apply Forall_cons in Hk' as [(u & Hu & Hfx) Hk'].
    constructor; [by apply IH|].
    apply Forall_fmap. rewrite Forall_forall in Hx, Hk'. apply Forall_forall.
    intros y Hy. destruct (Hk' y Hy) as (v & Hv & Hfy).
    destruct (Hx y Hy) as (s1 & s2 & H1 & H2 & Hle).
    unfold url_le. simpl. rewrite Hu, Hv. congruence.
Qed.

(** ** [_sort_urls] *)

Lemma wf_perm {V} (d d' : list (string * V)) :
  Permutation d d' -> Dict.wf d' -> Dict.wf d.
Proof. unfold Dict.wf, Dict.keys. intros H. by rewrite H. Qed.

Lemma sort_urls_Ok root r out :
  Mpp._sort_urls root (Some r) = Ok out ->
  exists obj,
    Store.deref root r = Some obj /\
    ((Py.truthy obj = false /\ out = root) \/
     exists items s,
       obj = JObj items /\ items <> [] /\
       Py.sorted Mpp.get_sort_key items = Ok s /\
       out = Store.assign root r (JObj (Dict.update [] (Dict.update [] s)))).
Proof.
  unfold Mpp._sort_urls. intros H. bind_inv H. apply load_Ok in E.
  exists a. split; [done|]. destruct (Py.truthy a) eqn:Etr; simpl in H.
  - right. bind_inv H. bind_inv H. injection H as <-.
    destruct a; try done. injection E0 as ->.
    exists a0, a1. split_and!; try done. by intros ->.
  - left. by injection H as <-.
Qed.

(** A non-empty [urls] whose entries have a URL is stored again in the
    order of the URLs, with the same entries. *)
Lemma sort_urls_dict root r items :
  Store.deref root r = Some (JObj items) ->
  Dict.wf items ->
  Forall url_shaped items ->
  exists s,
    Mpp._sort_urls root (Some r) = Ok (Store.assign root r (JObj s)) /\
    Permutation s items /\ StronglySorted url_le s.
Proof.
  intros D Hwf Hshape.
  destruct (sorted_urls items Hshape) as (s & Hs & Hperm & Hsorted).
  destruct items as [|item items].
  - apply Permutation_nil_r in Hperm as ->. exists [].
    unfold Mpp._sort_urls, Store.load. rewrite D. simpl.
    split_and!; try done. by rewrite (assign_deref_id _ _ _ D).
  - exists s. unfold Mpp._sort_urls, Store.load. rewrite D. simpl.
    fold (Py.sorted Mpp.get_sort_key (item :: items)). rewrite Hs. simpl.
    assert (Hwfs : Dict.wf s) by (by eapply wf_perm).
    by rewrite (update_empty s Hwfs), (update_empty s Hwfs).
Qed.

Lemma update_pairs_wf i d l d' :
  Py.update_pairs i d l = Ok d' -> Dict.wf d -> Dict.wf d'.
Proof.
  revert i d. induction l as [|e l IH]; intros i d H Hwf; simpl in H.
  - by injection H as <-.
  - bind_inv H. apply (IH _ _ H). unfold Py.update_pair in E. bind_inv E.
    destruct a0 as [|k [|v [|]]]; try done.
    destruct k; try done. injection E as <-. by apply wf_set.
Qed.

Lemma py_update_wf u x u' :
  Py.update u x = Ok u' ->
  exists d d', u = JObj d /\ u' = JObj d' /\ (Dict.wf d -> Dict.wf d').
Proof.
  destruct u as [| | | | |d]; try done. simpl. intros H. exists d.
  destruct x.
  1-5: bind_inv H; bind_inv H; injection H as <-; eexists; split_and!; try done;
       by eapply update_pairs_wf.
  injection H as <-. eexists. split_and!; try done. apply wf_update.
Qed.

(** ** The URLs of a version-1 run *)

Lemma defaulted_urls_value d d' :
  defaulted d = Ok d' ->
  Store.deref (JObj d') urls_ref =
  Some (match Store.deref (JObj d) urls_ref with Some u => u | None => JObj [] end).
Proof.
  unfold defaulted, entered_value. simpl. intros H.
  destruct (Dict.get "sources" d) as [sv|] eqn:Es.
  - destruct sv as [| | | | |s]; try done.
    destruct (Dict.get files_kind s) as [fv|] eqn:Ef.
    + destruct fv as [| | | | |f]; try done. injection H as <-.
      rewrite !get_set_eq, get_entered. unfold entered_value.
      by destruct (Dict.get "urls" f).
    + injection H as <-. rewrite !get_set_eq. done.
  - simpl in H. injection H as <-. rewrite !get_set_eq. done.
Qed.

Section UrlsV1.
Variable read_json : string -> result json.

Lemma process_v1_urls st todo st' n :
  Mpp._manifest_process_v1 read_json st todo = Ok st' ->
  manifest_urls st = Some urls_ref ->
  todo = hops n ->
  (exists o, Store.deref (manifest st) todo = Some o /\
             Py.contains Mpp.directive o = Ok true) ->
  exists u x u',
    Store.deref (manifest st) urls_ref = Some u /\ Py.update u x = Ok u' /\
    Store.deref (manifest st') urls_ref = Some u' /\
    manifest_urls st' = Some urls_ref.
Proof.
  unfold Mpp._manifest_process_v1. intros H Hurls -> (o & Do & Hc).
  bind_inv H. destruct a as [root imp]. bind_inv H. destruct a as [iu ip].
  destruct (open_import_v1_Ok _ _ _ _ _ E) as (e & D & Hroot).
  rewrite Do in D. injection D as ->.
  assert (Hmem : Dict.mem Mpp.directive e = true) by (simpl in Hc; congruence).
  unfold entered in Hroot. rewrite Hmem in Hroot.
  rewrite (assign_deref_id _ _ _ Do) in Hroot. subst root.
  apply splice_v1_Ok in H as (r & u & u' & e1 & Hr & Du & Hu & D1 & ->).
  rewrite Hurls in Hr. injection Hr as <-.
  exists u, iu, u'. split_and!; try done. cbn [manifest].
  assert (Du' : Store.deref (Store.assign (manifest st) urls_ref u') urls_ref = Some u')
    by (apply deref_assign_eq; eauto).
  remember (Store.assign (manifest st) urls_ref u') as root1 eqn:Hroot1.
  destruct n as [|n].
  - simpl in D1. injection D1 as ->.
    simpl in *. rewrite get_del_ne by done. by rewrite get_set_ne by done.
  - rewrite <- Du'. apply (deref_assign_other _ (Key "pipeline") (Key "sources")).
    congruence.
Qed.

(** After the import, [state.manifest_urls] names an object of the
    manifest; it has no key twice when the [urls] of the input had none. *)
Lemma import_v1_urls st src st' :
  Mpp._manifest_import_v1 read_json st src = Ok st' ->
  manifest_urls st' = Some urls_ref /\
  exists obj, Store.deref (manifest st') urls_ref = Some obj /\
              ((forall u0, Store.deref src urls_ref = Some (JObj u0) -> Dict.wf u0) ->
               forall m, obj = JObj m -> Dict.wf m).
Proof.
  unfold Mpp._manifest_import_v1. intros H. bind_inv H.
  destruct (parse_v1_Ok _ _ _ E) as (d & d' & -> & Hd & Hst1 & Hfind).
  assert (Hurls : manifest_urls a = Some urls_ref) by (by rewrite Hst1).
  assert (Hm : manifest a = JObj d') by (by rewrite Hst1).
  pose proof (defaulted_urls_value _ _ Hd) as Du. rewrite <- Hm in Du.
  assert (Hwf1 : (forall u0, Store.deref (JObj d) urls_ref = Some (JObj u0) ->
                             Dict.wf u0) ->
            forall m,
            match Store.deref (JObj d) urls_ref with Some u => u | None => JObj [] end
            = JObj m -> Dict.wf m).
  { intros Hwf m. destruct (Store.deref (JObj d) urls_ref) as [u|] eqn:Eu.
    - intros ->. by apply Hwf.
    - intros [= <-]. constructor. }
  apply find_import_found in Hfind as [Htodo | (n & o & Htodo & Do & Hc & _)];
    rewrite Htodo in H; simpl in H.
  - injection H as <-. eauto.
  - bind_inv H. injection H as <-. rewrite <- Hm in Do.
    destruct (process_v1_urls _ _ _ n E0 Hurls eq_refl)
      as (u & x & u' & Du1 & Hu & Du' & Hurls'); [eauto|].
    split; [done|]. exists u'. split; [done|].
    intros Hwf m ->. rewrite Du in Du1. injection Du1 as <-.
    destruct (py_update_wf _ _ _ Hu) as (d0 & d1 & Hd0 & [= <-] & Hw).
    apply Hw. by apply (Hwf1 Hwf).
Qed.
End UrlsV1.

(** What [_sort_urls] leaves at [r], seen from its result. *)
Lemma sort_urls_result root r out sorted :
  Mpp._sort_urls root (Some r) = Ok out ->
  (forall m, Store.deref root r = Some (JObj m) -> Dict.wf m) ->
  Store.deref out r = Some (JObj sorted) ->
  Forall url_shaped sorted ->
  StronglySorted url_le sorted /\
  exists merged,
    Store.deref root r = Some (JObj merged) /\
    Permutation sorted merged /\
    out = Store.assign root r (JObj sorted).
Proof.
  intros Hsort Hwf Dout Hshape.
  apply sort_urls_Ok in Hsort as (obj & Dobj & Hcase).
  destruct Hcase as [[Hfalse ->] | (items & s & -> & Hne & Hs & ->)].
  - rewrite Dobj in Dout. injection Dout as ->.
    destruct sorted; [|done]. split; [constructor|].
    exists []. split_and!; try done. by rewrite (assign_deref_id _ _ _ Dobj).
  - pose proof (sorted_perm _ _ _ Hs) as Hperm.
    assert (Hwfs : Dict.wf s) by (eapply wf_perm; eauto).
    rewrite (update_empty s Hwfs), (update_empty s Hwfs) in Dout |- *.
    rewrite deref_assign_eq in Dout by eauto. injection Dout as ->.
    assert (Hitems : Forall url_shaped items) by (by rewrite <- Hperm).
    destruct (sorted_urls items Hitems) as (s2 & Hs2 & _ & Hsorted).
    rewrite Hs in Hs2. injection Hs2 as <-.
    split; [done|]. exists items. by split_and!.
Qed.

(** C8. In a version-1 run that writes a manifest, the [urls] mapping of
    that manifest is in ascending order of the URLs of its entries, the
    URL of an entry being the entry itself when it is a string and its
    [url] when it is a composite descriptor; the entries are those that
    the import left, keys and values unchanged. (A [dict] has no key
    twice: the hypothesis on the [urls] of the input.) *)
Theorem C8_final_urls_are_sorted read_json st src version out sorted :
  Py.get src "version" (JStr "1") = Ok version ->
  Py.eq version (JStr "1") = true ->
  (forall u0, Store.deref src urls_ref = Some (JObj u0) -> Dict.wf u0) ->
  Mpp._main_process read_json st src = Ok (mkOutcome 0 (Some out)) ->
  Store.deref out urls_ref = Some (JObj sorted) ->
  Forall url_shaped sorted ->
  StronglySorted url_le sorted /\
  exists st' merged,
    Mpp._manifest_import_v1 read_json st src = Ok st' /\
    Store.deref (manifest st') urls_ref = Some (JObj merged) /\
    Permutation sorted merged /\
    out = Store.assign (manifest st') urls_ref (JObj sorted).
Proof.
  intros Hv H1 Hwf Hmain Dout Hshape.
  unfold Mpp._main_process in Hmain. rewrite Hv in Hmain. simpl in Hmain.
  rewrite H1 in Hmain. bind_inv Hmain. bind_inv Hmain. injection Hmain as ->.
  rename a into st'.
  destruct (import_v1_urls _ _ _ _ E) as (Hurls & obj & Dobj & Hwfo).
  rewrite Hurls in E0.
  destruct (sort_urls_result _ _ _ sorted E0)
    as (Hsorted & merged & Dm & Hperm & Hout); try done.
  { intros m Dm. apply (Hwfo Hwf). congruence. }
  split; [done|]. exists st', merged. by split_and!.
Qed.

(** C8 on a sample manifest. *)
Lemma C8_final_urls_are_sorted_witness :
  StronglySorted url_le ExamplesV1.sorted_urls.
Proof.
  apply (C8_final_urls_are_sorted Examples.disk (Mpp._main_state None)
           (ExamplesV1.with_urls ExamplesV1.unsorted_urls) (JStr "1")
           (ExamplesV1.with_urls ExamplesV1.sorted_urls) ExamplesV1.sorted_urls).
  - reflexivity.
  - reflexivity.
  - intros u0 [= <-]. solve_wf.
  - reflexivity.
  - reflexivity.
  - repeat constructor; eexists; reflexivity.
Defined.

(** ** A second run over the output *)

Lemma find_import_below fuel root1 root2 current :
  (forall r, Store.deref root1 (Key "pipeline" :: r)
             = Store.deref root2 (Key "pipeline" :: r)) ->
  Mpp.find_import fuel root1 (Key "pipeline" :: current)
  = Mpp.find_import fuel root2 (Key "pipeline" :: current).
Proof.
  intros H. revert current. induction fuel as [|fuel IH]; intros current; [done|].
  cbn [Mpp.find_import]. rewrite H.
  destruct (Store.deref root2 _) as [obj|]; [|done].
  destruct (negb _); [done|]. destruct (Py.contains _ _) as [[]|]; try done.
  destruct (Py.get obj _ _) as [p|]; [|done].
  destruct (Py.get p _ _) as [b|]; [|done]. destruct b; try done; apply IH.
Qed.

Lemma find_import_root fuel d1 d2 :
  (forall k, k <> "sources"%string -> Dict.get k d1 = Dict.get k d2) ->
  d1 <> [] -> d2 <> [] ->
  Mpp.find_import fuel (JObj d1) [] = Mpp.find_import fuel (JObj d2) [].
Proof.
  intros H H1 H2. destruct fuel as [|fuel]; [done|].
  cbn [Mpp.find_import Store.deref].
  assert (Ht : forall d : list (string * json), d <> [] -> Py.truthy (JObj d) = true)
    by (by intros [|]).
  rewrite !Ht by done. cbn [negb]. cbn [Py.contains Py.get]. unfold Dict.mem.
  rewrite (H Mpp.directive) by done. rewrite (H "pipeline") by done.
  destruct (Dict.get Mpp.directive d2); [done|].
  destruct (Py.get _ "build" JNull) as [b|]; [|done].
  assert (Hb : Mpp.find_import fuel (JObj d1) ([] ++ [Key "pipeline"; Key "build"])
               = Mpp.find_import fuel (JObj d2) ([] ++ [Key "pipeline"; Key "build"])).
  { apply find_import_below. intros r. simpl. by rewrite (H "pipeline"). }
  destruct b; try done.
Qed.

Lemma find_import_fuel_indep f1 f2 root current r1 r2 :
  Mpp.find_import f1 root current = Some r1 ->
  Mpp.find_import f2 root current = Some r2 ->
  r1 = r2.
Proof.
  revert f2 current. induction f1 as [|f1 IH]; intros [|f2] current; try done.
  cbn [Mpp.find_import].
  destruct (Store.deref root current) as [obj|]; [|congruence].
  destruct (negb _); [congruence|].
  destruct (Py.contains _ _) as [[]|]; try congruence.
  destruct (Py.get obj _ _) as [p|]; [|congruence].
  destruct (Py.get p _ _) as [b|]; [|congruence].
  destruct b; try congruence; apply IH.
Qed.

Lemma assign_under_key d k r v :
  exists d2, Store.assign (JObj d) (Key k :: r) v = JObj d2 /\
             (forall k', k <> k' -> Dict.get k' d2 = Dict.get k' d) /\
             (d <> [] -> d2 <> []).
Proof.
  simpl. destruct (Dict.get k d) as [c|] eqn:E; [|eauto].
  eexists. split_and!; [done| |].
  - intros k' Hk. by apply get_set_ne.
  - intros _. destruct d as [|[k0 v0] d]; [done|]. simpl. by destruct (String.eqb k k0).
Qed.

(** Sorting what is sorted changes nothing. *)
Lemma leb_not_ltb s t : String.leb s t = true -> String.ltb t s = false.
Proof.
  unfold String.ltb, String.leb. rewrite (String.compare_antisym s t).
  by destruct (String.compare t s).
Qed.

Lemma insert_last {A} (x : json * A) l :
  Forall (fun y => key_le y x) l -> Py.insert x l = Ok (l ++ [x]).
Proof.
  induction 1 as [|y l (s & t & Hs & Ht & Hle) _ IH]; simpl; [done|].
  rewrite Hs, Ht. simpl. rewrite (leb_not_ltb _ _ Hle). by rewrite IH.
Qed.

Lemma insertion_sorted {A} (keyed acc : list (json * A)) :
  StronglySorted key_le (acc ++ keyed) ->
  foldM (fun acc x => Py.insert x acc) keyed acc = Ok (acc ++ keyed).
Proof.
  revert acc. induction keyed as [|x r IH]; intros acc H; simpl.
  - by rewrite app_nil_r.
  - rewrite insert_last.
    + simpl. rewrite IH; rewrite <- app_assoc; done.
    + clear IH. induction acc as [|y acc IHacc]; [constructor|].
      simpl in H. apply StronglySorted_inv in H as [Hs Hy].
      constructor; [|by apply IHacc].
      apply Forall_app in Hy as [_ Hy]. by apply Forall_cons in Hy as [? _].
Qed.

Lemma sorted_sorted_urls s :
  Forall url_shaped s -> StronglySorted url_le s ->
  Py.sorted Mpp.get_sort_key s = Ok s.
Proof.
  intros Hshape Hsorted. unfold Py.sorted.
  assert (Hkeys : exists keyed,
    mapM (fun a => let* k := Mpp.get_sort_key a in Ok (k, a)) s = Ok keyed /\
    map snd keyed = s /\ StronglySorted key_le keyed).
  { induction Hsorted as [|x r Hr IH Hx]; simpl.
    - exists []. split_and!; try done. constructor.
    - apply Forall_cons in Hshape as [Hsx Hsr].
      destruct (IH Hsr) as (keyed & Hm & Hsnd & Hk).
      destruct (get_sort_key_url x Hsx) as (u & Hu & ->). simpl. rewrite Hm. simpl.
      eexists. split_and!; [done|by simpl; rewrite Hsnd|].
      constructor; [done|].
      clear -Hx Hu Hm. revert keyed Hm.
      induction Hx as [|y r Hy _ IHx]; intros keyed Hm; simpl in Hm.
      + injection Hm as <-. constructor.
      + bind_inv Hm. bind_inv E. injection E as <-. bind_inv Hm. injection Hm as <-.
        constructor; [|by apply IHx].
        unfold url_le in Hy. rewrite Hu in Hy.
        destruct (url_of (snd y)) as [v|] eqn:Hv; [|done].
        destruct (get_sort_key_url y) as (v' & Hv' & Hk); [by exists v|].
        rewrite E0 in Hk. injection Hk as ->.
        exists u, v'. split_and!; try done. congruence. }
  destruct Hkeys as (keyed & -> & Hsnd & Hk). simpl.
  rewrite (insertion_sorted keyed []) by done. simpl. by rewrite Hsnd.
Qed.

(** [_sort_urls] on [urls] that are false, or in the order of their
    URLs already, leaves the manifest as it is. *)
Lemma sort_urls_again out r obj :
  Store.deref out r = Some obj ->
  Py.truthy obj = false \/
  (exists s, obj = JObj s /\ Dict.wf s /\ Forall url_shaped s /\
             StronglySorted url_le s) ->
  Mpp._sort_urls out (Some r) = Ok out.
Proof.
  intros D Hcase. unfold Mpp._sort_urls, Store.load. rewrite D. simpl.
  destruct Hcase as [-> | (s & -> & Hwf & Hshape & Hsorted)]; [done|].
  destruct s as [|x s]; [done|]. simpl.
  fold (Py.sorted Mpp.get_sort_key (x :: s)).
  rewrite (sorted_sorted_urls _ Hshape Hsorted). cbn [bind].
  rewrite (update_empty _ Hwf), (update_empty _ Hwf).
  by rewrite (assign_deref_id _ _ _ D).
Qed.


(** ** A version-1 run without import *)

Section NoImport.
Variable read_json : string -> result json.

(** Without a directive along the build chain, the run is the
    defaulting of [_manifest_parse_v1] followed by [_sort_urls]. *)
Lemma run_without_import st src version out :
  Py.get src "version" (JStr "1") = Ok version ->
  Py.eq version (JStr "1") = true ->
  (forall n, holds_directive src n <> Some (Ok true)) ->
  Mpp._main_process read_json st src = Ok (mkOutcome 0 (Some out)) ->
  exists d d',
    src = JObj d /\ defaulted d = Ok d' /\
    Mpp.find_import (json_size (JObj d')) (JObj d') [] = Some (Ok []) /\
    Mpp._manifest_import_v1 read_json st src
    = Ok (mkState (cwd st) (JObj d') (Some urls_ref) []) /\
    Mpp._sort_urls (JObj d') (Some urls_ref) = Ok out.
Proof.
  intros Hv H1 Hno Hmain.
  unfold Mpp._main_process in Hmain. rewrite Hv in Hmain. simpl in Hmain.
  rewrite H1 in Hmain. bind_inv Hmain. bind_inv Hmain. injection Hmain as ->.
  unfold Mpp._manifest_import_v1 in E |- *. bind_inv E.
  rename a into st', a0 into st1, E1 into Hparse, E into Hfold, E0 into Hsort.
  destruct (parse_v1_Ok _ _ _ Hparse) as (d & d' & -> & Hd & Hst1 & Hfind).
  exists d, d'.
  assert (Htodo : manifest_todo st1 = []).
  { pose proof Hfind as Hfound.
    apply find_import_found in Hfound as [-> | (n & o & _ & Do & Hc & _)]; [done|].
    exfalso. apply (Hno n). rewrite <- (holds_directive_defaulted _ _ _ Hd).
    unfold holds_directive. simpl in Do. by rewrite Do, Hc. }
  rewrite Htodo in *. simpl in Hfold. injection Hfold as <-.
  rewrite Hparse, Hst1 in *. simpl in *. by split_and!.
Qed.
(** C2, amended. For a version-1 manifest with no directive along the
    build chain, a run that writes a manifest writes the input with
    [sources], [sources.org.osbuild.files] and its [urls] entered as empty
    mappings where they are missing, and with the entries of [urls] put in
    the order of their URLs. So what is under the keys other than
    [sources] is as in the input; when the input has the [urls] mapping,
    the output is the input with the entries of that mapping reordered;
    and a run over the output writes the output again. *)
Theorem C2_run_without_import_defaults_and_sorts st src version out :
  Py.get src "version" (JStr "1") = Ok version ->
  Py.eq version (JStr "1") = true ->
  (forall n, holds_directive src n <> Some (Ok true)) ->
  (forall u0, Store.deref src urls_ref = Some (JObj u0) -> Dict.wf u0) ->
  Mpp._main_process read_json st src = Ok (mkOutcome 0 (Some out)) ->
  (exists d d', src = JObj d /\ defaulted d = Ok d' /\
                Mpp._sort_urls (JObj d') (Some urls_ref) = Ok out) /\
  (forall k r, k <> "sources"%string ->
               Store.deref out (Key k :: r) = Store.deref src (Key k :: r)) /\
  is_Some (Store.deref out urls_ref) /\
  (forall urls, Store.deref src urls_ref = Some (JObj urls) ->
     exists sorted, out = Store.assign src urls_ref (JObj sorted) /\
                    Permutation sorted urls) /\
  ((forall urls, Store.deref out urls_ref = Some (JObj urls) ->
                 Forall url_shaped urls) ->
   Mpp._main_process read_json st out = Ok (mkOutcome 0 (Some out))).
Proof.
  intros Hv H1 Hno Hwf Hmain.
  destruct (run_without_import _ _ _ _ Hv H1 Hno Hmain)
    as (d & d' & -> & Hd & Hfind & Himport & Hsort).
  pose proof (defaulted_urls_value _ _ Hd) as Du.
  assert (Hwf' : forall m, Store.deref (JObj d') urls_ref = Some (JObj m) -> Dict.wf m).
  { intros m Dm. rewrite Du in Dm.
    destruct (Store.deref (JObj d) urls_ref) as [u|] eqn:Eu.
    - injection Dm as ->. by apply Hwf.
    - injection Dm as <-. constructor. }
  pose proof Hsort as Hcase.
  apply sort_urls_Ok in Hcase as (obj & Dobj & Hcase).
  assert (Hd'ne : d' <> []).
  { intros ->. by simpl in Dobj. }
  assert (Hout : exists do, out = JObj do /\ do <> [] /\
            forall k, k <> "sources"%string -> Dict.get k do = Dict.get k d').
  { destruct Hcase as [[_ ->] | (items & s & _ & _ & _ & ->)]; [eauto|].
    destruct (assign_under_key d' "sources" [Key files_kind; Key "urls"]
                (JObj (Dict.update [] (Dict.update [] s)))) as (do & Hdo & Hk & Hne).
    exists do. split_and!; [done|by apply Hne|]. intros k Hk'. apply Hk. congruence. }
  destruct Hout as (do & -> & Hdone & Hdo).
  assert (Dout : is_Some (Store.deref (JObj do) urls_ref)).
  { destruct Hcase as [[_ Heq] | (items & s & _ & _ & _ & Heq)]; rewrite Heq.
    - eauto.
    - rewrite deref_assign_eq; eauto. }
  split_and!.
  - eauto.
  - intros k r Hk. simpl. rewrite (Hdo k Hk). by rewrite (defaulted_get_ne _ _ _ Hd).
  - done.
  - intros urls Durls. rewrite Durls in Du.
    rewrite (defaulted_id _ _ Durls) in Hd. injection Hd as <-.
    rewrite Dobj in Du. injection Du as ->.
    destruct Hcase as [[Hfalse Heq] | (items & s & [= <-] & _ & Hs & Heq)].
    + destruct urls; [|done]. exists []. split; [|done].
      by rewrite (assign_deref_id _ _ _ Durls).
    + pose proof (sorted_perm _ _ _ Hs) as Hperm.
      assert (Hwfs : Dict.wf s) by (eapply wf_perm; eauto).
      rewrite (update_empty s Hwfs), (update_empty s Hwfs) in Heq. eauto.
  - intros Hshape.
    destruct Dout as [objo Dout].
    assert (Hagain : Mpp._sort_urls (JObj do) (Some urls_ref) = Ok (JObj do)).
    { apply (sort_urls_again _ _ objo Dout).
      destruct Hcase as [[Hfalse Heq] | (items & s & -> & Hne & Hs & Heq)].
      - left. rewrite Heq, Dobj in Dout. by injection Dout as <-.
      - right. pose proof (sorted_perm _ _ _ Hs) as Hperm.
        assert (Hwfs : Dict.wf s) by (eapply wf_perm; eauto).
        assert (Dout' : Store.deref (JObj do) urls_ref = Some (JObj s)).
        { rewrite Heq, (update_empty s Hwfs), (update_empty s Hwfs).
          rewrite deref_assign_eq; eauto. }
        rewrite Dout in Dout'. injection Dout' as ->.
        destruct (sort_urls_result _ _ _ s Hsort Hwf' Dout (Hshape _ Dout))
          as (Hsorted & _).
        exists s. split_and!; auto. }
    unfold Mpp._main_process.
    assert (Hv' : Py.get (JObj do) "version" (JStr "1") = Ok version).
    { simpl in Hv |- *. rewrite (Hdo "version") by done.
      by rewrite (defaulted_get_ne _ _ _ Hd). }
    rewrite Hv'. simpl. rewrite H1.
    unfold Mpp._manifest_import_v1. rewrite parse_v1_dict.
    rewrite (defaulted_id _ _ Dout). cbn [bind].
    destruct (find_import_fuel (json_size (JObj do)) (JObj do) [] (JObj do) eq_refl
                ltac:(lia)) as [res Hres].
    pose proof Hres as Hres'.
    rewrite (find_import_root _ do d' Hdo Hdone Hd'ne) in Hres'.
    rewrite (find_import_fuel_indep _ _ _ _ _ _ Hres' Hfind) in Hres.
    rewrite Hres. cbn [bind foldM manifest_todo manifest manifest_urls].
    by rewrite Hagain.
Qed.
End NoImport.

(** C2 as stated fails: the empty manifest has no directive,
    and the manifest the run writes has the key [sources] that the input
    has not; the two are not equal even for [==], which does not look at
    the order of the keys. *)
Lemma C2_defaults_are_written :
  (forall n, holds_directive (JObj []) n <> Some (Ok true)) /\
  Mpp.main Examples.disk None (JObj []) =
  Ok (mkOutcome 0 (Some (ExamplesV1.defaults_only))) /\
  Py.eq ExamplesV1.defaults_only (JObj []) = false.
Proof.
  split_and!; [|reflexivity|reflexivity]. by intros [|n].
Qed.

(** C2 on a sample manifest. *)
Lemma C2_run_without_import_defaults_and_sorts_witness :
  Mpp._main_process Examples.disk (Mpp._main_state None)
    (ExamplesV1.with_urls ExamplesV1.sorted_urls)
  = Ok (mkOutcome 0 (Some (ExamplesV1.with_urls ExamplesV1.sorted_urls))).
Proof.
  apply (C2_run_without_import_defaults_and_sorts Examples.disk (Mpp._main_state None)
           (ExamplesV1.with_urls ExamplesV1.unsorted_urls) (JStr "1")
           (ExamplesV1.with_urls ExamplesV1.sorted_urls)).
  - reflexivity.
  - reflexivity.
  - intros [|[|n]]; discriminate.
  - intros u0 [= <-]. solve_wf.
  - reflexivity.
  - intros urls [= <-]. repeat constructor; eexists; reflexivity.
Defined.

(** ** The references of a run are never dangling *)

Lemma json_ind (P : json -> Prop) :
  P JNull -> (forall b, P (JBool b)) -> (forall n, P (JNum n)) ->
  (forall s, P (JStr s)) ->
  (forall l, Forall P l -> P (JArr l)) ->
  (forall d, Forall (fun kv => P (snd kv)) d -> P (JObj d)) ->
  forall j, P j.
Proof.
  intros Hnull Hbool Hnum Hstr Harr Hobj. fix IH 1. intros [| b | n | s | l | d].
  - exact Hnull.
  - apply Hbool.
  - apply Hnum.
  - apply Hstr.
  - apply Harr. induction l as [|x l IHl]; constructor; [apply IH | exact IHl].
  - apply Hobj. induction d as [|[k v] d IHd]; constructor; [apply IH | exact IHd].
Qed.

Lemma sound_Ok {A} (a : A) : sound (Ok a).
Proof. by intros e. Qed.

Lemma sound_bind {A B} (m : result A) (f : A -> result B) :
  sound m -> (forall a, m = Ok a -> sound (f a)) -> sound (bind m f).
Proof.
  intros Hm Hf. destruct m as [a|e]; simpl; [by apply Hf|].
  intros e' [= <-]. by apply Hm.
Qed.

Lemma sound_foldM {A S} (f : S -> A -> result S) (I : S -> Prop) l s :
  (forall s a, I s -> sound (f s a)) ->
  (forall s a s', I s -> f s a = Ok s' -> I s') ->
  I s -> sound (foldM f l s).
Proof.
  intros Hf Hi. revert s. induction l as [|a l IH]; intros s Hs; simpl.
  - apply sound_Ok.
  - apply sound_bind; [by apply Hf|]. intros s' Hs'. apply IH. by eapply Hi.
Qed.

Lemma sound_mapM {A B} (f : A -> result B) l :
  (forall a, sound (f a)) -> sound (mapM f l).
Proof.
  intros Hf. induction l as [|a l IH]; simpl; [apply sound_Ok|].
  apply sound_bind; [apply Hf|]. intros b _.
  apply sound_bind; [apply IH|]. intros bs _. apply sound_Ok.
Qed.

(** Takes [sound m] for [m] a match on values to its cases. *)
Ltac sound_cases :=
  repeat match goal with
    | |- sound (Ok _) => apply sound_Ok
    | |- sound (Raise _) => intros ? [= <-] [|]; discriminate
    | |- sound (match ?x with _ => _ end) => destruct x
    | |- sound (if ?x then _ else _) => destruct x
    end.

Lemma sound_lt a b : sound (Py.lt a b).
Proof.
  revert b. induction a as [|x|n|s|l IH|d IH] using json_ind; intros c;
    destruct c; simpl; sound_cases.
  revert l0. induction IH as [|x l Hx _ IHl]; intros [|y l']; sound_cases.
  - apply IHl.
  - apply Hx.
Qed.

Lemma sound_iter c : sound (Py.iter c).
Proof. destruct c; simpl; sound_cases. Qed.

Lemma sound_update c x : sound (Py.update c x).
Proof.
  assert (Hpairs : forall l i d, sound (Py.update_pairs i d l)).
  { induction l as [|e l IH]; intros i d; simpl; [apply sound_Ok|].
    apply sound_bind; [|intros; apply IH].
    unfold Py.update_pair. apply sound_bind; [apply sound_iter|].
    intros cs _. sound_cases. }
  destruct c; simpl; sound_cases.
  all: apply sound_bind; [apply sound_iter|]; intros ? _.
  all: apply sound_bind; [apply Hpairs|]; intros; apply sound_Ok.
Qed.

Lemma sound_sorted {A} (key : A -> result json) l :
  (forall a, sound (key a)) -> sound (Py.sorted key l).
Proof.
  intros Hkey. unfold Py.sorted. apply sound_bind.
  { apply sound_mapM. intros a. apply sound_bind; [apply Hkey|].
    intros; apply sound_Ok. }
  intros keyed _. apply sound_bind; [|intros; apply sound_Ok].
  apply (sound_foldM _ (fun _ => True)); try done.
  intros acc x _. induction acc as [|y acc IH]; simpl; [apply sound_Ok|].
  apply sound_bind; [apply sound_lt|]. intros [] _; [apply sound_Ok|].
  apply sound_bind; [apply IH|]. intros; apply sound_Ok.
Qed.

Lemma sound_contains k c : sound (Py.contains k c).
Proof. destruct c; simpl; sound_cases. Qed.

Lemma sound_getitem c k : sound (Py.getitem c k).
Proof. destruct c; simpl; sound_cases. Qed.

Lemma sound_setitem c k v : sound (Py.setitem c k v).
Proof. destruct c; simpl; sound_cases. Qed.

Lemma sound_delitem c k : sound (Py.delitem c k).
Proof. destruct c; simpl; sound_cases. Qed.

Lemma sound_get c k v : sound (Py.get c k v).
Proof. destruct c; simpl; sound_cases. Qed.

Lemma sound_items c : sound (Py.items c).
Proof. destruct c; simpl; sound_cases. Qed.

Lemma sound_path_join a b : sound (Py.path_join a b).
Proof. destruct b; simpl; sound_cases. Qed.

Lemma sound_load root r : is_Some (Store.deref root r) -> sound (Store.load root r).
Proof. intros [o D]. unfold Store.load. rewrite D. apply sound_Ok. Qed.

Lemma sound_modify root r f :
  is_Some (Store.deref root r) -> (forall o, sound (f o)) ->
  sound (Store.modify root r f).
Proof.
  intros D Hf. unfold Store.modify. apply sound_bind; [by apply sound_load|].
  intros o _. apply sound_bind; [apply Hf|]. intros; apply sound_Ok.
Qed.

Lemma sound_enter root m key default :
  is_Some (Store.deref root m) -> sound (Mpp._manifest_enter root m key default).
Proof.
  intros [o D]. destruct o;
    try solve [rewrite (enter_not_dict _ _ _ _ _ D) by done; sound_cases].
  rewrite (enter_dict _ _ _ _ _ D). apply sound_Ok.
Qed.

Lemma sound_foldM_in {A S} (f : S -> A -> result S) (I : S -> Prop) l s :
  (forall s a, a ∈ l -> I s -> sound (f s a)) ->
  (forall s a s', a ∈ l -> I s -> f s a = Ok s' -> I s') ->
  I s -> sound (foldM f l s).
Proof.
  revert s. induction l as [|a l IH]; intros s Hf Hi Hs; simpl.
  - apply sound_Ok.
  - apply sound_bind; [apply Hf; [left|done]|]. intros s' Hs'. apply IH.
    + intros s0 b Hb. apply Hf. by right.
    + intros s0 b s1 Hb. apply Hi. by right.
    + eapply Hi; [left|done|done].
Qed.

Section Sound.
Variable read_json : string -> result json.
Hypothesis read_json_sound : forall p, sound (read_json p).

Lemma sound_check_import_v1 imp : sound (Mpp.check_import_v1 imp).
Proof.
  destruct imp;
    try solve [rewrite check_import_v1_not_dict by done; sound_cases].
  rewrite check_import_v1_dict. sound_cases.
Qed.

Lemma sound_open_import_v1 st todo :
  is_Some (Store.deref (manifest st) todo) ->
  sound (Mpp.open_import_v1 read_json st todo).
Proof.
  intros [o D]. destruct o;
    try solve [unfold Mpp.open_import_v1;
               rewrite (enter_not_dict _ _ _ _ _ D) by done; simpl; sound_cases].
  rewrite (open_import_v1_dict _ _ _ _ D).
  apply sound_bind; [apply sound_getitem|]. intros p _.
  apply sound_bind; [apply sound_path_join|]. intros file _.
  apply sound_bind; [apply read_json_sound|]. intros; apply sound_Ok.
Qed.

Lemma sound_splice_v1 st root n imp_urls imp_pipeline :
  manifest_urls st = Some urls_ref ->
  is_Some (Store.deref root urls_ref) ->
  is_Some (Store.deref root (hops n)) ->
  sound (Mpp.splice_v1 st root (hops n) imp_urls imp_pipeline).
Proof.
  intros Hurls Du Dt. unfold Mpp.splice_v1, Mpp.update_urls. rewrite Hurls.
  apply sound_bind; [apply sound_modify; [done | intros; apply sound_update]|].
  intros root1 (u & u' & _ & _ & ->)%modify_Ok.
  assert (Dt1 : is_Some (Store.deref (Store.assign root urls_ref u') (hops n))).
  { destruct n as [|n]; [simpl; eauto|]. cbn [hops] in *. unfold urls_ref.
    by rewrite (deref_assign_other _ (Key "sources") (Key "pipeline")). }
  apply sound_bind; [apply sound_modify; [done | intros; apply sound_setitem]|].
  intros root2 (t & t' & _ & _ & ->)%modify_Ok.
  apply sound_bind; [|intros; apply sound_Ok].
  apply sound_modify; [|intros; apply sound_delitem].
  rewrite deref_assign_eq by done. eauto.
Qed.

Lemma sound_process_v1 st n :
  manifest_urls st = Some urls_ref ->
  is_Some (Store.deref (manifest st) urls_ref) ->
  is_Some (Store.deref (manifest st) (hops n)) ->
  sound (Mpp._manifest_process_v1 read_json st (hops n)).
Proof.
  intros Hurls Du Dt. unfold Mpp._manifest_process_v1.
  apply sound_bind; [by apply sound_open_import_v1|].
  intros [root imp] (e & D & ->)%open_import_v1_Ok.
  apply sound_bind; [apply sound_check_import_v1|]. intros [iu ip] _.
  apply sound_splice_v1; [done| |].
  - destruct n as [|n].
    + simpl in D. injection D as D. rewrite D in Du.
      simpl in Du |- *. by rewrite get_entered_ne.
    + cbn [hops]. unfold urls_ref in *.
      by rewrite (deref_assign_other _ (Key "pipeline") (Key "sources")).
  - rewrite deref_assign_eq; eauto.
Qed.

Lemma sound_import_v1 st src : sound (Mpp._manifest_import_v1 read_json st src).
Proof.
  unfold Mpp._manifest_import_v1. apply sound_bind.
  { destruct (parse_v1_outcome st src) as [[st1 ->] | [-> | ->]]; sound_cases. }
  intros st1 Hparse.
  destruct (parse_v1_Ok _ _ _ Hparse) as (d & d' & -> & Hd & Hst1 & Hfind).
  assert (Hurls : manifest_urls st1 = Some urls_ref) by (by rewrite Hst1).
  assert (Hm : manifest st1 = JObj d') by (by rewrite Hst1).
  apply find_import_found in Hfind as [-> | (n & o & -> & Do & _)]; simpl.
  - apply sound_Ok.
  - apply sound_bind; [|intros; apply sound_Ok].
    apply sound_process_v1; rewrite ?Hm; eauto using defaulted_urls.
Qed.

Lemma sound_sort_urls root r :
  is_Some (Store.deref root r) -> sound (Mpp._sort_urls root (Some r)).
Proof.
  intros D. unfold Mpp._sort_urls. apply sound_bind; [by apply sound_load|].
  intros obj _. destruct (negb _); [apply sound_Ok|].
  apply sound_bind; [apply sound_items|]. intros items _.
  apply sound_bind; [|intros; apply sound_Ok].
  apply sound_sorted. intros item. unfold Mpp.get_sort_key.
  destruct (snd item); sound_cases. apply sound_getitem.
Qed.

Lemma sound_merged_descriptor t ds : sound (merged_descriptor t ds).
Proof.
  unfold merged_descriptor. apply sound_bind.
  - destruct (Py.truthy _); [|apply sound_Ok].
    apply sound_bind; [apply sound_update|]. intros; apply sound_Ok.
  - intros t' _. apply sound_bind; [apply sound_update|]. intros; apply sound_Ok.
Qed.

Lemma merge_source_not_mapping sources root srcs source target desc :
  Store.deref root sources = Some (JObj srcs) ->
  Dict.get source srcs = Some target ->
  Py.truthy target = true ->
  (forall ds, desc <> JObj ds) \/ (forall t, target <> JObj t) ->
  Mpp.merge_source sources root (source, desc) = Raise AttributeError \/
  Mpp.merge_source sources root (source, desc) = Raise TypeError.
Proof.
  intros D Ht Etr Hshape.
  assert (Dt : Store.deref root (sources ++ [Key source]) = Some target).
  { rewrite deref_app, D. simpl. by rewrite Ht. }
  unfold Mpp.merge_source, Store.load. rewrite D. cbn [bind Py.get].
  rewrite Ht. cbn [bind]. rewrite Etr. cbn [negb].
  destruct desc as [| | | | |ds]; try (left; reflexivity).
  destruct Hshape as [Hd | Hd]; [by destruct (Hd ds)|].
  right. cbn [Py.get bind]. clear Etr.
  destruct (Py.truthy _); cbn [bind];
    rewrite (enter_not_dict _ _ _ _ _ Dt Hd); reflexivity.
Qed.

Lemma sound_merge_source sources root item :
  is_Some (Store.deref root sources) ->
  sound (Mpp.merge_source sources root item).
Proof.
  intros [so D]. destruct item as [source desc].
  destruct so as [| | | | |srcs];
    try solve [unfold Mpp.merge_source, Store.load; rewrite D; simpl; sound_cases].
  destruct (Py.truthy (entry_of source srcs)) eqn:Etr.
  2: { rewrite (merge_source_new _ _ _ _ _ D Etr). apply sound_Ok. }
  unfold entry_of in Etr.
  destruct (Dict.get source srcs) as [target|] eqn:Ht; [|done].
  assert (Hcase : (exists t ds, target = JObj t /\ desc = JObj ds) \/
                  (forall ds, desc <> JObj ds) \/ (forall t, target <> JObj t)).
  { destruct desc; try (right; left; done).
    destruct target; try (right; right; done). left. eauto. }
  destruct Hcase as [(t & ds & -> & ->) | Hshape].
  - rewrite (merge_source_existing _ _ _ _ _ _ D Ht) by (by intros ->).
    apply sound_bind; [apply sound_merged_descriptor|]. intros; apply sound_Ok.
  - destruct (merge_source_not_mapping _ _ _ _ _ _ D Ht Etr Hshape) as [-> | ->];
      sound_cases.
Qed.

Lemma sound_merge_sources sources root imp :
  is_Some (Store.deref root sources) ->
  sound (Mpp.merge_sources sources root imp).
Proof.
  intros D. unfold Mpp.merge_sources.
  apply sound_bind; [apply sound_get|]. intros srcs _.
  apply sound_bind; [apply sound_items|]. intros items _.
  apply (sound_foldM _ (fun m => is_Some (Store.deref m sources))); [| |done].
  - intros m item Hm. by apply sound_merge_source.
  - intros m item m' Hm (v & ->)%merge_source_frame.
    rewrite deref_assign_eq; eauto.
Qed.

Lemma sound_get_pipeline mpp path imp : sound (Mpp.get_pipeline mpp path imp).
Proof.
  unfold Mpp.get_pipeline.
  apply sound_bind; [apply sound_get|]. intros pipelines _.
  apply sound_bind; [apply sound_getitem|]. intros pid _.
  apply sound_bind; [apply sound_iter|]. intros elements _.
  apply sound_bind.
  - induction elements as [|p ps IH]; simpl; [apply sound_Ok|].
    apply sound_bind; [apply sound_getitem|]. intros name _.
    destruct (Py.eq name pid); [apply sound_Ok | apply IH].
  - intros target _. unfold Mpp.not_found. sound_cases.
Qed.

Lemma sound_splice_v2 st root todo target :
  is_Some (Store.deref root todo) ->
  sound (Mpp.splice_v2 st root todo target).
Proof.
  intros D. unfold Mpp.splice_v2.
  apply sound_bind; [apply sound_modify; [done | intros; apply sound_update]|].
  intros root1 (t & t' & _ & _ & ->)%modify_Ok.
  apply sound_bind; [|intros; apply sound_Ok].
  apply sound_modify; [|intros; apply sound_delitem].
  rewrite deref_assign_eq by done. eauto.
Qed.

Lemma sound_open_import_v2 st i :
  is_Some (Store.deref (manifest st) (entry i)) ->
  sound (Mpp.open_import_v2 read_json st (entry i)).
Proof.
  intros D. unfold Mpp.open_import_v2.
  apply sound_bind; [apply sound_enter; simpl; eauto|].
  intros [root sources] (d & Hd & -> & ->)%enter_Ok.
  simpl in Hd. injection Hd as Hd.
  apply sound_bind.
  { apply sound_load. rewrite Hd in D. simpl in D |- *. by rewrite get_entered_ne. }
  intros todo_obj _. apply sound_bind; [apply sound_getitem|]. intros mpp _.
  apply sound_bind; [apply sound_getitem|]. intros path _.
  apply sound_bind; [apply sound_path_join|]. intros file _.
  apply sound_bind; [apply read_json_sound|]. intros; apply sound_Ok.
Qed.

Lemma sound_process_v2 st i :
  is_Some (Store.deref (manifest st) (entry i)) ->
  sound (Mpp._manifest_process_v2 read_json st (entry i)).
Proof.
  intros D. unfold Mpp._manifest_process_v2.
  apply sound_bind; [by apply sound_open_import_v2|].
  intros [[[[root sources] mpp] path] imp] Hopen.
  pose proof (open_import_v2_other _ _ _ _ _ _ _ _ "pipelines" [Idx i] Hopen) as Hfr.
  apply open_import_v2_Ok in Hopen as (d & o & file & Hst & -> & -> & _).
  apply sound_bind.
  { apply sound_merge_sources. simpl. rewrite get_entered. eauto. }
  intros root1 Hmerge.
  apply sound_bind; [apply sound_get_pipeline|]. intros target _.
  apply sound_splice_v2. unfold entry in *.
  rewrite (merge_sources_other _ _ _ _ _ _ Hmerge) by done. by rewrite Hfr.
Qed.

(** An import leaves every entry of [pipelines] in its place. *)
Lemma process_v2_entries st j st' i :
  Mpp._manifest_process_v2 read_json st (entry j) = Ok st' ->
  is_Some (Store.deref (manifest st) (entry i)) ->
  is_Some (Store.deref (manifest st') (entry i)).
Proof.
  intros H D. destruct (decide (j = i)) as [->|Hne].
  - unfold Mpp._manifest_process_v2 in H.
    bind_inv H. destruct a as [[[[root sources] mpp] path] imp].
    bind_inv H. bind_inv H. unfold Mpp.splice_v2 in H.
    bind_inv H. bind_inv H. injection H as <-.
    apply modify_Ok in E2 as (t & t' & Dt & _ & ->).
    apply modify_Ok in E3 as (t1 & t2 & _ & _ & ->).
    cbn [manifest]. rewrite assign_assign, deref_assign_eq; eauto.
  - by rewrite (process_v2_other_entry _ _ _ _ i H).
Qed.

Lemma parse_v2_todo st src st1 :
  Mpp._manifest_parse_v2 st src = Ok st1 ->
  manifest st1 = src /\ manifest_urls st1 = manifest_urls st /\
  forall r, r ∈ manifest_todo st1 ->
            exists i, r = entry i /\ is_Some (Store.deref src (entry i)).
Proof.
  unfold Mpp._manifest_parse_v2. intros H. bind_inv H. bind_inv H. bind_inv H.
  injection H as <-. split_and!; try done. cbn [manifest_todo].
  destruct src as [| | | | |d]; try done. simpl in E. injection E as <-.
  intros r Hr.
  destruct (Dict.get "pipelines" d) as [pv|] eqn:Ep.
  - destruct pv as [| | | |ps|d0]; try done; simpl in E0; injection E0 as <-.
    + destruct s as [|c s]; simpl in E1.
      * injection E1 as <-. by apply elem_of_nil in Hr.
      * by unfold Mpp.collect_v2 in E1.
    + apply collect_v2_todo in E1 as (new & -> & Hform & _).
      destruct (Hform r Hr) as (j & -> & Hj). exists j. split; [done|].
      simpl. rewrite Ep.
      destruct (lookup_lt_is_Some_2 ps j ltac:(lia)) as [c ->]. eauto.
    + destruct d0 as [|[k v] d0]; simpl in E1.
      * injection E1 as <-. by apply elem_of_nil in Hr.
      * by unfold Mpp.collect_v2 in E1.
  - simpl in E0. injection E0 as <-. simpl in E1. injection E1 as <-.
    by apply elem_of_nil in Hr.
Qed.

Lemma sound_parse_v2 st src : sound (Mpp._manifest_parse_v2 st src).
Proof.
  unfold Mpp._manifest_parse_v2.
  apply sound_bind; [apply sound_get|]. intros pipelines _.
  apply sound_bind; [apply sound_iter|]. intros elements _.
  apply sound_bind; [|intros; apply sound_Ok].
  apply (sound_foldM _ (fun _ => True)); try done.
  intros todo ip _. unfold Mpp.collect_v2.
  apply sound_bind; [apply sound_get|]. intros c _. sound_cases.
Qed.

Lemma sound_import_v2 st src : sound (Mpp._manifest_import_v2 read_json st src).
Proof.
  unfold Mpp._manifest_import_v2. apply sound_bind; [apply sound_parse_v2|].
  intros st1 (Hm & _ & Htodo)%parse_v2_todo.
  apply (sound_foldM_in _ (fun s => forall r, r ∈ manifest_todo st1 ->
                                   is_Some (Store.deref (manifest s) r))).
  - intros s r Hr Hs. destruct (Htodo r Hr) as (i & -> & _).
    apply sound_process_v2. by apply Hs.
  - intros s r s' Hr Hs Hp r' Hr'.
    destruct (Htodo r Hr) as (j & -> & _). destruct (Htodo r' Hr') as (i & -> & _).
    eapply process_v2_entries; [done|]. by apply Hs.
  - intros r Hr. destruct (Htodo r Hr) as (i & -> & Di). by rewrite Hm.
Qed.

Lemma import_v2_urls st src st' :
  Mpp._manifest_import_v2 read_json st src = Ok st' ->
  manifest_urls st' = manifest_urls st.
Proof.
  unfold Mpp._manifest_import_v2. intros H. bind_inv H.
  apply parse_v2_todo in E as (_ & <- & _).
  revert H. generalize (manifest_todo a). intros l. revert a.
  induction l as [|r l IH]; intros s H; simpl in H.
  - by injection H as <-.
  - bind_inv H. rewrite (IH _ H). clear IH H.
    unfold Mpp._manifest_process_v2 in E.
    bind_inv E. destruct a0 as [[[[root sources] mpp] path] imp].
    bind_inv E. bind_inv E. unfold Mpp.splice_v2 in E.
    bind_inv E. bind_inv E. by injection E as <-.
Qed.

(** A run ends by returning or with an exception of Python (or at a
    key that is not a string): no reference that it follows is dangling
    and its loop does not run out of its bound. *)
Theorem run_is_sound args_cwd stdin : sound (Mpp.main read_json args_cwd stdin).
Proof.
  unfold Mpp.main, Mpp._main_process.
  apply sound_bind; [apply sound_get|]. intros version _.
  destruct (Py.eq version (JStr "1")).
  - apply sound_bind; [apply sound_import_v1|]. intros st' Himport.
    destruct (import_v1_urls _ _ _ _ Himport) as (-> & obj & D & _).
    apply sound_bind; [apply sound_sort_urls; eauto|]. intros; apply sound_Ok.
  - destruct (Py.eq version (JStr "2")); [|apply sound_Ok].
    apply sound_bind; [apply sound_import_v2|]. intros st' Himport.
    rewrite (import_v2_urls _ _ _ Himport). simpl.
    apply sound_Ok.
Qed.
End Sound.

(** * Further properties of the script *)

(** ** [_manifest_enter] *)

Lemma entered_entered key default default' d :
  entered key default' (entered key default d) = entered key default d.
Proof. unfold entered at 1. by rewrite mem_entered. Qed.

Lemma keys_entered key default d :
  Dict.keys (entered key default d) =
  if Dict.mem key d then Dict.keys d else Dict.keys d ++ [key].
Proof.
  unfold entered. destruct (Dict.mem key d) eqn:E; [done|]. by rewrite keys_set, E.
Qed.

(** X1. [_manifest_enter] gets or creates and never overwrites. When it
    returns, the object was a mapping; the reference it gives names the
    value that was under the key, or the default when there was none; a
    key that is there leaves the manifest as it is; a key that is missing
    is stored last; what the other keys of the object lead to is as
    before; and entering the key again, with whatever default, changes
    nothing. *)
Theorem X1_enter_gets_or_creates root m key default root' r :
  Mpp._manifest_enter root m key default = Ok (root', r) ->
  exists d d',
    Store.deref root m = Some (JObj d) /\
    Store.deref root' m = Some (JObj d') /\
    r = m ++ [Key key] /\
    Store.deref root' r
    = Some (match Dict.get key d with Some v => v | None => default end) /\
    (is_Some (Dict.get key d) -> root' = root) /\
    (Dict.get key d = None -> Dict.keys d' = Dict.keys d ++ [key]) /\
    (forall k x, k <> key ->
       Store.deref root' (m ++ Key k :: x) = Store.deref root (m ++ Key k :: x)) /\
    (forall default', Mpp._manifest_enter root' m key default' = Ok (root', r)).
Proof.
  intros H. apply enter_Ok in H as (d & D & -> & ->).
  assert (D' : Store.deref (Store.assign root m (JObj (entered key default d))) m
               = Some (JObj (entered key default d)))
    by (apply deref_assign_eq; eauto).
  exists d, (entered key default d). split_and!; try done.
  - by apply enter_deref.
  - intros [v Hv]. unfold entered, Dict.mem. rewrite Hv.
    by apply assign_deref_id.
  - intros Hk. rewrite keys_entered. unfold Dict.mem. by rewrite Hk.
  - intros k x Hk. rewrite !deref_app, D', D. simpl.
    by rewrite get_entered_ne.
  - intros default'. rewrite (enter_dict _ _ _ _ _ D'), entered_entered.
    by rewrite (assign_deref_id _ _ _ D').
Qed.

(** X2. [_manifest_enter] fails exactly when the object is no mapping
    (a list, a string, a number, a boolean or [null]), and then always
    with a [TypeError]: of [in], of the subscript or of the item
    assignment. *)
Theorem X2_enter_needs_a_mapping root m key default o :
  Store.deref root m = Some o ->
  ((exists d, o = JObj d) <->
   exists root', Mpp._manifest_enter root m key default = Ok (root', m ++ [Key key])) /\
  ((forall d, o <> JObj d) <->
   Mpp._manifest_enter root m key default = Raise TypeError).
Proof.
  intros D. split; split.
  - intros [d ->]. rewrite (enter_dict _ _ _ _ _ D). eauto.
  - intros [root' H]. apply enter_Ok in H as (d & D' & _). rewrite D in D'.
    injection D' as ->. eauto.
  - intros Hd. by eapply enter_not_dict.
  - intros H d ->. by rewrite (enter_dict _ _ _ _ _ D) in H.
Qed.

(** ** [_sort_urls] and the sort keys *)

Lemma get_sort_key_outcome item :
  (exists k, Mpp.get_sort_key item = Ok k) \/
  Mpp.get_sort_key item = Raise (KeyError "url").
Proof.
  unfold Mpp.get_sort_key. destruct (snd item) as [| | | | |d]; simpl; eauto.
  destruct (Dict.get "url" d); eauto.
Qed.

Lemma sort_keys_without_url items k d :
  (k, JObj d) ∈ items -> Dict.get "url" d = None ->
  mapM (fun a => let* key := Mpp.get_sort_key a in Ok (key, a)) items
  = Raise (KeyError "url").
Proof.
  intros Hin Hd. induction items as [|item items IH]; [by apply elem_of_nil in Hin|].
  simpl. destruct (get_sort_key_outcome item) as [[key Hk] | Hk]; rewrite Hk; [|done].
  simpl. apply elem_of_cons in Hin as [<- | Hin].
  - unfold Mpp.get_sort_key in Hk. simpl in Hk. by rewrite Hd in Hk.
  - by rewrite (IH Hin).
Qed.

(** X3. An entry of [urls] that is a mapping without [url] ends
    [_sort_urls] with [KeyError: 'url'], wherever the entry stands and
    whatever the other entries are; a version-1 run whose import leaves
    such an entry ends with that exception and writes nothing. *)
Theorem X3_descriptor_without_url_is_fatal root items k d :
  Store.deref root urls_ref = Some (JObj items) ->
  (k, JObj d) ∈ items ->
  Dict.get "url" d = None ->
  Mpp._sort_urls root (Some urls_ref) = Raise (KeyError "url") /\
  forall read_json st src st',
    Py.get src "version" (JStr "1") = Ok (JStr "1") ->
    Mpp._manifest_import_v1 read_json st src = Ok st' ->
    manifest st' = root ->
    Mpp._main_process read_json st src = Raise (KeyError "url").
Proof.
  intros D Hin Hd.
  assert (Hsort : Mpp._sort_urls root (Some urls_ref) = Raise (KeyError "url")).
  { unfold Mpp._sort_urls, Store.load. rewrite D. cbn [bind].
    assert (Htr : Py.truthy (JObj items) = true).
    { destruct items; [by apply elem_of_nil in Hin | done]. }
    rewrite Htr. cbn [negb Py.items bind]. unfold Py.sorted.
    by rewrite (sort_keys_without_url _ _ _ Hin Hd). }
  split; [done|]. intros read_json st src st' Hv Himport Hm.
  unfold Mpp._main_process. rewrite Hv. cbn [bind]. rewrite Himport. cbn [bind].
  destruct (import_v1_urls _ _ _ _ Himport) as (-> & _).
  by rewrite Hm, Hsort.
Qed.

(** ** The version of the manifest *)

Lemma py_eq_str v s : Py.eq v (JStr s) = true <-> v = JStr s.
Proof.
  destruct v; simpl; try (split; discriminate).
  rewrite String.eqb_eq. split; congruence.
Qed.

Lemma py_eq_str_false v s : v <> JStr s -> Py.eq v (JStr s) = false.
Proof.
  intros H. destruct (Py.eq v (JStr s)) eqn:E; [|done].
  by apply py_eq_str in E.
Qed.

(** X4. A manifest whose [version] is neither the string ["1"] nor the
    string ["2"] (the number [2], say) is not processed: the run returns
    the status 1, writes nothing and opens no file; and this is the only
    way for a run to return the status 1 without output. *)
Theorem X4_unsupported_version_exits_1 read_json args_cwd d :
  (exists v, Dict.get "version" d = Some v /\ v <> JStr "1" /\ v <> JStr "2") <->
  Mpp.main read_json args_cwd (JObj d) = Ok (mkOutcome 1 None).
Proof.
  unfold Mpp.main, Mpp._main_process. cbn [Py.get bind]. split.
  - intros (v & -> & H1 & H2). by rewrite !py_eq_str_false.
  - intros H. destruct (Dict.get "version" d) as [v|] eqn:Ev.
    + exists v. split; [done|].
      destruct (Py.eq v (JStr "1")) eqn:E1.
      { bind_inv H. bind_inv H. done. }
      destruct (Py.eq v (JStr "2")) eqn:E2.
      { bind_inv H. bind_inv H. done. }
      split; intros ->; by rewrite ?String.eqb_refl in *.
    + simpl in H. bind_inv H. bind_inv H. done.
Qed.

(** ** Version 2: the final sort *)

(** A run over a version-2 manifest, from a state whose [manifest_urls]
    is [None]. *)
Lemma main_process_version_2 read_json st src :
  Py.get src "version" (JStr "1") = Ok (JStr "2") ->
  manifest_urls st = None ->
  Mpp._main_process read_json st src =
  let* st' := Mpp._manifest_import_v2 read_json st src in
  Ok (mkOutcome 0 (Some (manifest st'))).
Proof.
  intros Hv Hurls. unfold Mpp._main_process. rewrite Hv. cbn [bind].
  change (Py.eq (JStr "2") (JStr "1")) with false.
  change (Py.eq (JStr "2") (JStr "2")) with true. cbv iota.
  destruct (Mpp._manifest_import_v2 _ _ _) as [st'|e] eqn:Himport; [|done].
  cbn [bind]. by rewrite (import_v2_urls _ _ _ _ Himport), Hurls.
Qed.

Lemma main_version_2 read_json args_cwd src :
  Py.get src "version" (JStr "1") = Ok (JStr "2") ->
  Mpp.main read_json args_cwd src =
  let* st := Mpp._manifest_import_v2 read_json (Mpp._main_state args_cwd) src in
  Ok (mkOutcome 0 (Some (manifest st))).
Proof. intros Hv. by apply main_process_version_2. Qed.

(** X5. In version 2 the URLs are not sorted. No parser sets
    [state.manifest_urls]: it is [None] when [_main_state] returns and
    after every import, so [_sort_urls] returns at once, and the manifest
    that a run writes is the one its imports leave, with the entries of
    its sources in the order of their insertion. *)
Theorem X5_version_2_is_not_sorted read_json args_cwd src st' :
  Py.get src "version" (JStr "1") = Ok (JStr "2") ->
  Mpp._manifest_import_v2 read_json (Mpp._main_state args_cwd) src = Ok st' ->
  manifest_urls st' = None /\
  Mpp._sort_urls (manifest st') (manifest_urls st') = Ok (manifest st') /\
  Mpp.main read_json args_cwd src = Ok (mkOutcome 0 (Some (manifest st'))).
Proof.
  intros Hv Himport.
  pose proof (import_v2_urls _ _ _ _ Himport) as Hurls. simpl in Hurls.
  split_and!; [done | by rewrite Hurls |].
  unfold Mpp.main. rewrite main_process_version_2 by done. by rewrite Himport.
Qed.

(** ** Version 2: the entries that are taken up *)

Lemma collect_v2_none ps a acc :
  Forall (fun p => exists c, Py.get p Mpp.directive JNull = Ok c /\
                             Py.truthy c = false) ps ->
  foldM Mpp.collect_v2 (zip (seq a (length ps)) ps) acc = Ok acc.
Proof.
  intros H. revert a. induction H as [|p ps (c & Hc & Hf) _ IH]; intros a; [done|].
  simpl. unfold Mpp.collect_v2 at 1. simpl. rewrite Hc. simpl. rewrite Hf. apply IH.
Qed.

(** X6. A version-2 manifest none of whose [pipelines] entries holds a
    directive that is true is written as it was read, key for key: unlike
    version 1, nothing is entered by default, and no file is opened. *)
Theorem X6_version_2_without_import_is_unchanged read_json args_cwd src ps :
  Py.get src "version" (JStr "1") = Ok (JStr "2") ->
  Py.get src "pipelines" (JArr []) = Ok (JArr ps) ->
  Forall (fun p => exists c, Py.get p Mpp.directive JNull = Ok c /\
                             Py.truthy c = false) ps ->
  Mpp.main read_json args_cwd src = Ok (mkOutcome 0 (Some src)).
Proof.
  intros Hv Hps Hall. rewrite (main_version_2 _ _ _ Hv).
  unfold Mpp._manifest_import_v2, Mpp._manifest_parse_v2.
  rewrite Hps. cbn [bind Py.iter]. by rewrite (collect_v2_none _ _ _ Hall).
Qed.

Lemma collect_v2_not_mapping ps p a acc :
  p ∈ ps -> (forall e, p <> JObj e) ->
  foldM Mpp.collect_v2 (zip (seq a (length ps)) ps) acc = Raise AttributeError.
Proof.
  intros Hin Hp. revert a acc.
  induction ps as [|q ps IH]; intros a acc; [by apply elem_of_nil in Hin|].
  simpl. unfold Mpp.collect_v2 at 1. simpl.
  destruct q as [| | | | |e]; try done.
  apply elem_of_cons in Hin as [-> | Hin]; [by destruct (Hp e)|].
  simpl. destruct (Py.truthy _); simpl; by apply IH.
Qed.

(** X7. A version-2 manifest with an entry of [pipelines] that is no
    mapping is rejected with an [AttributeError] (of [pipeline.get])
    while the entries are collected: before any import is processed, so
    no file is opened and nothing is written. *)
Theorem X7_pipelines_entry_must_be_a_mapping read_json args_cwd src ps p :
  Py.get src "version" (JStr "1") = Ok (JStr "2") ->
  Py.get src "pipelines" (JArr []) = Ok (JArr ps) ->
  p ∈ ps ->
  (forall e, p <> JObj e) ->
  Mpp._manifest_parse_v2 (Mpp._main_state args_cwd) src = Raise AttributeError /\
  Mpp.main read_json args_cwd src = Raise AttributeError.
Proof.
  intros Hv Hps Hin Hp.
  assert (Hparse : Mpp._manifest_parse_v2 (Mpp._main_state args_cwd) src
                   = Raise AttributeError).
  { unfold Mpp._manifest_parse_v2. rewrite Hps. cbn [bind Py.iter].
    by rewrite (collect_v2_not_mapping _ _ _ _ Hin Hp). }
  split; [done|].
  rewrite (main_version_2 _ _ _ Hv).
  unfold Mpp._manifest_import_v2. by rewrite Hparse.
Qed.

(** ** Version 2: the pipeline that is imported *)

Lemma find_pipeline_first pid pre e post name :
  Forall (fun q => exists n, Py.getitem q "name" = Ok n /\ Py.eq n pid = false) pre ->
  Dict.get "name" e = Some name ->
  Py.eq name pid = true ->
  Mpp.find_pipeline pid (pre ++ JObj e :: post) = Ok (JObj e).
Proof.
  intros Hpre Hn He. induction Hpre as [|q pre (n & Hq & Hne) _ IH]; simpl.
  - by rewrite Hn; simpl; rewrite He.
  - by rewrite Hq; simpl; rewrite Hne.
Qed.

Lemma find_pipeline_split pid ps target :
  Mpp.find_pipeline pid ps = Ok target ->
  Py.truthy target = true ->
  exists pre e post name,
    ps = pre ++ target :: post /\ target = JObj e /\
    Forall (fun q => exists n, Py.getitem q "name" = Ok n /\ Py.eq n pid = false) pre /\
    Dict.get "name" e = Some name /\ Py.eq name pid = true.
Proof.
  induction ps as [|p ps IH]; simpl; intros H Htr.
  - by injection H as <-.
  - bind_inv H. destruct (Py.eq a pid) eqn:Eeq.
    + injection H as <-. destruct p as [| | | | |e]; try done. simpl in E.
      destruct (Dict.get "name" e) eqn:En; [|done]. injection E as ->.
      exists [], e, ps, a. by split_and!.
    + destruct (IH H Htr) as (pre & e & post & name & -> & -> & Hpre & Hn & He).
      exists (p :: pre), e, post, name. split_and!; try done.
      constructor; eauto.
Qed.

(** X8. The pipeline that a version-2 import takes from the imported
    manifest is the first entry of its [pipelines] whose [name] equals
    the [id] of the directive: the import finds a pipeline exactly when
    there is such an entry after entries that all have another name. The
    entries behind it are not looked at; they may have the same name, or
    none. *)
Theorem X8_first_pipeline_named_id_is_taken mpp path imp pid ps target :
  Py.getitem mpp "id" = Ok pid ->
  Py.get imp "pipelines" (JArr []) = Ok (JArr ps) ->
  Mpp.get_pipeline mpp path imp = Ok target <->
  exists pre e post name,
    ps = pre ++ target :: post /\ target = JObj e /\
    Forall (fun q => exists n, Py.getitem q "name" = Ok n /\ Py.eq n pid = false) pre /\
    Dict.get "name" e = Some name /\ Py.eq name pid = true.
Proof.
  intros Hid Hps. unfold Mpp.get_pipeline. rewrite Hps. cbn [bind]. rewrite Hid.
  cbn [bind Py.iter]. split.
  - intros H. bind_inv H. destruct (Py.truthy a) eqn:Etr; simpl in H; [|done].
    injection H as ->. by apply find_pipeline_split.
  - intros (pre & e & post & name & -> & -> & Hpre & Hn & He).
    rewrite (find_pipeline_first _ _ _ _ _ Hpre Hn He). cbn [bind].
    by destruct e.
Qed.

(** ** Version 1: what the parser gives *)

Lemma deref_prefix root r s : is_Some (Store.deref root (r ++ s)) -> is_Some (Store.deref root r).
Proof. rewrite deref_app. destruct (Store.deref root r); [eauto | by intros [? ?]]. Qed.

(** X9. [_manifest_parse_v1] always ends: the walk down the build chain
    stops, for every document. It returns, or raises a [TypeError] (of
    [_manifest_enter] or of [in]) or an [AttributeError] (of [get]). When
    it returns it has taken up no import or exactly one: the node of the
    build chain nearest to the root that holds the directive; directives
    below it are not looked for. *)
Theorem X9_parse_v1_takes_up_at_most_one_import st data :
  (exists st1,
     Mpp._manifest_parse_v1 st data = Ok st1 /\
     cwd st1 = cwd st /\ manifest_urls st1 = Some urls_ref /\
     (manifest_todo st1 = [] \/
      exists n,
        manifest_todo st1 = [hops n] /\
        holds_directive data n = Some (Ok true) /\
        forall k, k < n -> holds_directive data k = Some (Ok false))) \/
  Mpp._manifest_parse_v1 st data = Raise TypeError \/
  Mpp._manifest_parse_v1 st data = Raise AttributeError.
Proof.
  destruct (parse_v1_outcome st data) as [[st1 Hparse] | Herr]; [left | by right].
  exists st1. split; [done|].
  destruct (parse_v1_Ok _ _ _ Hparse) as (d & d' & -> & Hd & Hst1 & Hfind).
  rewrite Hst1. cbn [cwd manifest_urls manifest_todo]. split_and!; try done.
  apply find_import_found in Hfind as [Htodo | (n & o & Htodo & Do & Hc & Hk)];
    [by left | right].
  exists n. simpl in Htodo, Do, Hk. split_and!; try done.
  - rewrite <- (holds_directive_defaulted _ _ _ Hd). unfold holds_directive.
    by rewrite Do, Hc.
  - intros k Hlt. rewrite <- (holds_directive_defaulted _ _ _ Hd).
    unfold holds_directive.
    assert (Dk : is_Some (Store.deref (JObj d') (hops k))).
    { apply (deref_prefix _ _ (hops (n - k))). rewrite <- hops_app.
      replace (k + (n - k)) with n by lia. eauto. }
    destruct Dk as [ok Dk]. rewrite Dk. by rewrite (Hk k ok Hlt Dk).
Qed.

(** ** Version 1: the import that passes the checks *)

Lemma keys_singleton {V} (s : list (string * V)) k :
  Dict.keys s = [k] -> exists v, s = [(k, v)].
Proof.
  destruct s as [|[k' v] [|? ?]]; try done. simpl. intros [= ->]. eauto.
Qed.

(** X10. What the checks of a version-1 import let through, in full: the
    imported document is a mapping, and its [sources] are missing, or
    empty, or hold the one kind [org.osbuild.files] with a mapping as its
    descriptor. Any other top-level key is let through. The URLs taken
    are the [urls] of that descriptor and the pipeline is the [pipeline]
    of the document, each the empty mapping when it is missing. *)
Theorem X10_what_a_version_1_import_may_hold imp imp_urls imp_pipeline :
  Mpp.check_import_v1 imp = Ok (imp_urls, imp_pipeline) <->
  exists d,
    imp = JObj d /\
    imp_pipeline = match Dict.get "pipeline" d with Some v => v | None => JObj [] end /\
    (((Dict.get "sources" d = None \/ Dict.get "sources" d = Some (JObj [])) /\
      imp_urls = JObj []) \/
     exists f,
       Dict.get "sources" d = Some (JObj [(files_kind, JObj f)]) /\
       imp_urls = match Dict.get "urls" f with Some v => v | None => JObj [] end).
Proof.
  split.
  - intros H. destruct imp as [| | | | |d];
      try (rewrite check_import_v1_not_dict in H; done).
    exists d. split; [done|]. rewrite check_import_v1_dict in H.
    unfold entered_value at 1 in H.
    destruct (Dict.get "sources" d) as [sv|] eqn:Es.
    + destruct sv as [| | | | |s]; try done.
      destruct (entered_value files_kind (JObj []) s) as [| | | | |f] eqn:Ef; try done.
      case_bool_decide as Hk; [|done]. injection H as <- <-. split; [done|].
      rewrite keys_entered in Hk. unfold Dict.mem in Hk.
      unfold entered_value in Ef.
      destruct (Dict.get files_kind s) as [fv|] eqn:Eg.
      * right. apply keys_singleton in Hk as [v ->]. simpl in Eg.
        injection Eg as ->. subst fv. eauto.
      * left. destruct s as [|kv s].
        2: { apply (f_equal length) in Hk. unfold Dict.keys in Hk.
             rewrite length_app, length_map in Hk. simpl in Hk. lia. }
        injection Ef as <-.
        split; [by right | done].
    + simpl in H. injection H as <- <-. split; [done|]. left. by split; [left|].
  - intros (d & -> & -> & Hcase). rewrite check_import_v1_dict.
    destruct Hcase as [[Hs ->] | (f & Hs & ->)].
    + unfold entered_value at 1. by destruct Hs as [-> | ->].
    + unfold entered_value at 1. rewrite Hs. reflexivity.
Qed.

(** ** Version 1: the URLs after an import *)

Lemma get_perm {V} (d d' : list (string * V)) k :
  Permutation d d' -> Dict.wf d' -> Dict.get k d = Dict.get k d'.
Proof.
  intros Hp Hwf. assert (Hwfd : Dict.wf d) by (by eapply wf_perm).
  destruct (Dict.get k d') as [v|] eqn:E.
  - apply in_get_wf; [done|]. rewrite Hp. by apply get_Some_in.
  - apply get_None_notin. apply get_None_notin in E. unfold Dict.keys in *.
    by rewrite Hp.
Qed.

Section UrlsMergeV1.
Variable read_json : string -> result json.

Lemma process_v1_urls_value st todo st' n root imp iu ip u :
  Mpp._manifest_process_v1 read_json st todo = Ok st' ->
  manifest_urls st = Some urls_ref ->
  todo = hops n ->
  (exists o, Store.deref (manifest st) todo = Some o /\
             Py.contains Mpp.directive o = Ok true) ->
  Mpp.open_import_v1 read_json st todo = Ok (root, imp) ->
  Mpp.check_import_v1 imp = Ok (iu, ip) ->
  Store.deref (manifest st) urls_ref = Some u ->
  exists u', Py.update u iu = Ok u' /\
             Store.deref (manifest st') urls_ref = Some u'.
Proof.
  unfold Mpp._manifest_process_v1. intros H Hurls -> (o & Do & Hc) Hopen Hcheck Du.
  rewrite Hopen in H. cbn [bind] in H. rewrite Hcheck in H. cbn [bind] in H.
  destruct (open_import_v1_Ok _ _ _ _ _ Hopen) as (e & D & Hroot).
  rewrite Do in D. injection D as ->.
  assert (Hmem : Dict.mem Mpp.directive e = true) by (simpl in Hc; congruence).
  unfold entered in Hroot. rewrite Hmem in Hroot.
  rewrite (assign_deref_id _ _ _ Do) in Hroot. subst root.
  apply splice_v1_Ok in H as (r & u0 & u' & e1 & Hr & Du0 & Hu & D1 & ->).
  rewrite Hurls in Hr. injection Hr as <-.
  rewrite Du in Du0. injection Du0 as <-.
  exists u'. split; [done|]. cbn [manifest].
  assert (Du' : Store.deref (Store.assign (manifest st) urls_ref u') urls_ref = Some u')
    by (apply deref_assign_eq; eauto).
  remember (Store.assign (manifest st) urls_ref u') as root1 eqn:Hroot1.
  destruct n as [|n].
  - simpl in D1. injection D1 as ->.
    simpl in *. rewrite get_del_ne by done. by rewrite get_set_ne by done.
  - rewrite <- Du'. apply (deref_assign_other _ (Key "pipeline") (Key "sources")).
    congruence.
Qed.

(** X11. In a version-1 run that resolves an import, the [urls] of the
    manifest written hold, for every checksum, the URL the imported
    manifest gives it, and otherwise the one the importing manifest had:
    the imported entry wins, and no entry of either side is lost in the
    merge or in the sort. (The two [urls] are dictionaries: no key
    twice.) *)
Theorem X11_imported_urls_win st0 src st1 todo root imp iu ip u out :
  Py.get src "version" (JStr "1") = Ok (JStr "1") ->
  Mpp._manifest_parse_v1 st0 src = Ok st1 ->
  manifest_todo st1 = [todo] ->
  Mpp.open_import_v1 read_json st1 todo = Ok (root, imp) ->
  Mpp.check_import_v1 imp = Ok (JObj iu, ip) ->
  urls_of src = JObj u ->
  Dict.wf u -> Dict.wf iu ->
  Mpp._main_process read_json st0 src = Ok (mkOutcome 0 (Some out)) ->
  exists final,
    Store.deref out urls_ref = Some (JObj final) /\
    forall k, Dict.get k final =
              match Dict.get k iu with Some v => Some v | None => Dict.get k u end.
Proof.
  intros Hv Hparse Htodo Hopen Hcheck Hu Wu Wi Hmain.
  unfold Mpp._main_process in Hmain. rewrite Hv in Hmain. cbn [bind] in Hmain.
  change (Py.eq (JStr "1") (JStr "1")) with true in Hmain. cbv iota in Hmain.
  bind_inv Hmain. bind_inv Hmain. injection Hmain as ->.
  rename a into st', E into Himport, E0 into Hsort.
  destruct (import_v1_urls _ _ _ _ Himport) as (Hurls' & _).
  rewrite Hurls' in Hsort.
  unfold Mpp._manifest_import_v1 in Himport. rewrite Hparse in Himport.
  cbn [bind] in Himport. rewrite Htodo in Himport. simpl in Himport.
  bind_inv Himport. injection Himport as ->. rename E into Hprocess.
  destruct (parse_v1_Ok _ _ _ Hparse) as (d & d' & -> & Hd & Hst1 & Hfind).
  rewrite Htodo in Hfind.
  apply find_import_found in Hfind as [[=] | (n & o & [= ->] & Do & Hc & _)].
  assert (Hm : manifest st1 = JObj d') by (by rewrite Hst1).
  assert (Hurls : manifest_urls st1 = Some urls_ref) by (by rewrite Hst1).
  assert (Du : Store.deref (manifest st1) urls_ref = Some (JObj u)).
  { rewrite Hm, (defaulted_urls_value _ _ Hd). by rewrite <- Hu. }
  assert (Hnode : exists o, Store.deref (manifest st1) (hops n) = Some o /\
                            Py.contains Mpp.directive o = Ok true)
    by (rewrite Hm; eauto).
  destruct (process_v1_urls_value _ _ _ n _ _ _ _ _ Hprocess Hurls eq_refl Hnode
              Hopen Hcheck Du) as (u' & Hu' & Du').
  simpl in Hu'. injection Hu' as <-.
  assert (Wm : Dict.wf (Dict.update u iu)) by (by apply wf_update).
  apply sort_urls_Ok in Hsort as (obj & Dobj & Hcase).
  rewrite Du' in Dobj. injection Dobj as <-.
  destruct Hcase as [[_ ->] | (items & s & [= <-] & _ & Hs & ->)].
  - exists (Dict.update u iu). split; [done|]. intros k. by apply get_update.
  - pose proof (sorted_perm _ _ _ Hs) as Hperm.
    assert (Hwfs : Dict.wf s) by (by eapply wf_perm).
    rewrite (update_empty s Hwfs), (update_empty s Hwfs).
    exists s. split; [apply deref_assign_eq; eauto|].
    intros k. rewrite (get_perm _ _ k Hperm Wm). by apply get_update.
Qed.
End UrlsMergeV1.

(** ** Version 1: the files that are opened *)

(** X12. A version-1 run opens at most one file, whatever the imported
    manifest holds: its outcome is the same on any two file systems that
    agree on one path. The directives of the imported pipeline are
    not followed. *)
Theorem X12_version_1_opens_at_most_one_file args_cwd src :
  Py.get src "version" (JStr "1") = Ok (JStr "1") ->
  exists file,
    forall read_json1 read_json2,
      read_json1 file = read_json2 file ->
      Mpp.main read_json1 args_cwd src = Mpp.main read_json2 args_cwd src.
Proof.
  intros Hv. unfold Mpp.main, Mpp._main_process. rewrite Hv. cbn [bind].
  change (Py.eq (JStr "1") (JStr "1")) with true. cbv iota.
  set (st0 := Mpp._main_state args_cwd).
  assert (Himport : exists file, forall read_json1 read_json2,
            read_json1 file = read_json2 file ->
            Mpp._manifest_import_v1 read_json1 st0 src
            = Mpp._manifest_import_v1 read_json2 st0 src).
  { unfold Mpp._manifest_import_v1.
    destruct (Mpp._manifest_parse_v1 st0 src) as [st1|e] eqn:Hparse;
      [|by exists EmptyString].
    cbn [bind].
    destruct (parse_v1_Ok _ _ _ Hparse) as (d & d' & -> & Hd & Hst1 & Hfind).
    apply find_import_found in Hfind as [-> | (n & o & -> & Do & _)];
      [by exists EmptyString|].
    simpl app. cbn [foldM].
    assert (Hm : manifest st1 = JObj d') by (by rewrite Hst1).
    rewrite <- Hm in Do. simpl in Do. unfold Mpp._manifest_process_v1.
    destruct o as [| | | | |e].
    1-5: exists EmptyString; intros rj1 rj2 _; unfold Mpp.open_import_v1;
         by rewrite (enter_not_dict _ _ _ _ _ Do).
    destruct (Py.getitem (entered_value Mpp.directive (JObj []) e) "path")
      as [p|err] eqn:Hp.
    2: { exists EmptyString. intros rj1 rj2 _.
         by rewrite !(open_import_v1_dict _ _ _ _ Do), Hp. }
    destruct (Py.path_join (cwd st1) p) as [file|err] eqn:Hj.
    2: { exists EmptyString. intros rj1 rj2 _.
         by rewrite !(open_import_v1_dict _ _ _ _ Do), Hp; cbn [bind]; rewrite Hj. }
    exists file. intros rj1 rj2 Heq.
    rewrite !(open_import_v1_dict _ _ _ _ Do), Hp. cbn [bind]. rewrite Hj. cbn [bind].
    by rewrite Heq. }
  destruct Himport as [file Himport]. exists file. intros rj1 rj2 Heq.
  by rewrite (Himport rj1 rj2 Heq).
Qed.

(** ** Version 2: the merge of the sources, as a loop *)

(** One turn of the loop stores under the kind it merges, and there
    only. *)
Lemma merge_source_set sources manifest srcs source desc manifest' :
  Store.deref manifest sources = Some (JObj srcs) ->
  Mpp.merge_source sources manifest (source, desc) = Ok manifest' ->
  exists v, manifest' = Store.assign manifest sources (JObj (Dict.set source v srcs)).
Proof.
  intros D H. destruct (Py.truthy (entry_of source srcs)) eqn:Etr.
  - unfold entry_of in Etr.
    destruct (Dict.get source srcs) as [target|] eqn:Ht; [|done].
    destruct (merge_source_Ok_shapes _ _ _ _ _ _ _ D Ht Etr H)
      as (t & ds & -> & Hne & ->).
    rewrite (merge_source_existing _ _ _ _ _ _ D Ht Hne) in H.
    bind_inv H. injection H as <-. exists (JObj a).
    apply assign_key; eauto.
  - rewrite (merge_source_new _ _ _ _ _ D Etr) in H. injection H as <-. eauto.
Qed.

(** What a turn of the loop makes of a kind depends on the descriptor the
    manifest has for that kind, and on nothing else in the manifest. *)
Lemma merge_source_local sources m1 m2 s1 s2 source desc r1 :
  Store.deref m1 sources = Some (JObj s1) ->
  Store.deref m2 sources = Some (JObj s2) ->
  Dict.get source s1 = Dict.get source s2 ->
  Mpp.merge_source sources m1 (source, desc) = Ok r1 ->
  exists r2,
    Mpp.merge_source sources m2 (source, desc) = Ok r2 /\
    Store.deref r1 (sources ++ [Key source]) = Store.deref r2 (sources ++ [Key source]).
Proof.
  intros D1 D2 Hg H.
  assert (He : entry_of source s1 = entry_of source s2)
    by (unfold entry_of; by rewrite Hg).
  destruct (Py.truthy (entry_of source s1)) eqn:Etr.
  - unfold entry_of in Etr.
    destruct (Dict.get source s1) as [target|] eqn:Ht; [|done].
    destruct (merge_source_Ok_shapes _ _ _ _ _ _ _ D1 Ht Etr H)
      as (t & ds & -> & Hne & ->).
    rewrite (merge_source_existing _ _ _ _ _ _ D1 Ht Hne) in H.
    symmetry in Hg.
    rewrite (merge_source_existing _ _ _ _ _ _ D2 Hg Hne).
    bind_inv H. injection H as <-. rewrite E. cbn [bind]. eexists. split; [done|].
    rewrite !deref_assign_eq; [done| |].
    + rewrite deref_app, D2. simpl. rewrite Hg. eauto.
    + rewrite deref_app, D1. simpl. rewrite Ht. eauto.
  - rewrite (merge_source_new _ _ _ _ _ D1 Etr) in H. injection H as <-.
    rewrite He in Etr. rewrite (merge_source_new _ _ _ _ _ D2 Etr).
    eexists. split; [done|].
    rewrite !deref_app, !deref_assign_eq by eauto. simpl. by rewrite !get_set_eq.
Qed.

Lemma prefix_keys_set {V} k (v : V) d :
  exists new, Dict.keys (Dict.set k v d) = Dict.keys d ++ new.
Proof.
  rewrite keys_set. destruct (Dict.mem k d); [exists [] | exists [k]]; [|done].
  by rewrite app_nil_r.
Qed.

Lemma merge_loop sources items manifest manifest' srcs :
  Store.deref manifest sources = Some (JObj srcs) ->
  foldM (Mpp.merge_source sources) items manifest = Ok manifest' ->
  exists srcs',
    manifest' = Store.assign manifest sources (JObj srcs') /\
    (forall k, k ∉ Dict.keys items -> Dict.get k srcs' = Dict.get k srcs) /\
    (exists new, Dict.keys srcs' = Dict.keys srcs ++ new).
Proof.
  revert manifest srcs. induction items as [|[source desc] items IH];
    intros manifest srcs D H; simpl in H.
  - injection H as <-. exists srcs. split_and!; [|done|exists []; by rewrite app_nil_r].
    by rewrite (assign_deref_id _ _ _ D).
  - bind_inv H. destruct (merge_source_set _ _ _ _ _ _ D E) as (v & ->).
    assert (D1 : Store.deref (Store.assign manifest sources
                                (JObj (Dict.set source v srcs))) sources
                 = Some (JObj (Dict.set source v srcs)))
      by (apply deref_assign_eq; eauto).
    destruct (IH _ _ D1 H) as (srcs' & -> & Hk & (new & Hnew)).
    exists srcs'. rewrite assign_assign. split_and!; [done| |].
    + intros k Hin. simpl in Hin. apply not_elem_of_cons in Hin as [Hne Hin].
      rewrite (Hk k Hin). by apply get_set_ne.
    + destruct (prefix_keys_set source v srcs) as (new0 & Hnew0).
      exists (new0 ++ new). by rewrite Hnew, Hnew0, app_assoc.
Qed.

(** X13. The merge of the sources of a version-2 import touches the kinds
    of the imported manifest and nothing else: a kind that the imported
    manifest does not have keeps its descriptor, the kinds that were there
    keep their places and new kinds come after them, and what is outside
    [sources] is as before. *)
Theorem X13_merge_keeps_the_other_kinds manifest imp manifest' srcs incoming :
  Mpp.merge_sources [Key "sources"] manifest imp = Ok manifest' ->
  Store.deref manifest [Key "sources"] = Some (JObj srcs) ->
  Py.get imp "sources" (JObj []) = Ok (JObj incoming) ->
  exists srcs',
    Store.deref manifest' [Key "sources"] = Some (JObj srcs') /\
    (forall k, Dict.get k incoming = None -> Dict.get k srcs' = Dict.get k srcs) /\
    (exists new, Dict.keys srcs' = Dict.keys srcs ++ new) /\
    (forall k r, k <> "sources"%string ->
       Store.deref manifest' (Key k :: r) = Store.deref manifest (Key k :: r)).
Proof.
  intros H D Hin. pose proof H as Hfr.
  unfold Mpp.merge_sources in H. rewrite Hin in H. cbn [bind Py.items] in H.
  destruct (merge_loop _ _ _ _ _ D H) as (srcs' & -> & Hk & Hnew).
  exists srcs'. split_and!; try done.
  - apply deref_assign_eq. eauto.
  - intros k Hg. apply Hk. by apply get_None_notin.
  - intros k r Hne. by apply (merge_sources_other _ _ _ _ _ _ Hfr).
Qed.

Lemma merge_loop_one_by_one sources items :
  Dict.wf items ->
  forall manifest manifest' srcs source desc,
    Store.deref manifest sources = Some (JObj srcs) ->
    foldM (Mpp.merge_source sources) items manifest = Ok manifest' ->
    (source, desc) ∈ items ->
    exists alone,
      Mpp.merge_source sources manifest (source, desc) = Ok alone /\
      Store.deref manifest' (sources ++ [Key source])
      = Store.deref alone (sources ++ [Key source]).
Proof.
  unfold Dict.wf. induction items as [|[source0 desc0] items IH];
    intros Hwf manifest manifest' srcs source desc D H Hin;
    [by apply elem_of_nil in Hin|].
  simpl in Hwf. apply NoDup_cons in Hwf as [Hnotin Hwf].
  simpl in H. bind_inv H. rename a into m1, E into Hfirst.
  destruct (merge_source_set _ _ _ _ _ _ D Hfirst) as (v & ->).
  set (s1 := Dict.set source0 v srcs) in *.
  assert (D1 : Store.deref (Store.assign manifest sources (JObj s1)) sources
               = Some (JObj s1)) by (apply deref_assign_eq; eauto).
  destruct (merge_loop _ _ _ _ _ D1 H) as (srcs' & Hm' & Hk & _).
  apply elem_of_cons in Hin as [[= -> ->] | Hin].
  - eexists. split; [done|]. rewrite Hm', assign_assign.
    rewrite !deref_app, !deref_assign_eq by eauto. simpl. by rewrite (Hk _ Hnotin).
  - destruct (IH Hwf _ _ _ _ _ D1 H Hin) as (alone1 & Halone1 & Heq).
    assert (Hne : source0 <> source).
    { intros ->. apply Hnotin. apply list_elem_of_fmap. by exists (source, desc). }
    destruct (merge_source_local _ _ manifest _ srcs _ _ _ D1 D
                ltac:(by apply get_set_ne) Halone1) as (alone & Halone & Heq').
    exists alone. split; [done|]. by rewrite Heq.
Qed.

(** X14. The kinds of the imported manifest are merged each on its own:
    after the whole loop, the descriptor of a kind is what the merge of
    that kind alone makes of the manifest as it was before the loop (the
    descriptors of the imported manifest being a dictionary: no kind
    twice). *)
Theorem X14_kinds_are_merged_one_by_one manifest imp manifest' incoming source desc :
  Mpp.merge_sources [Key "sources"] manifest imp = Ok manifest' ->
  Py.get imp "sources" (JObj []) = Ok (JObj incoming) ->
  Dict.wf incoming ->
  Dict.get source incoming = Some desc ->
  exists alone,
    Mpp.merge_source [Key "sources"] manifest (source, desc) = Ok alone /\
    Store.deref manifest' [Key "sources"; Key source]
    = Store.deref alone [Key "sources"; Key source].
Proof.
  intros H Hin Hwf Hg.
  unfold Mpp.merge_sources in H. rewrite Hin in H. cbn [bind Py.items] in H.
  apply get_Some_in in Hg.
  assert (D : exists srcs, Store.deref manifest [Key "sources"] = Some (JObj srcs)).
  { destruct incoming as [|[s0 d0] rest]; [by apply elem_of_nil in Hg|].
    simpl in H. bind_inv H. unfold Mpp.merge_source, Store.load in E.
    destruct (Store.deref manifest [Key "sources"]) as [[| | | | |srcs]|]; try done.
    eauto. }
  destruct D as [srcs D].
  apply (merge_loop_one_by_one [Key "sources"] incoming Hwf _ _ _ _ _ D H Hg).
Qed.

(** ** Version 2: the manifest after the imports *)

Lemma collect_v2_mappings ps a acc todo :
  foldM Mpp.collect_v2 (zip (seq a (length ps)) ps) acc = Ok todo ->
  Forall (fun p => exists e, p = JObj e) ps.
Proof.
  revert a acc. induction ps as [|p ps IH]; intros a acc H; [constructor|].
  simpl in H. bind_inv H. constructor; [|by eapply IH].
  unfold Mpp.collect_v2 in E. simpl in E. bind_inv E.
  destruct p; try done. eauto.
Qed.

(** An entry is taken up only for a directive that is true. *)
Lemma collect_v2_only ps a acc todo j :
  foldM Mpp.collect_v2 (zip (seq a (length ps)) ps) acc = Ok todo ->
  entry j ∈ todo ->
  entry j ∈ acc \/
  exists p c, a <= j /\ ps !! (j - a) = Some p /\
              Py.get p Mpp.directive JNull = Ok c /\ Py.truthy c = true.
Proof.
  revert a acc. induction ps as [|p ps IH]; intros a acc H Hin; simpl in H.
  - injection H as <-. by left.
  - bind_inv H. unfold Mpp.collect_v2 in E. simpl in E. bind_inv E.
    destruct (IH _ _ H Hin) as [Hacc | (q & c & Hle & Hq & Hc & Ht)].
    + destruct (Py.truthy a1) eqn:Etr; injection E as <-; [|by left].
      apply elem_of_app in Hacc as [Hacc | Hacc]; [by left|].
      apply list_elem_of_singleton in Hacc. injection Hacc as ->. right.
      exists p, a1. rewrite Nat.sub_diag. by split_and!.
    + right. exists q, c. split_and!; try done; [lia|].
      replace (j - a) with (S (j - S a)) by lia. done.
Qed.

Section AfterV2.
Variable read_json : string -> result json.

(** An import leaves its entry without the directive. *)
Lemma process_v2_resolved st j st' :
  Mpp._manifest_process_v2 read_json st (entry j) = Ok st' ->
  exists e', Store.deref (manifest st') (entry j) = Some (JObj e') /\
             Dict.get Mpp.directive e' = None.
Proof.
  unfold Mpp._manifest_process_v2. intros H.
  bind_inv H. destruct a as [[[[root sources] mpp] path] imp].
  bind_inv H. bind_inv H. rename E into Hopen, E0 into Hmerge, E1 into Hget.
  destruct (open_import_v2_Ok _ _ _ _ _ _ _ _ Hopen)
    as (d & todo_obj & file & Hst & Hroot & -> & Hd & Hmpp & _).
  destruct todo_obj as [| | | | |e]; try done.
  assert (Hmem : Dict.mem Mpp.directive e = true).
  { unfold Dict.mem. simpl in Hmpp. by destruct (Dict.get Mpp.directive e). }
  assert (D1 : Store.deref a (entry j) = Some (JObj e)).
  { unfold entry. by rewrite (merge_sources_other _ _ _ _ _ _ Hmerge). }
  destruct (get_pipeline_Ok _ _ _ _ Hget) as (pid & t & name & _ & -> & _).
  rewrite (splice_v2_dict _ _ _ _ _ D1 Hmem) in H.
  assert (Hm : manifest st' = Store.assign a (entry j)
                 (JObj (Dict.del Mpp.directive (Dict.update e t))))
    by (by injection H as <-).
  rewrite Hm. eexists. split; [apply deref_assign_eq; eauto|].
  apply get_del_eq.
Qed.

(** An import stores under [sources] and under [pipelines] only. *)
Lemma process_v2_toplevel st j st' k r :
  Mpp._manifest_process_v2 read_json st (entry j) = Ok st' ->
  k <> "sources"%string -> k <> "pipelines"%string ->
  Store.deref (manifest st') (Key k :: r) = Store.deref (manifest st) (Key k :: r).
Proof.
  unfold Mpp._manifest_process_v2. intros H Hs Hp.
  bind_inv H. destruct a as [[[[root sources] mpp] path] imp].
  bind_inv H. bind_inv H.
  pose proof (open_import_v2_other _ _ _ _ _ _ _ _ k r E Hs) as Hfr.
  apply open_import_v2_Ok in E as (d & ? & ? & _ & _ & -> & _).
  rewrite (splice_v2_frame _ _ _ _ _ (Key k :: r) H).
  - by rewrite (merge_sources_other _ _ _ _ _ _ E0).
  - intros v. apply deref_assign_other. congruence.
Qed.

Lemma imports_v2_toplevel processed st st' k r :
  foldM (Mpp._manifest_process_v2 read_json) processed st = Ok st' ->
  (forall x, x ∈ processed -> exists j, x = entry j) ->
  k <> "sources"%string -> k <> "pipelines"%string ->
  Store.deref (manifest st') (Key k :: r) = Store.deref (manifest st) (Key k :: r).
Proof.
  revert st. induction processed as [|x xs IH]; intros st H Hall Hs Hp; simpl in H.
  - by injection H as <-.
  - bind_inv H. destruct (Hall x) as (j & ->); [left|].
    rewrite (IH _ H) by (try done; intros; apply Hall; by right).
    by eapply process_v2_toplevel.
Qed.

Lemma imports_v2_resolved processed st st' i :
  foldM (Mpp._manifest_process_v2 read_json) processed st = Ok st' ->
  (forall x, x ∈ processed -> exists j, x = entry j) ->
  entry i ∈ processed ->
  exists e', Store.deref (manifest st') (entry i) = Some (JObj e') /\
             Dict.get Mpp.directive e' = None.
Proof.
  revert st. induction processed as [|x xs IH]; intros st H Hall Hin; simpl in H;
    [by apply elem_of_nil in Hin|].
  bind_inv H.
  assert (Hxs : forall y, y ∈ xs -> exists j, y = entry j)
    by (intros; apply Hall; by right).
  destruct (decide (entry i ∈ xs)) as [Hi | Hi]; [by apply (IH _ H)|].
  apply elem_of_cons in Hin as [<- | Hin]; [|done].
  rewrite (imports_v2_other_entry _ _ _ _ i H).
  - by eapply process_v2_resolved.
  - intros y Hy. destruct (Hxs y Hy) as (j & ->). exists j. split; [done|].
    by intros ->.
Qed.
End AfterV2.

(** What a version-2 run that writes a manifest has gone through. *)
Lemma run_v2_Ok read_json args_cwd src out :
  Py.get src "version" (JStr "1") = Ok (JStr "2") ->
  Mpp.main read_json args_cwd src = Ok (mkOutcome 0 (Some out)) ->
  exists elements todo st',
    (let* pipelines := Py.get src "pipelines" (JArr []) in Py.iter pipelines)
    = Ok elements /\
    foldM Mpp.collect_v2 (zip (seq 0 (length elements)) elements) [] = Ok todo /\
    foldM (Mpp._manifest_process_v2 read_json) todo
      (mkState (cwd (Mpp._main_state args_cwd)) src None todo) = Ok st' /\
    out = manifest st' /\
    (forall x, x ∈ todo -> exists j, x = entry j) /\
    Forall (fun p => exists e, p = JObj e) elements /\
    (forall i p c, elements !! i = Some p -> Py.get p Mpp.directive JNull = Ok c ->
                   Py.truthy c = true -> entry i ∈ todo).
Proof.
  intros Hv Hmain. rewrite (main_version_2 _ _ _ Hv) in Hmain.
  bind_inv Hmain. injection Hmain as <-.
  unfold Mpp._manifest_import_v2, Mpp._manifest_parse_v2 in E.
  bind_inv E. bind_inv E0. bind_inv E0. bind_inv E0. injection E0 as <-.
  cbn [manifest_todo] in E. rename a1 into pipelines, a2 into elements, a3 into todo.
  exists elements, todo, a. rewrite E1. cbn [bind]. split_and!; try done.
  - destruct (collect_v2_todo _ _ _ _ E3) as (new & Hnew & Hform & _).
    simpl in Hnew. subst new. intros x Hx. destruct (Hform x Hx) as (j & -> & _).
    eauto.
  - by eapply collect_v2_mappings.
  - destruct (collect_v2_todo _ _ _ _ E3) as (new & Hnew & _ & Hall).
    simpl in Hnew. subst new. intros i p c Hi Hc Ht. by apply (Hall i p c).
Qed.

(** The entries of [pipelines], seen from the references to them. *)
Lemma deref_entry root i q :
  Store.deref root (entry i) = Some q ->
  exists d ps, root = JObj d /\ Dict.get "pipelines" d = Some (JArr ps) /\
               ps !! i = Some q.
Proof.
  unfold entry. simpl. destruct root as [| | | | |d]; try done.
  destruct (Dict.get "pipelines" d) as [[| | | |ps|]|] eqn:Ep; try done.
  destruct (ps !! i) eqn:E; [|done]. intros [= ->]. exists d, ps. by split_and!.
Qed.

(** X15. A version-2 run that writes a manifest changes [sources] and
    the entries of [pipelines] whose directive it has taken up, and
    nothing else: what the other top-level keys lead to, and every entry
    without a directive that is true, is written as it was read. *)
Theorem X15_version_2_run_keeps_the_rest read_json args_cwd src out :
  Py.get src "version" (JStr "1") = Ok (JStr "2") ->
  Mpp.main read_json args_cwd src = Ok (mkOutcome 0 (Some out)) ->
  (forall k r, k <> "sources"%string -> k <> "pipelines"%string ->
     Store.deref out (Key k :: r) = Store.deref src (Key k :: r)) /\
  (forall i p c,
     Store.deref src (entry i) = Some p ->
     Py.get p Mpp.directive JNull = Ok c -> Py.truthy c = false ->
     Store.deref out (entry i) = Some p).
Proof.
  intros Hv Hmain.
  destruct (run_v2_Ok _ _ _ _ Hv Hmain)
    as (elements & todo & st' & Hel & Hcollect & Hfold & -> & Hform & _ & _).
  split.
  - intros k r Hs Hp.
    by rewrite (imports_v2_toplevel _ _ _ _ k r Hfold Hform Hs Hp).
  - intros i p c D Hc Hf.
    rewrite (imports_v2_other_entry _ _ _ _ i Hfold); [done|].
    intros x Hx. destruct (Hform x Hx) as (j & ->). exists j. split; [done|].
    intros ->.
    destruct (deref_entry _ _ _ D) as (d & ps & -> & Hps & Hi).
    simpl in Hel. rewrite Hps in Hel. simpl in Hel. injection Hel as <-.
    destruct (collect_v2_only _ _ _ _ _ Hcollect Hx)
      as [Hnil | (q & c' & _ & Hq & Hc' & Ht)]; [by apply elem_of_nil in Hnil|].
    rewrite Nat.sub_0_r in Hq. congruence.
Qed.

Lemma parse_v2_none st out elements :
  (let* pipelines := Py.get out "pipelines" (JArr []) in Py.iter pipelines)
  = Ok elements ->
  Forall (fun p => exists c, Py.get p Mpp.directive JNull = Ok c /\
                             Py.truthy c = false) elements ->
  Mpp._manifest_parse_v2 st out = Ok (mkState (cwd st) out (manifest_urls st) []).
Proof.
  intros Hel Hall. unfold Mpp._manifest_parse_v2.
  destruct (Py.get out "pipelines" (JArr [])) as [pipelines|]; [|done].
  cbn [bind] in Hel |- *. rewrite Hel. cbn [bind].
  by rewrite (collect_v2_none _ _ _ Hall).
Qed.

(** ** Version 2: the keys that the updates store *)

Lemma keys_bind {A B} (m : result A) (f : A -> result B) :
  keys_are_str m -> (forall a, m = Ok a -> keys_are_str (f a)) ->
  keys_are_str (bind m f).
Proof.
  destruct m as [a|e]; simpl; intros Hm Hf; [by apply Hf|].
  intros [= ->]. by apply Hm.
Qed.

(** Takes [keys_are_str m] for [m] a match on values to its cases. *)
Ltac keys_cases :=
  repeat match goal with
    | |- keys_are_str (Ok _) => intros [=]
    | |- keys_are_str (Raise _) => intros [=]
    | |- keys_are_str (match ?x with _ => _ end) => destruct x
    | |- keys_are_str (if ?x then _ else _) => destruct x
    end.

Lemma keys_foldM_in {A S} (f : S -> A -> result S) l s :
  (forall s a, a ∈ l -> keys_are_str (f s a)) -> keys_are_str (foldM f l s).
Proof.
  revert s. induction l as [|a l IH]; intros s Hf; simpl; [keys_cases|].
  apply keys_bind; [apply Hf; left|]. intros s' _. apply IH.
  intros s0 b Hb. apply Hf. by right.
Qed.

Lemma keys_iter c : keys_are_str (Py.iter c).
Proof. unfold Py.iter. keys_cases. Qed.

Lemma keys_getitem c k : keys_are_str (Py.getitem c k).
Proof. unfold Py.getitem. keys_cases. Qed.

Lemma keys_setitem c k v : keys_are_str (Py.setitem c k v).
Proof. unfold Py.setitem. keys_cases. Qed.

Lemma keys_delitem c k : keys_are_str (Py.delitem c k).
Proof. unfold Py.delitem. keys_cases. Qed.

Lemma keys_contains k c : keys_are_str (Py.contains k c).
Proof. unfold Py.contains. keys_cases. Qed.

Lemma keys_get c k v : keys_are_str (Py.get c k v).
Proof. unfold Py.get. keys_cases. Qed.

Lemma keys_items c : keys_are_str (Py.items c).
Proof. unfold Py.items. keys_cases. Qed.

Lemma keys_path_join a b : keys_are_str (Py.path_join a b).
Proof. unfold Py.path_join. keys_cases. Qed.

Lemma keys_load root r : keys_are_str (Store.load root r).
Proof. unfold Store.load. keys_cases. Qed.

Lemma keys_modify root r f :
  (forall o, keys_are_str (f o)) -> keys_are_str (Store.modify root r f).
Proof.
  intros Hf. unfold Store.modify. apply keys_bind; [apply keys_load|].
  intros o _. apply keys_bind; [apply Hf|]. intros; keys_cases.
Qed.

Lemma keys_enter root m key default :
  keys_are_str (Mpp._manifest_enter root m key default).
Proof.
  unfold Mpp._manifest_enter. apply keys_bind; [apply keys_load|]. intros obj _.
  apply keys_bind; [apply keys_contains|]. intros present _.
  apply keys_bind; [destruct (negb present); [apply keys_setitem | keys_cases]|].
  intros obj' _. apply keys_bind; [apply keys_getitem|]. intros; keys_cases.
Qed.

(** The update by a mapping stores the keys of the mapping. *)
Lemma keys_update_mapping c d : keys_are_str (Py.update c (JObj d)).
Proof. unfold Py.update. keys_cases. Qed.

Lemma keys_merged_descriptor t ds :
  is_Some (submapping "options" ds) -> is_Some (submapping "items" ds) ->
  keys_are_str (merged_descriptor t ds).
Proof.
  unfold submapping, merged_descriptor. intros [o Ho] [it Hi]. apply keys_bind.
  - destruct (Dict.get "options" ds) as [[| | | | |m]|]; try done; keys_cases.
    all: apply keys_bind; [apply keys_update_mapping|]; intros; keys_cases.
  - intros t' _.
    destruct (Dict.get "items" ds) as [[| | | | |m]|]; try done;
      (apply keys_bind; [apply keys_update_mapping|]; intros; keys_cases).
Qed.

Lemma keys_merge_source sources root source desc :
  (forall ds, desc = JObj ds ->
     is_Some (submapping "options" ds) /\ is_Some (submapping "items" ds)) ->
  keys_are_str (Mpp.merge_source sources root (source, desc)).
Proof.
  intros Hdesc.
  destruct (Store.deref root sources) as [so|] eqn:D.
  2: { unfold Mpp.merge_source, Store.load. rewrite D. simpl. keys_cases. }
  destruct so as [| | | | |srcs];
    try solve [unfold Mpp.merge_source, Store.load; rewrite D; simpl; keys_cases].
  destruct (Py.truthy (entry_of source srcs)) eqn:Etr.
  2: { rewrite (merge_source_new _ _ _ _ _ D Etr). keys_cases. }
  unfold entry_of in Etr.
  destruct (Dict.get source srcs) as [target|] eqn:Ht; [|done].
  assert (Hcase : (exists t ds, target = JObj t /\ desc = JObj ds) \/
                  (forall ds, desc <> JObj ds) \/ (forall t, target <> JObj t)).
  { destruct desc; try (right; left; done).
    destruct target; try (right; right; done). left. eauto. }
  destruct Hcase as [(t & ds & -> & ->) | Hshape].
  - rewrite (merge_source_existing _ _ _ _ _ _ D Ht) by (by intros ->).
    destruct (Hdesc ds eq_refl) as [Ho Hi].
    apply keys_bind; [by apply keys_merged_descriptor|]. intros; keys_cases.
  - destruct (merge_source_not_mapping _ _ _ _ _ _ D Ht Etr Hshape) as [-> | ->];
      keys_cases.
Qed.

Lemma keys_merge_sources sources root imp :
  mapping_sources imp -> keys_are_str (Mpp.merge_sources sources root imp).
Proof.
  intros Himp. unfold Mpp.merge_sources.
  apply keys_bind; [apply keys_get|]. intros srcs Hsrcs.
  apply keys_bind; [apply keys_items|]. intros incoming Hitems.
  destruct srcs as [| | | | |d]; try done. injection Hitems as ->.
  apply keys_foldM_in. intros m [source desc] Hin.
  apply keys_merge_source. intros ds ->. by apply (Himp incoming source ds).
Qed.

Lemma keys_get_pipeline mpp path imp : keys_are_str (Mpp.get_pipeline mpp path imp).
Proof.
  unfold Mpp.get_pipeline.
  apply keys_bind; [apply keys_get|]. intros pipelines _.
  apply keys_bind; [apply keys_getitem|]. intros pid _.
  apply keys_bind; [apply keys_iter|]. intros elements _.
  apply keys_bind.
  - induction elements as [|p ps IH]; simpl; [keys_cases|].
    apply keys_bind; [apply keys_getitem|]. intros name _.
    destruct (Py.eq name pid); [keys_cases | apply IH].
  - intros target _. keys_cases.
Qed.

Lemma keys_splice_v2 st root todo t :
  keys_are_str (Mpp.splice_v2 st root todo (JObj t)).
Proof.
  unfold Mpp.splice_v2.
  apply keys_bind; [apply keys_modify; intros; apply keys_update_mapping|].
  intros root1 _. apply keys_bind; [|intros; keys_cases].
  apply keys_modify. intros; apply keys_delitem.
Qed.

Lemma keys_parse_v2 st src : keys_are_str (Mpp._manifest_parse_v2 st src).
Proof.
  unfold Mpp._manifest_parse_v2.
  apply keys_bind; [apply keys_get|]. intros pipelines _.
  apply keys_bind; [apply keys_iter|]. intros elements _.
  apply keys_bind; [|intros; keys_cases].
  apply keys_foldM_in. intros todo ip _. unfold Mpp.collect_v2.
  apply keys_bind; [apply keys_get|]. intros; keys_cases.
Qed.

Section KeysV2.
Variable read_json : string -> result json.
Hypothesis read_json_keys : forall p, keys_are_str (read_json p).
Hypothesis read_json_mappings : forall p imp, read_json p = Ok imp -> mapping_sources imp.

Lemma keys_open_import_v2 st todo :
  keys_are_str (Mpp.open_import_v2 read_json st todo).
Proof.
  unfold Mpp.open_import_v2.
  apply keys_bind; [apply keys_enter|]. intros [root sources] _.
  apply keys_bind; [apply keys_load|]. intros todo_obj _.
  apply keys_bind; [apply keys_getitem|]. intros mpp _.
  apply keys_bind; [apply keys_getitem|]. intros path _.
  apply keys_bind; [apply keys_path_join|]. intros file _.
  apply keys_bind; [apply read_json_keys|]. intros; keys_cases.
Qed.

Lemma keys_process_v2 st todo :
  keys_are_str (Mpp._manifest_process_v2 read_json st todo).
Proof.
  unfold Mpp._manifest_process_v2.
  apply keys_bind; [apply keys_open_import_v2|].
  intros [[[[root sources] mpp] path] imp] Hopen.
  apply open_import_v2_Ok in Hopen as (d & o & file & _ & _ & _ & _ & _ & _ & _ & Hread).
  apply keys_bind; [apply keys_merge_sources; by eapply read_json_mappings|].
  intros root1 _. apply keys_bind; [apply keys_get_pipeline|].
  intros target (pid & t & name & _ & -> & _)%get_pipeline_Ok.
  apply keys_splice_v2.
Qed.

Lemma keys_main_v2 args_cwd src :
  Py.get src "version" (JStr "1") = Ok (JStr "2") ->
  keys_are_str (Mpp.main read_json args_cwd src).
Proof.
  intros Hv. rewrite (main_version_2 _ _ _ Hv).
  apply keys_bind; [|intros; keys_cases].
  unfold Mpp._manifest_import_v2. apply keys_bind; [apply keys_parse_v2|].
  intros st1 _. apply keys_foldM_in. intros st todo _. apply keys_process_v2.
Qed.
End KeysV2.

(** X16. The runs of version 2 on which every [dict.update] is given a
    mapping: the imported manifests have mappings as the [options] and
    [items] of their source descriptors, where they have them (a sequence
    of pairs there could bring in a key that is no [str]; that is left
    out here). On such a run no update stores a key that is no [str].
    When the run writes a manifest, it has resolved every import: no
    entry of the [pipelines] written holds a directive that is true (the
    pipeline taken from the imported manifest cannot bring one in, the
    key is deleted after the overlay). So the run is idempotent: run over
    its own output, from any directory and on any file system, it opens
    no file and writes that output again. *)
Theorem X16_version_2_run_resolves_every_import read_json args_cwd src :
  Py.get src "version" (JStr "1") = Ok (JStr "2") ->
  (forall p, keys_are_str (read_json p)) ->
  (forall p imp, read_json p = Ok imp -> mapping_sources imp) ->
  keys_are_str (Mpp.main read_json args_cwd src) /\
  forall out,
    Mpp.main read_json args_cwd src = Ok (mkOutcome 0 (Some out)) ->
    (forall i q, Store.deref out (entry i) = Some q ->
       exists c, Py.get q Mpp.directive JNull = Ok c /\ Py.truthy c = false) /\
    (forall read_json' args_cwd',
       Mpp.main read_json' args_cwd' out = Ok (mkOutcome 0 (Some out))).
Proof.
  intros Hv Hload Hdocs. split; [by apply keys_main_v2|]. intros out Hmain.
  destruct (run_v2_Ok _ _ _ _ Hv Hmain)
    as (elements & todo & st' & Hel & Hcollect & Hfold & -> & Hform & Hmaps & Hall).
  assert (HA : forall i q, Store.deref (manifest st') (entry i) = Some q ->
             exists c, Py.get q Mpp.directive JNull = Ok c /\ Py.truthy c = false).
  { intros i q D. destruct (decide (entry i ∈ todo)) as [Hi | Hi].
    - destruct (imports_v2_resolved _ _ _ _ i Hfold Hform Hi) as (e' & D' & He').
      rewrite D in D'. injection D' as ->. exists JNull. simpl. by rewrite He'.
    - rewrite (imports_v2_other_entry _ _ _ _ i Hfold) in D.
      2: { intros x Hx. destruct (Hform x Hx) as (j & ->). exists j.
           split; [done|]. by intros ->. }
      cbn [manifest] in D.
      destruct (deref_entry _ _ _ D) as (d & ps & -> & Hps & Hq).
      simpl in Hel. rewrite Hps in Hel. simpl in Hel. injection Hel as <-.
      rewrite Forall_lookup in Hmaps. destruct (Hmaps i q Hq) as [e ->].
      eexists. split; [reflexivity|].
      destruct (Py.truthy _) eqn:Etr; [|done].
      exfalso. apply Hi. by apply (Hall i (JObj e) _ Hq eq_refl). }
  split; [done|]. intros read_json' args_cwd'.
  assert (Hv' : Py.get (manifest st') "version" (JStr "1") = Ok (JStr "2")).
  { pose proof (imports_v2_toplevel _ _ _ _ "version" [] Hfold Hform
                  ltac:(done) ltac:(done)) as Hfr.
    cbn [manifest] in Hfr. destruct src as [| | | | |d]; try done.
    simpl in Hv, Hfr. destruct (Dict.get "version" d) as [v|] eqn:Ev; [|done].
    injection Hv as ->.
    destruct (manifest st') as [| | | | |dd]; try done. simpl in Hfr |- *.
    destruct (Dict.get "version" dd); congruence. }
  rewrite (main_version_2 _ _ _ Hv'). unfold Mpp._manifest_import_v2.
  assert (Hparse : exists elements',
    (let* pipelines := Py.get (manifest st') "pipelines" (JArr []) in
     Py.iter pipelines) = Ok elements' /\
    Forall (fun p => exists c, Py.get p Mpp.directive JNull = Ok c /\
                               Py.truthy c = false) elements').
  { destruct todo as [|x xs].
    - simpl in Hfold. injection Hfold as <-. cbn [manifest].
      exists elements. split; [done|]. apply Forall_lookup. intros i p Hp.
      rewrite Forall_lookup in Hmaps. destruct (Hmaps i p Hp) as [e ->].
      eexists. split; [reflexivity|].
      destruct (Py.truthy _) eqn:Etr; [|done].
      pose proof (Hall i (JObj e) _ Hp eq_refl Etr) as Hin.
      by apply elem_of_nil in Hin.
    - destruct (Hform x) as (j & ->); [left|].
      destruct (imports_v2_resolved _ _ _ _ j Hfold Hform) as (e' & D' & _); [left|].
      destruct (deref_entry _ _ _ D') as (dd & qs & Hout & Hqs & _).
      exists qs. rewrite Hout. simpl. rewrite Hqs. split; [done|].
      apply Forall_lookup. intros i q Hq. apply (HA i). rewrite Hout. simpl.
      by rewrite Hqs, Hq. }
  destruct Hparse as (elements' & Hel' & Hnone).
  rewrite (parse_v2_none _ _ _ Hel' Hnone). reflexivity.
Qed.

(** ** Version 1: the rest of [sources] *)

Lemma assign_urls_frame root v p :
  beside_urls p -> Store.deref (Store.assign root urls_ref v) p = Store.deref root p.
Proof.
  intros [(k & r & Hk & ->) | (f & r & Hf & ->)].
  - apply (deref_assign_diverge _ [Key "sources"] (Key files_kind) (Key k)
             [Key "urls"] r). congruence.
  - apply (deref_assign_diverge _ [Key "sources"; Key files_kind] (Key "urls") (Key f)
             [] r). congruence.
Qed.

Lemma defaulted_frame d d' p :
  defaulted d = Ok d' -> beside_urls p ->
  Store.deref (JObj d') p = Store.deref (JObj d) p.
Proof.
  intros H Hp. unfold defaulted in H.
  destruct (entered_value "sources" (JObj []) d) as [| | | | |s] eqn:Es; try done.
  destruct (entered_value files_kind (JObj []) s) as [| | | | |f] eqn:Ef; try done.
  injection H as <-.
  assert (Hs : match Dict.get "sources" d with
               | Some c => c = JObj s
               | None => s = []
               end).
  { unfold entered_value in Es. destruct (Dict.get "sources" d); [done|].
    by injection Es. }
  assert (Hf : match Dict.get files_kind s with
               | Some c => c = JObj f
               | None => f = []
               end).
  { unfold entered_value in Ef. destruct (Dict.get files_kind s); [done|].
    by injection Ef. }
  destruct Hp as [(k & r & Hk & ->) | (k & r & Hk & ->)]; simpl; rewrite get_set_eq.
  - rewrite get_set_ne by congruence. rewrite get_entered_ne by congruence.
    destruct (Dict.get "sources" d) as [c|]; [by subst c | by subst s].
  - rewrite get_set_eq. rewrite get_entered_ne by congruence.
    destruct (Dict.get "sources" d) as [c|]; [subst c | subst s].
    + destruct (Dict.get files_kind s) as [c|]; [by subst c | by subst f].
    + simpl in Hf. by subst f.
Qed.

Lemma sort_urls_frame root out p :
  Mpp._sort_urls root (Some urls_ref) = Ok out -> beside_urls p ->
  Store.deref out p = Store.deref root p.
Proof.
  intros H Hp. apply sort_urls_Ok in H as (obj & _ & [[_ ->] | (? & ? & _ & _ & _ & ->)]);
    [done|]. by apply assign_urls_frame.
Qed.

Section SourcesV1.
Variable read_json : string -> result json.

Lemma process_v1_sources_frame st todo st' n p :
  Mpp._manifest_process_v1 read_json st todo = Ok st' ->
  manifest_urls st = Some urls_ref ->
  todo = hops n ->
  (exists o, Store.deref (manifest st) todo = Some o /\
             Py.contains Mpp.directive o = Ok true) ->
  beside_urls p ->
  Store.deref (manifest st') p = Store.deref (manifest st) p.
Proof.
  unfold Mpp._manifest_process_v1. intros H Hurls -> (o & Do & Hc) Hp.
  bind_inv H. destruct a as [root imp]. bind_inv H. destruct a as [iu ip].
  destruct (open_import_v1_Ok _ _ _ _ _ E) as (e & D & Hroot).
  rewrite Do in D. injection D as ->.
  assert (Hmem : Dict.mem Mpp.directive e = true) by (simpl in Hc; congruence).
  unfold entered in Hroot. rewrite Hmem in Hroot.
  rewrite (assign_deref_id _ _ _ Do) in Hroot. subst root.
  apply splice_v1_Ok in H as (r & u & u' & e1 & Hr & Du & Hu & D1 & ->).
  rewrite Hurls in Hr. injection Hr as <-. cbn [manifest].
  rewrite <- (assign_urls_frame (manifest st) u' p Hp).
  remember (Store.assign (manifest st) urls_ref u') as root1 eqn:Hroot1.
  assert (Hhead : exists r0, p = Key "sources" :: r0).
  { destruct Hp as [(k & r & _ & ->) | (k & r & _ & ->)]; eauto. }
  destruct Hhead as [r0 ->]. destruct n as [|n].
  - simpl in D1. injection D1 as ->. simpl.
    rewrite get_del_ne by done. by rewrite get_set_ne by done.
  - apply (deref_assign_other _ (Key "pipeline") (Key "sources")). congruence.
Qed.

(** X17. A version-1 run that writes a manifest changes nothing in
    [sources] but the [urls] of [org.osbuild.files]: the descriptors of
    all other kinds of sources, and the other fields of
    [org.osbuild.files], are written as they were read, whether an import
    was resolved or not. *)
Theorem X17_version_1_run_keeps_the_other_sources st src out :
  Py.get src "version" (JStr "1") = Ok (JStr "1") ->
  Mpp._main_process read_json st src = Ok (mkOutcome 0 (Some out)) ->
  (forall k r, k <> files_kind ->
     Store.deref out (Key "sources" :: Key k :: r)
     = Store.deref src (Key "sources" :: Key k :: r)) /\
  (forall f r, f <> "urls"%string ->
     Store.deref out (Key "sources" :: Key files_kind :: Key f :: r)
     = Store.deref src (Key "sources" :: Key files_kind :: Key f :: r)).
Proof.
  intros Hv Hmain.
  assert (Hframe : forall p, beside_urls p -> Store.deref out p = Store.deref src p).
  { intros p Hp.
    unfold Mpp._main_process in Hmain. rewrite Hv in Hmain. cbn [bind] in Hmain.
    change (Py.eq (JStr "1") (JStr "1")) with true in Hmain. cbv iota in Hmain.
    bind_inv Hmain. bind_inv Hmain. injection Hmain as ->.
    rename a into st', E into Himport, E0 into Hsort.
    destruct (import_v1_urls _ _ _ _ Himport) as (Hurls' & _).
    rewrite Hurls' in Hsort. rewrite (sort_urls_frame _ _ _ Hsort Hp).
    unfold Mpp._manifest_import_v1 in Himport. bind_inv Himport.
    rename a into st1, E into Hparse.
    destruct (parse_v1_Ok _ _ _ Hparse) as (d & d' & -> & Hd & Hst1 & Hfind).
    assert (Hm : manifest st1 = JObj d') by (by rewrite Hst1).
    assert (Hurls : manifest_urls st1 = Some urls_ref) by (by rewrite Hst1).
    rewrite <- (defaulted_frame _ _ _ Hd Hp), <- Hm.
    apply find_import_found in Hfind as [Htodo | (n & o & Htodo & Do & Hc & _)];
      rewrite Htodo in Himport; simpl in Himport.
    - by injection Himport as <-.
    - bind_inv Himport. injection Himport as <-.
      apply (process_v1_sources_frame _ _ _ n _ E Hurls eq_refl); [|done].
      rewrite Hm. eauto. }
  split.
  - intros k r Hk. apply Hframe. left. eauto.
  - intros f r Hf. apply Hframe. right. eauto.
Qed.
End SourcesV1.

(** ** [_sort_urls]: entries with one URL *)

Section Stable.
Context {A : Type}.
Implicit Types (x y : json * A) (l : list (json * A)).

Lemma filter_none k l :
  Forall (fun z => is_key k z = false) l -> List.filter (is_key k) l = [].
Proof. induction 1 as [|z l Hz _ IH]; simpl; [done|]. by rewrite Hz. Qed.

Lemma insert_filter k x l l' :
  str_keyed x -> Forall str_keyed l -> StronglySorted key_le l ->
  Py.insert x l = Ok l' ->
  List.filter (is_key k) l'
  = List.filter (is_key k) l ++ (if is_key k x then [x] else []).
Proof.
  intros [s Hs] Hl Hsorted. revert l'.
  induction l as [|y r IH]; intros l' H; simpl in H.
  - injection H as <-. simpl. by destruct (is_key k x).
  - apply Forall_cons in Hl as [[t Ht] Hr].
    pose proof Hsorted as Hyr. apply StronglySorted_inv in Hsorted as [Hsr Hy].
    rewrite Hs, Ht in H. simpl in H. destruct (String.ltb s t) eqn:Elt.
    + injection H as <-.
      change (List.filter (is_key k) (x :: y :: r))
        with (if is_key k x then x :: List.filter (is_key k) (y :: r)
              else List.filter (is_key k) (y :: r)).
      destruct (is_key k x) eqn:Ex; [|by rewrite app_nil_r].
      assert (Hk : s = k).
      { unfold is_key in Ex. rewrite Hs in Ex. by apply String.eqb_eq. }
      subst k. rewrite filter_none; [done|].
      assert (Hge : forall z, z ∈ y :: r -> exists tz, fst z = JStr tz /\
                                                     String.leb t tz = true).
      { intros z [-> | Hz]%elem_of_cons.
        - exists t. split; [done|]. rewrite leb_lt_eq. by left.
        - rewrite Forall_forall in Hy. destruct (Hy z Hz) as (t' & tz & Ht' & Hz' & Hle).
          exists tz. split; [done|]. congruence. }
      apply Forall_forall. intros z Hz. destruct (Hge z Hz) as (tz & Hz' & Hle).
      unfold is_key. rewrite Hz'. apply String.eqb_neq. intros ->.
      apply leb_not_ltb in Hle. congruence.
    + bind_inv H. injection H as <-. cbn [List.filter].
      rewrite (IH Hr Hsr _ E). by destruct (is_key k y).
Qed.

Lemma insertion_filter k keyed acc s :
  Forall str_keyed keyed -> Forall str_keyed acc -> StronglySorted key_le acc ->
  foldM (fun acc x => Py.insert x acc) keyed acc = Ok s ->
  List.filter (is_key k) s = List.filter (is_key k) acc ++ List.filter (is_key k) keyed.
Proof.
  revert acc. induction keyed as [|x r IH]; intros acc Hk Hacc Hs H; simpl in H.
  - injection H as <-. by rewrite app_nil_r.
  - apply Forall_cons in Hk as [Hx Hr]. bind_inv H.
    destruct (insert_str x acc Hx Hacc Hs) as (acc' & Hins & Hs').
    rewrite E in Hins. injection Hins as <-.
    assert (Ha : Forall str_keyed a).
    { apply insert_perm in E. rewrite E. by constructor. }
    rewrite (IH _ Hr Ha Hs' H), (insert_filter k _ _ _ Hx Hacc Hs E).
    rewrite <- app_assoc. cbn [List.filter]. by destruct (is_key k x).
Qed.
End Stable.

Lemma sort_keys_of_urls items keyed :
  Forall url_shaped items ->
  mapM (fun a => let* k := Mpp.get_sort_key a in Ok (k, a)) items = Ok keyed ->
  map snd keyed = items /\
  Forall (fun x => exists u, url_of (snd (snd x)) = Some u /\ fst x = JStr u) keyed.
Proof.
  intros Hshape. revert keyed.
  induction Hshape as [|item items Hi _ IH]; intros keyed H; simpl in H.
  - by injection H as <-.
  - destruct (get_sort_key_url item Hi) as (u & Hu & Hk). rewrite Hk in H.
    simpl in H. bind_inv H. injection H as <-. destruct (IH _ E) as [Hsnd Hall].
    split; [by simpl; rewrite Hsnd|]. constructor; [|done]. eauto.
Qed.

Lemma filter_has_url u (l : list (json * (string * json))) :
  Forall (fun x => exists v, url_of (snd (snd x)) = Some v /\ fst x = JStr v) l ->
  List.filter (has_url u) (map snd l) = map snd (List.filter (is_key u) l).
Proof.
  induction 1 as [|x l (v & Hv & Hx) _ IH]; simpl; [done|].
  unfold has_url at 1, is_key at 1. rewrite Hv, Hx.
  destruct (String.eqb v u); simpl; by rewrite IH.
Qed.

(** X18. The sort of the URLs is stable: on [urls] whose entries all have
    a URL, [_sort_urls] returns and, for every URL, leaves the entries
    with that URL in the order they had (the checksums that share a URL
    are not permuted among themselves). *)
Theorem X18_sort_urls_is_stable root r items :
  Store.deref root r = Some (JObj items) ->
  Dict.wf items ->
  Forall url_shaped items ->
  exists sorted,
    Mpp._sort_urls root (Some r) = Ok (Store.assign root r (JObj sorted)) /\
    forall u, List.filter (has_url u) sorted = List.filter (has_url u) items.
Proof.
  intros D Hwf Hshape.
  destruct (sorted_urls items Hshape) as (s & Hs & Hperm & _).
  exists s. split.
  - destruct items as [|item items].
    + apply Permutation_nil_r in Hperm as ->.
      unfold Mpp._sort_urls, Store.load. rewrite D. simpl.
      by rewrite (assign_deref_id _ _ _ D).
    + unfold Mpp._sort_urls, Store.load. rewrite D. simpl.
      fold (Py.sorted Mpp.get_sort_key (item :: items)). rewrite Hs. simpl.
      assert (Hwfs : Dict.wf s) by (by eapply wf_perm).
      by rewrite (update_empty s Hwfs), (update_empty s Hwfs).
  - intros u. unfold Py.sorted in Hs. bind_inv Hs. bind_inv Hs. injection Hs as <-.
    rename a into keyed, a0 into s0.
    destruct (sort_keys_of_urls _ _ Hshape E) as [Hsnd Hkeyed].
    assert (Hstr : Forall str_keyed keyed).
    { eapply Forall_impl; [apply Hkeyed|]. intros x (v & _ & Hx). by exists v. }
    pose proof (insertion_filter u keyed [] s0 Hstr ltac:(constructor)
                  ltac:(constructor) E0) as Hf.
    assert (Hs0 : Forall (fun x => exists v, url_of (snd (snd x)) = Some v /\
                                             fst x = JStr v) s0).
    { apply insertion_perm in E0. rewrite app_nil_r in E0. by rewrite E0. }
    rewrite (filter_has_url u s0 Hs0), Hf. simpl.
    by rewrite <- (filter_has_url u keyed Hkeyed), Hsnd.
Qed.

(** ** Version 2: the order of the fields of a resolved entry *)

Lemma keys_del {V} k (d : list (string * V)) :
  Dict.keys (Dict.del k d)
  = List.filter (fun k' => negb (String.eqb k k')) (Dict.keys d).
Proof.
  induction d as [|[k' v] d IH]; simpl; [done|].
  destruct (String.eqb k k'); simpl; [done|]. by rewrite IH.
Qed.

Lemma mem_set_ne {V} k k' (v : V) d :
  k' <> k -> Dict.mem k (Dict.set k' v d) = Dict.mem k d.
Proof. intros H. unfold Dict.mem. by rewrite get_set_ne. Qed.

Lemma keys_update {V} (d d2 : list (string * V)) :
  Dict.wf d2 ->
  Dict.keys (Dict.update d d2)
  = Dict.keys d ++ List.filter (fun k => negb (Dict.mem k d)) (Dict.keys d2).
Proof.
  unfold Dict.update, Dict.wf. revert d.
  induction d2 as [|[k v] d2 IH]; intros d Hwf; simpl; [by rewrite app_nil_r|].
  apply NoDup_cons in Hwf as [Hk Hwf]. rewrite (IH _ Hwf), keys_set.
  assert (Hfilter :
    List.filter (fun k0 => negb (Dict.mem k0 (Dict.set k v d))) (Dict.keys d2)
    = List.filter (fun k0 => negb (Dict.mem k0 d)) (Dict.keys d2)).
  { clear -Hk. induction d2 as [|[k1 v1] d2 IH]; simpl; [done|].
    simpl in Hk. apply not_elem_of_cons in Hk as [Hne Hk].
    rewrite mem_set_ne by done. by rewrite (IH Hk). }
  rewrite Hfilter. destruct (Dict.mem k d); simpl; [done|].
  by rewrite <- app_assoc.
Qed.

Lemma filter_new_keys (e : list (string * json)) k (l : list string) :
  Dict.mem k e = true ->
  List.filter (fun k' => negb (String.eqb k k'))
    (List.filter (fun k' => negb (Dict.mem k' e)) l)
  = List.filter (fun k' => negb (Dict.mem k' e)) l.
Proof.
  intros Hk. induction l as [|k' l IH]; simpl; [done|].
  destruct (Dict.mem k' e) eqn:E; simpl; [done|].
  destruct (String.eqb k k') eqn:Ek; simpl; [|by rewrite IH].
  apply String.eqb_eq in Ek as ->. congruence.
Qed.

Section OrderV2.
Variable read_json : string -> result json.

(** X19. A version-2 import keeps the fields of the importing entry in
    their places. The keys of the resolved entry are those of the
    importing entry in their order, without the directive, followed by the
    keys that only the imported pipeline has, in the order the imported
    pipeline gives them. *)
Theorem X19_resolved_entry_keeps_its_order st i root sources mpp path imp root1 t :
  Mpp.open_import_v2 read_json st (entry i) = Ok (root, sources, mpp, path, imp) ->
  Mpp.merge_sources sources root imp = Ok root1 ->
  Mpp.get_pipeline mpp path imp = Ok (JObj t) ->
  Dict.wf t ->
  exists e e' st',
    Store.deref (manifest st) (entry i) = Some (JObj e) /\
    Mpp._manifest_process_v2 read_json st (entry i) = Ok st' /\
    Store.deref (manifest st') (entry i) = Some (JObj e') /\
    Dict.keys e'
    = List.filter (fun k => negb (String.eqb Mpp.directive k)) (Dict.keys e)
      ++ List.filter (fun k => negb (Dict.mem k e)) (Dict.keys t).
Proof.
  intros Hopen Hmerge Hget Wt.
  pose proof (open_import_v2_other _ _ _ _ _ _ _ _ "pipelines" [Idx i] Hopen) as Hfr.
  destruct (open_import_v2_Ok _ _ _ _ _ _ _ _ Hopen)
    as (d & todo_obj & file & Hst & Hroot & -> & Hd & Hmpp & _).
  destruct todo_obj as [| | | | |e]; try done.
  assert (Hmem : Dict.mem Mpp.directive e = true).
  { unfold Dict.mem. simpl in Hmpp. by destruct (Dict.get Mpp.directive e). }
  assert (D1 : Store.deref root1 (entry i) = Some (JObj e)).
  { unfold entry. by rewrite (merge_sources_other _ _ _ _ _ _ Hmerge). }
  exists e, (Dict.del Mpp.directive (Dict.update e t)). eexists. split_and!.
  - unfold entry in *. rewrite <- Hfr by done. done.
  - unfold Mpp._manifest_process_v2. rewrite Hopen. simpl.
    rewrite Hmerge. simpl. rewrite Hget. simpl.
    by apply splice_v2_dict.
  - cbn [manifest]. apply deref_assign_eq. eauto.
  - rewrite keys_del, (keys_update _ _ Wt), List.filter_app.
    by rewrite (filter_new_keys _ _ _ Hmem).
Qed.
End OrderV2.

(** * The import as a whole *)

(** The claims about the merge of the sources and about the pipeline that
    is imported are stated on [_manifest_process_v2] and
    [_manifest_process_v1] themselves: on what an import makes of the
    manifest, for the document that the loader gives for the file of the
    directive. *)

Lemma merged_descriptor_other t ds t' k :
  merged_descriptor t ds = Ok t' ->
  k <> "options"%string -> k <> "items"%string ->
  Dict.get k t' = Dict.get k t.
Proof.
  unfold merged_descriptor. intros H Ho Hi. bind_inv H. bind_inv H. injection H as <-.
  rewrite get_set_ne by done. rewrite get_entered_ne by done.
  destruct (Py.truthy _); [|by injection E as <-].
  bind_inv E. injection E as <-. rewrite get_set_ne by done.
  by rewrite get_entered_ne by done.
Qed.

(** What is under [sources] is the same before and after the default
    for [sources] is entered. *)
Lemma deref_entered_sources d source r :
  Store.deref (JObj (entered "sources" (JObj []) d)) (Key "sources" :: Key source :: r)
  = Store.deref (JObj d) (Key "sources" :: Key source :: r).
Proof.
  simpl. rewrite get_entered. unfold entered_value.
  by destruct (Dict.get "sources" d).
Qed.

Section WholeImportV2.
Variable read_json : string -> result json.

Lemma at_import_v2_open st i e mpp path imp :
  at_import_v2 read_json st i e mpp path imp ->
  exists d,
    manifest st = JObj d /\
    Store.deref (JObj (entered "sources" (JObj []) d)) (entry i) = Some (JObj e) /\
    Mpp.open_import_v2 read_json st (entry i)
    = Ok (JObj (entered "sources" (JObj []) d), [Key "sources"], mpp, path, imp).
Proof.
  intros (file & D & Hmpp & Hpath & Hjoin & Hread).
  destruct (deref_entry _ _ _ D) as (d & ps & Hm & Hps & Hi).
  assert (D' : Store.deref (JObj (entered "sources" (JObj []) d)) (entry i)
               = Some (JObj e)).
  { rewrite Hm in D. simpl in D |- *. by rewrite get_entered_ne. }
  exists d. split_and!; try done. unfold Mpp.open_import_v2.
  rewrite (enter_dict _ [] _ _ d) by (by rewrite Hm).
  cbn [bind Store.assign]. unfold Store.load. rewrite D'.
  cbn [bind Py.getitem]. rewrite Hmpp. cbn [bind]. rewrite Hpath. cbn [bind].
  rewrite Hjoin. cbn [bind]. by rewrite Hread.
Qed.

(** An import that returns, taken apart. *)
Lemma process_v2_Ok st i e mpp path imp st' :
  at_import_v2 read_json st i e mpp path imp ->
  Mpp._manifest_process_v2 read_json st (entry i) = Ok st' ->
  exists d root1 t,
    manifest st = JObj d /\
    Mpp.merge_sources [Key "sources"] (JObj (entered "sources" (JObj []) d)) imp
    = Ok root1 /\
    Mpp.get_pipeline mpp path imp = Ok (JObj t) /\
    manifest st'
    = Store.assign root1 (entry i)
        (JObj (Dict.del Mpp.directive (Dict.update e t))) /\
    forall r, Store.deref (manifest st') (Key "sources" :: r)
              = Store.deref root1 (Key "sources" :: r).
Proof.
  intros Hat H. pose proof Hat as (file & _ & Hmpp & _).
  destruct (at_import_v2_open _ _ _ _ _ _ Hat) as (d & Hm & D & Hopen).
  unfold Mpp._manifest_process_v2 in H. rewrite Hopen in H. cbn [bind] in H.
  bind_inv H. bind_inv H. rename a into root1, E into Hmerge, E0 into Hget.
  destruct (get_pipeline_Ok _ _ _ _ Hget) as (pid & t & name & _ & -> & _).
  assert (Hmem : Dict.mem Mpp.directive e = true).
  { unfold Dict.mem. by rewrite Hmpp. }
  assert (D1 : Store.deref root1 (entry i) = Some (JObj e)).
  { unfold entry. by rewrite (merge_sources_other _ _ _ _ _ _ Hmerge). }
  rewrite (splice_v2_dict _ _ _ _ _ D1 Hmem) in H.
  assert (Hst' : manifest st' = Store.assign root1 (entry i)
                   (JObj (Dict.del Mpp.directive (Dict.update e t))))
    by (by injection H as <-).
  exists d, root1, t. split_and!; try done.
  intros r. rewrite Hst'. apply deref_assign_other. congruence.
Qed.

(** The kind [source] of the imported manifest, after the import. *)
Lemma process_v2_kind st i e mpp path imp incoming source desc st' :
  at_import_v2 read_json st i e mpp path imp ->
  Py.get imp "sources" (JObj []) = Ok (JObj incoming) ->
  Dict.wf incoming ->
  Dict.get source incoming = Some desc ->
  Mpp._manifest_process_v2 read_json st (entry i) = Ok st' ->
  exists root srcs alone,
    Store.deref root [Key "sources"] = Some (JObj srcs) /\
    Store.deref (manifest st) [Key "sources"; Key source]
    = Store.deref (JObj srcs) [Key source] /\
    Mpp.merge_source [Key "sources"] root (source, desc) = Ok alone /\
    Store.deref (manifest st') [Key "sources"; Key source]
    = Store.deref alone [Key "sources"; Key source].
Proof.
  intros Hat Hin Hwf Hg Hp.
  destruct (process_v2_Ok _ _ _ _ _ _ _ Hat Hp)
    as (d & root1 & t & Hm & Hmerge & _ & _ & Hsources).
  set (root := JObj (entered "sources" (JObj []) d)) in *.
  unfold Mpp.merge_sources in Hmerge. rewrite Hin in Hmerge.
  cbn [bind Py.items] in Hmerge. apply get_Some_in in Hg.
  assert (D : exists srcs, Store.deref root [Key "sources"] = Some (JObj srcs)).
  { destruct incoming as [|[s0 d0] rest]; [by apply elem_of_nil in Hg|].
    simpl in Hmerge. bind_inv Hmerge. unfold Mpp.merge_source, Store.load in E.
    destruct (Store.deref root [Key "sources"]) as [[| | | | |srcs]|]; try done.
    eauto. }
  destruct D as [srcs D].
  destruct (merge_loop_one_by_one [Key "sources"] incoming Hwf _ _ _ _ _ D Hmerge Hg)
    as (alone & Halone & Heq).
  exists root, srcs, alone. split_and!; try done.
  - rewrite Hm, <- deref_entered_sources. fold root.
    change [Key "sources"; Key source] with ([Key "sources"] ++ [Key source]).
    by rewrite deref_app, D.
  - by rewrite Hsources.
Qed.

(** C3 as stated fails: the importing manifest has an entry
    for [org.osbuild.curl], the empty mapping, and the run replaces it by
    the descriptor of the imported manifest as a whole, with the field
    [origin] that a merge of [options] and [items] never copies. *)
Lemma C3_empty_entry_is_replaced :
  Store.deref
    (ExamplesImport.importer (JObj [(ExamplesV2.curl, JObj [])]) "origin.json" "stage1")
    [Key "sources"; Key ExamplesV2.curl] = Some (JObj []) /\
  exists out,
    Mpp.main ExamplesImport.disk None
      (ExamplesImport.importer (JObj [(ExamplesV2.curl, JObj [])]) "origin.json" "stage1")
    = Ok (mkOutcome 0 (Some out)) /\
    Store.deref out [Key "sources"; Key ExamplesV2.curl] = Some ExamplesV2.incoming /\
    Py.getitem ExamplesV2.incoming "origin" = Ok (JStr "base").
Proof. split; [reflexivity|]. eexists. split_and!; reflexivity. Qed.

(** C3, amended. In a version-2 import that returns, for every kind of
    source of the imported manifest: when the importing manifest has no
    entry for the kind, or an entry that is false (an empty mapping,
    [null]), the manifest has the incoming descriptor as a whole after
    the import; when it has an entry that is true, that entry is a
    mapping and so is the incoming descriptor, the entry stays, its
    fields other than [options] and [items] are as before, and [options]
    and [items] are merged key by key, the incoming value winning where
    both have the key, so that the merged [items] hold the keys of both.
    (The kinds of the imported manifest, and the keys of its [items] and
    [options], are those of dictionaries: none twice.) *)
Theorem C3_sources_are_merged st i e mpp path imp incoming source desc st' :
  at_import_v2 read_json st i e mpp path imp ->
  Py.get imp "sources" (JObj []) = Ok (JObj incoming) ->
  Dict.wf incoming ->
  Dict.get source incoming = Some desc ->
  Mpp._manifest_process_v2 read_json st (entry i) = Ok st' ->
  ((forall v, Store.deref (manifest st) [Key "sources"; Key source] = Some v ->
              Py.truthy v = false) ->
   Store.deref (manifest st') [Key "sources"; Key source] = Some desc) /\
  (forall v,
     Store.deref (manifest st) [Key "sources"; Key source] = Some v ->
     Py.truthy v = true ->
     exists t ds t',
       v = JObj t /\ desc = JObj ds /\
       Store.deref (manifest st') [Key "sources"; Key source] = Some (JObj t') /\
       (forall k, k <> "options"%string -> k <> "items"%string ->
                  Dict.get k t' = Dict.get k t) /\
       (forall ti di to do_,
          submapping "items" t = Some ti -> submapping "items" ds = Some di ->
          submapping "options" t = Some to -> submapping "options" ds = Some do_ ->
          Dict.wf di -> Dict.wf do_ ->
          exists ti' to',
            Dict.get "items" t' = Some (JObj ti') /\
            submapping "options" t' = Some to' /\
            (forall k, Dict.get k ti' =
                       match Dict.get k di with Some x => Some x | None => Dict.get k ti end) /\
            (forall k, Dict.get k to' =
                       match Dict.get k do_ with Some x => Some x | None => Dict.get k to end))).
Proof.
  intros Hat Hin Hwf Hg Hp.
  destruct (process_v2_kind _ _ _ _ _ _ _ _ _ _ Hat Hin Hwf Hg Hp)
    as (root & srcs & alone & D & Hbefore & Halone & Hafter).
  rewrite Hbefore, Hafter.
  assert (Hsrc : Store.deref (JObj srcs) [Key source] = Dict.get source srcs).
  { simpl. by destruct (Dict.get source srcs). }
  rewrite Hsrc. clear Hsrc.
  assert (Dk : forall x, Store.deref (Store.assign root [Key "sources"] (JObj
                 (Dict.set source x srcs))) [Key "sources"; Key source] = Some x).
  { intros x. change [Key "sources"; Key source] with ([Key "sources"] ++ [Key source]).
    rewrite deref_app, deref_assign_eq by eauto. simpl. by rewrite get_set_eq. }
  split.
  - intros Hfalse.
    assert (Etr : Py.truthy (entry_of source srcs) = false).
    { unfold entry_of. destruct (Dict.get source srcs) as [v|]; [|done].
      by apply Hfalse. }
    rewrite (merge_source_new _ _ _ _ _ D Etr) in Halone.
    assert (Ha : alone = Store.assign root [Key "sources"] (JObj (Dict.set source desc srcs)))
      by congruence.
    rewrite Ha. apply Dk.
  - intros v Hv Htr.
    assert (Ht : Dict.get source srcs = Some v) by done.
    destruct (merge_source_Ok_shapes _ _ _ _ _ _ _ D Ht Htr Halone)
      as (t & ds & -> & Hne & ->).
    rewrite (merge_source_existing _ _ _ _ _ _ D Ht Hne) in Halone.
    bind_inv Halone. rename a into t', E into Hmd.
    assert (Ha : alone = Store.assign root ([Key "sources"] ++ [Key source]) (JObj t'))
      by congruence.
    exists t, ds, t'. split_and!; try done.
    + rewrite Ha.
      change [Key "sources"; Key source] with ([Key "sources"] ++ [Key source]).
      apply deref_assign_eq. rewrite deref_app, D. simpl. rewrite Ht. eauto.
    + intros k Ho Hi. by eapply merged_descriptor_other.
    + intros ti di to do_ Hti Hdi Hto Hdo Wi Wo.
      destruct (merged_descriptor_mappings _ _ _ _ _ _ Hti Hdi Hto Hdo)
        as (t'' & Hm & _ & Hi & Ho).
      rewrite Hmd in Hm. injection Hm as <-.
      exists (Dict.update ti di), (Dict.update to do_). split_and!; try done.
      * intros k. by apply get_update.
      * intros k. by apply get_update.
Qed.

(** C10 as stated fails: the importing manifest holds a
    descriptor for [org.osbuild.curl] that is true, a string, and the
    merge cannot enter [items] into it: the import ends with the
    [TypeError] of the item assignment and the run writes nothing. *)
Lemma C10_descriptor_that_is_no_mapping :
  Py.truthy (JStr "elsewhere") = true /\
  Store.deref
    (ExamplesImport.importer (JObj [(ExamplesV2.curl, JStr "elsewhere")])
       "origin.json" "stage1")
    [Key "sources"; Key ExamplesV2.curl] = Some (JStr "elsewhere") /\
  Mpp.main ExamplesImport.disk None
    (ExamplesImport.importer (JObj [(ExamplesV2.curl, JStr "elsewhere")])
       "origin.json" "stage1")
  = Raise TypeError.
Proof. split_and!; reflexivity. Qed.

(** C10, amended. In a version-2 import, for a kind of source of the
    imported manifest for which the importing manifest holds a descriptor
    that is true: when the import returns, that descriptor is a mapping,
    and after the import it has the key [items], with the empty mapping
    under it when neither it nor the incoming descriptor had [items];
    when the descriptor, or the incoming one, is no mapping, the import
    ends with an exception. *)
Theorem C10_items_key_is_entered st i e mpp path imp incoming source desc target :
  at_import_v2 read_json st i e mpp path imp ->
  Py.get imp "sources" (JObj []) = Ok (JObj incoming) ->
  Dict.wf incoming ->
  Dict.get source incoming = Some desc ->
  Store.deref (manifest st) [Key "sources"; Key source] = Some target ->
  Py.truthy target = true ->
  (forall st',
     Mpp._manifest_process_v2 read_json st (entry i) = Ok st' ->
     exists t t',
       target = JObj t /\
       Store.deref (manifest st') [Key "sources"; Key source] = Some (JObj t') /\
       Dict.mem "items" t' = true /\
       (Py.contains "items" target = Ok false ->
        Py.contains "items" desc = Ok false ->
        Dict.get "items" t' = Some (JObj []))) /\
  ((forall t, target <> JObj t) \/ (forall ds, desc <> JObj ds) ->
   raises (Mpp._manifest_process_v2 read_json st (entry i))).
Proof.
  intros Hat Hin Hwf Hg Htarget Htr.
  assert (Hmain : forall st',
    Mpp._manifest_process_v2 read_json st (entry i) = Ok st' ->
    exists t ds t',
      target = JObj t /\ desc = JObj ds /\
      merged_descriptor t ds = Ok t' /\
      Store.deref (manifest st') [Key "sources"; Key source] = Some (JObj t')).
  { intros st' Hp.
    destruct (process_v2_kind _ _ _ _ _ _ _ _ _ _ Hat Hin Hwf Hg Hp)
      as (root & srcs & alone & D & Hbefore & Halone & Hafter).
    rewrite Hbefore in Htarget. simpl in Htarget.
    assert (Ht : Dict.get source srcs = Some target).
    { destruct (Dict.get source srcs); [|done]. by injection Htarget as ->. }
    destruct (merge_source_Ok_shapes _ _ _ _ _ _ _ D Ht Htr Halone)
      as (t & ds & -> & Hne & ->).
    rewrite (merge_source_existing _ _ _ _ _ _ D Ht Hne) in Halone.
    bind_inv Halone.
    assert (Ha : alone = Store.assign root ([Key "sources"] ++ [Key source]) (JObj a))
      by congruence.
    exists t, ds, a. split_and!; try done. rewrite Hafter, Ha.
    change [Key "sources"; Key source] with ([Key "sources"] ++ [Key source]).
    apply deref_assign_eq. rewrite deref_app, D. simpl. rewrite Ht. eauto. }
  split.
  - intros st' Hp. destruct (Hmain st' Hp) as (t & ds & t' & -> & -> & Hmd & Hafter).
    exists t, t'. split_and!; try done.
    + by eapply merged_descriptor_has_items.
    + simpl. unfold Dict.mem. intros Hti Hdi.
      eapply merged_descriptor_no_items; [done| |].
      * by destruct (Dict.get "items" t).
      * by destruct (Dict.get "items" ds).
  - intros Hshape.
    destruct (Mpp._manifest_process_v2 read_json st (entry i)) as [st'|err] eqn:Hp;
      [|by exists err].
    destruct (Hmain st' eq_refl) as (t & ds & t' & -> & -> & _).
    destruct Hshape as [Hs | Hs]; [by destruct (Hs t) | by destruct (Hs ds)].
Qed.

(** C6 as stated fails: the imported manifest has a
    pipeline named [stage1], the id of the directive, but behind an entry
    that has no name; the search ends at that entry with
    [KeyError: 'name'], nothing is laid over the importing entry and the
    run writes nothing. *)
Lemma C6_entry_behind_one_without_name :
  Py.get ExamplesImport.nameless_first "pipelines" (JArr [])
  = Ok (JArr [ExamplesImport.nameless; JObj ExamplesV2.stage1]) /\
  Dict.get "name" ExamplesV2.stage1 = Some (JStr "stage1") /\
  Mpp.main ExamplesImport.disk None
    (ExamplesImport.importer (JObj []) "nameless_first.json" "stage1")
  = Raise (KeyError "name").
Proof. split_and!; reflexivity. Qed.

(** C6, amended. In a version-2 import for which the [pipelines] of the
    imported manifest hold an entry named [id] behind entries that all
    have another name (the first entry named [id]): when the import
    returns, the fields of that entry are laid over the importing entry,
    the incoming value winning where both have the key, the other fields
    of the importing entry are kept, and the key [mpp-import-pipeline] is
    gone from the resolved entry; and the import does return when the
    imported manifest has no sources to merge. *)
Theorem C6_import_overlays_pipeline st i e mpp path imp pid pre t post name :
  at_import_v2 read_json st i e mpp path imp ->
  Py.getitem mpp "id" = Ok pid ->
  Py.get imp "pipelines" (JArr []) = Ok (JArr (pre ++ JObj t :: post)) ->
  Forall (named_otherwise pid) pre ->
  Dict.get "name" t = Some name ->
  Py.eq name pid = true ->
  Dict.wf t ->
  (forall st',
     Mpp._manifest_process_v2 read_json st (entry i) = Ok st' ->
     exists e',
       Store.deref (manifest st') (entry i) = Some (JObj e') /\
       Dict.get Mpp.directive e' = None /\
       forall k, k <> Mpp.directive ->
                 Dict.get k e' =
                 match Dict.get k t with Some v => Some v | None => Dict.get k e end) /\
  (Py.get imp "sources" (JObj []) = Ok (JObj []) ->
   exists st', Mpp._manifest_process_v2 read_json st (entry i) = Ok st').
Proof.
  intros Hat Hid Hps Hpre Hn He Wt.
  assert (Hget : Mpp.get_pipeline mpp path imp = Ok (JObj t)).
  { unfold Mpp.get_pipeline. rewrite Hps. cbn [bind]. rewrite Hid. cbn [bind Py.iter].
    rewrite (find_pipeline_first _ _ _ _ _ Hpre Hn He). cbn [bind]. by destruct t. }
  split.
  - intros st' Hp.
    destruct (process_v2_Ok _ _ _ _ _ _ _ Hat Hp)
      as (d & root1 & t0 & Hm & Hmerge & Hget0 & Hst' & _).
    rewrite Hget in Hget0. injection Hget0 as <-.
    destruct (at_import_v2_open _ _ _ _ _ _ Hat) as (d0 & Hm0 & D & _).
    rewrite Hm in Hm0. injection Hm0 as <-.
    assert (D1 : Store.deref root1 (entry i) = Some (JObj e)).
    { unfold entry. by rewrite (merge_sources_other _ _ _ _ _ _ Hmerge). }
    exists (Dict.del Mpp.directive (Dict.update e t)). split_and!.
    + rewrite Hst'. apply deref_assign_eq. eauto.
    + apply get_del_eq.
    + intros k Hk. rewrite get_del_ne by done. by apply get_update.
  - intros Hnone. pose proof Hat as (file & _ & Hmpp & _).
    destruct (at_import_v2_open _ _ _ _ _ _ Hat) as (d & Hm & D & Hopen).
    unfold Mpp._manifest_process_v2. rewrite Hopen. cbn [bind].
    unfold Mpp.merge_sources. rewrite Hnone. cbn [bind Py.items foldM].
    rewrite Hget. cbn [bind].
    assert (Hmem : Dict.mem Mpp.directive e = true).
    { unfold Dict.mem. by rewrite Hmpp. }
    rewrite (splice_v2_dict _ _ _ _ _ D Hmem). eauto.
Qed.

Lemma find_pipeline_not_named pid ps :
  Forall (not_named pid) ps ->
  Mpp.find_pipeline pid ps = Ok JNull \/ raises (Mpp.find_pipeline pid ps).
Proof.
  induction 1 as [|p ps Hp _ IH]; simpl; [by left|].
  destruct (Py.getitem p "name") as [name|err] eqn:Hn; [|right; by exists err].
  cbn [bind]. by rewrite (Hp name Hn).
Qed.

(** C7 as stated fails: the imported manifest has no
    pipeline named [stage1], its one entry having no name at all; the
    search ends with [KeyError: 'name'], not with the error that names the
    id and the path. *)
Lemma C7_entry_without_name :
  Py.get ExamplesImport.nameless_only "pipelines" (JArr [])
  = Ok (JArr [ExamplesImport.nameless]) /\
  Py.getitem ExamplesImport.nameless "name" = Raise (KeyError "name") /\
  Mpp.main ExamplesImport.disk None
    (ExamplesImport.importer (JObj []) "nameless_only.json" "stage1")
  = Raise (KeyError "name").
Proof. split_and!; reflexivity. Qed.

(** C7, amended. In a version-2 import for which no entry of the
    [pipelines] of the imported manifest is named [id], the import ends
    with an exception, and so does a run that gets to this import: it
    writes nothing. When moreover every entry has a name and the merge of
    the sources has returned, the exception is the [ValueError]
    "Pipeline '<id>' not found in <path>", which carries the id and the
    path of the directive. *)
Theorem C7_pipeline_not_found st i e mpp path imp pid ps :
  at_import_v2 read_json st i e mpp path imp ->
  Py.getitem mpp "id" = Ok pid ->
  Py.get imp "pipelines" (JArr []) = Ok (JArr ps) ->
  Forall (not_named pid) ps ->
  exists err,
    Mpp._manifest_process_v2 read_json st (entry i) = Raise err /\
    (Forall (named_otherwise pid) ps ->
     forall d root1,
       manifest st = JObj d ->
       Mpp.merge_sources [Key "sources"] (JObj (entered "sources" (JObj []) d)) imp
       = Ok root1 ->
       err = ValueError [FLit "Pipeline '"; FVal pid; FLit "' not found in ";
                         FVal path]) /\
    forall st0 st1 src processed rest,
      Py.get src "version" (JStr "1") = Ok (JStr "2") ->
      Mpp._manifest_parse_v2 st0 src = Ok st1 ->
      manifest_todo st1 = processed ++ entry i :: rest ->
      foldM (Mpp._manifest_process_v2 read_json) processed st1 = Ok st ->
      Mpp._main_process read_json st0 src = Raise err.
Proof.
  intros Hat Hid Hps Hnone.
  destruct (at_import_v2_open _ _ _ _ _ _ Hat) as (d & Hm & D & Hopen).
  assert (Hp : exists err,
    Mpp._manifest_process_v2 read_json st (entry i) = Raise err /\
    (Forall (named_otherwise pid) ps ->
     forall root1,
       Mpp.merge_sources [Key "sources"] (JObj (entered "sources" (JObj []) d)) imp
       = Ok root1 ->
       err = ValueError [FLit "Pipeline '"; FVal pid; FLit "' not found in ";
                         FVal path])).
  { unfold Mpp._manifest_process_v2. rewrite Hopen. cbn [bind].
    destruct (Mpp.merge_sources _ _ imp) as [root1|err] eqn:Hmerge; cbn [bind].
    2: { exists err. split; [done|]. by intros _ root1. }
    unfold Mpp.get_pipeline. rewrite Hps. cbn [bind]. rewrite Hid. cbn [bind Py.iter].
    destruct (find_pipeline_not_named _ _ Hnone) as [Hf | [err Hf]]; rewrite Hf;
      cbn [bind Py.truthy negb].
    - eexists. split; [reflexivity|]. by intros _ root0 _.
    - exists err. split; [done|]. intros Hall root0 _.
      rewrite (find_pipeline_none _ _ Hall) in Hf. done. }
  destruct Hp as (err & Hp & Herr). exists err. split_and!; [done| |].
  - intros Hall d0 root1 Hd0. rewrite Hm in Hd0. injection Hd0 as <-.
    by apply Herr.
  - intros st0 st1 src processed rest Hv Hparse Htodo Hfold.
    unfold Mpp._main_process. rewrite Hv. cbn [bind].
    change (Py.eq (JStr "2") (JStr "1")) with false.
    change (Py.eq (JStr "2") (JStr "2")) with true. cbv iota.
    unfold Mpp._manifest_import_v2. rewrite Hparse. cbn [bind].
    rewrite Htodo, foldM_app, Hfold. cbn [bind foldM]. by rewrite Hp.
Qed.
End WholeImportV2.

(** * The version-1 import as a whole *)

Lemma hops_first_key n f r :
  (n = 0 -> f <> "sources"%string) ->
  exists k r', hops n ++ Key f :: r = Key k :: r' /\ k <> "sources"%string.
Proof.
  destruct n; simpl; intros H.
  - exists f, r. auto.
  - eexists "pipeline"%string, _. done.
Qed.

(** C4. For a version-1 manifest whose shallowest directive along the
    build chain is at depth [n], the import takes up that directive
    alone. The node at depth [n] gets as its [pipeline] the [pipeline] of
    the document that the loader gives for the file of the directive (the
    empty mapping when that document has none), and loses the directive;
    its other fields are as in the manifest that was read. Of the
    shallower nodes, what their [pipeline] holds beside [build] is as it
    was read, and so are their other fields. The one part of the
    manifest that changes beside the node is
    [sources.org.osbuild.files.urls], where the URLs are merged:
    whatever else is under [sources], at the root, is as it was read. *)
Theorem C4_import_replaces_pipeline_at_depth read_json st src st1 st2 n path file imp :
  Mpp._manifest_parse_v1 st src = Ok st1 ->
  holds_directive src n = Some (Ok true) ->
  (forall k, k < n -> holds_directive src k <> Some (Ok true)) ->
  Store.deref src (hops n ++ [Key Mpp.directive; Key "path"]) = Some path ->
  Py.path_join (cwd st) path = Ok file ->
  read_json file = Ok imp ->
  foldM (Mpp._manifest_process_v1 read_json) (manifest_todo st1) st1 = Ok st2 ->
  manifest_todo st1 = [hops n] /\
  (exists p,
     Py.get imp "pipeline" (JObj []) = Ok p /\
     Store.deref (manifest st2) (hops n ++ [Key "pipeline"]) = Some p) /\
  Store.deref (manifest st2) (hops n ++ [Key Mpp.directive]) = None /\
  (forall f r,
     f <> "pipeline"%string -> f <> Mpp.directive -> (n = 0 -> f <> "sources"%string) ->
     Store.deref (manifest st2) (hops n ++ Key f :: r)
     = Store.deref src (hops n ++ Key f :: r)) /\
  (forall k f r,
     k < n -> f <> "build"%string ->
     Store.deref (manifest st2) (hops k ++ Key "pipeline" :: Key f :: r)
     = Store.deref src (hops k ++ Key "pipeline" :: Key f :: r)) /\
  (forall k f r,
     k < n -> f <> "pipeline"%string -> (k = 0 -> f <> "sources"%string) ->
     Store.deref (manifest st2) (hops k ++ Key f :: r)
     = Store.deref src (hops k ++ Key f :: r)) /\
  (forall p, beside_urls p -> Store.deref (manifest st2) p = Store.deref src p).
Proof.
  intros Hparse Hn Hlt Hpath Hjoin Hread Hfold.
  pose proof (parse_v1_todo _ _ _ _ Hparse Hn Hlt) as Htodo.
  split; [done|]. rewrite Htodo in Hfold. simpl in Hfold. bind_inv Hfold.
  injection Hfold as <-.
  destruct (parse_v1_Ok _ _ _ Hparse) as (d & d' & -> & Hd & Hst1 & _).
  assert (Hurls : manifest_urls st1 = Some urls_ref) by (by rewrite Hst1).
  assert (Hm : manifest st1 = JObj d') by (by rewrite Hst1).
  assert (Hcwd : cwd st1 = cwd st) by (by rewrite Hst1).
  assert (Hsame : forall p k r, p = Key k :: r -> k <> "sources"%string ->
            Store.deref (manifest st1) p = Store.deref (JObj d) p).
  { intros p k r -> Hk. rewrite Hm. simpl. by rewrite (defaulted_get_ne _ _ _ Hd). }
  rewrite <- (holds_directive_defaulted _ _ _ Hd), <- Hm in Hn.
  unfold holds_directive in Hn.
  assert (Hnode0 : exists o, Store.deref (manifest st1) (hops n) = Some o /\
                             Py.contains Mpp.directive o = Ok true).
  { destruct (Store.deref (manifest st1) (hops n)) as [o|]; [|done].
    injection Hn as Hc. eauto. }
  clear Hn.
  destruct (process_v1_frame read_json _ _ _ E Hurls Hnode0)
    as (e & root & imp0 & iu & ip & De & Hopen & Hcheck & Hp & Hdir & Hnode & Hother).
  assert (Hdoc : imp0 = imp).
  { destruct (hops_first_key n Mpp.directive [Key "path"]) as (k & r' & Hs & Hk);
      [done|].
    pose proof (Hsame _ k r' Hs Hk) as H1. rewrite Hpath, deref_app, De in H1.
    simpl in H1. rewrite (open_import_v1_dict _ _ _ _ De) in Hopen.
    unfold entered_value in Hopen.
    destruct (Dict.get Mpp.directive e) as [[| | | | |m]|]; try done.
    simpl in H1. cbn [Py.getitem] in Hopen.
    destruct (Dict.get "path" m) as [v|]; [|done]. injection H1 as ->.
    cbn [bind] in Hopen. rewrite Hcwd, Hjoin in Hopen. cbn [bind] in Hopen.
    rewrite Hread in Hopen. cbn [bind] in Hopen. congruence. }
  subst imp0.
  split_and!.
  - exists ip. split; [|done].
    destruct imp as [| | | | |di];
      try (rewrite check_import_v1_not_dict in Hcheck by done; done).
    rewrite check_import_v1_dict in Hcheck. simpl.
    destruct (entered_value "sources" _ di) as [| | | | |s]; try done.
    destruct (entered_value files_kind _ s) as [| | | | |f]; try done.
    destruct (bool_decide _); [|done]. by injection Hcheck as _ <-.
  - done.
  - intros f r Hf1 Hf2 Hf3.
    destruct (hops_first_key n f r Hf3) as (k & r' & Hs & Hk).
    rewrite <- (Hsame _ k r' Hs Hk).
    apply (Hnode f r Hf1 Hf2 (Key k) r' Hs). congruence.
  - intros k f r Hk Hf.
    pose proof (Hother (hops k ++ [Key "pipeline"]) (Key "build") (Key f)
                  (hops (n - S k)) r (hops_split n k Hk)) as Hfr.
    rewrite <- !app_assoc in Hfr. simpl in Hfr.
    destruct (hops_first_key k "pipeline" (Key f :: r)) as (s & r' & Hs & Hne);
      [done|].
    rewrite <- (Hsame _ s r' Hs Hne).
    apply (Hfr ltac:(congruence) (Key s) r' Hs). congruence.
  - intros k f r Hk Hf1 Hf2.
    assert (Hsplit : hops n = hops k ++ Key "pipeline" :: Key "build" :: hops (n - S k)).
    { rewrite (hops_split n k Hk), <- app_assoc. done. }
    destruct (hops_first_key k f r Hf2) as (s & r' & Hs & Hne).
    rewrite <- (Hsame _ s r' Hs Hne).
    apply (Hother (hops k) (Key "pipeline") (Key f) _ r Hsplit ltac:(congruence)
             (Key s) r' Hs).
    congruence.
  - intros p Hbeside.
    rewrite (process_v1_sources_frame read_json _ _ _ n p E Hurls eq_refl Hnode0 Hbeside).
    rewrite Hm. by apply defaulted_frame.
Qed.

(** * The claims about the imports on sample manifests *)

Lemma at_import_sample sources path id file imp :
  Py.path_join "." (JStr path) = Ok file ->
  ExamplesImport.disk file = Ok imp ->
  at_import_v2 ExamplesImport.disk (ExamplesImport.ready sources path id) 0
    (ExamplesImport.build path id) (ExamplesImport.mpp path id) (JStr path) imp.
Proof. intros Hjoin Hread. exists file. by split_and!. Qed.

(** C3 on a sample import: [origin.json] into a manifest that pins
    [sha256:aa] and names its secrets. *)
Lemma C3_sources_are_merged_witness :
  exists t' ti',
    Store.deref (manifest ExamplesImport.after) [Key "sources"; Key ExamplesV2.curl]
    = Some (JObj t') /\
    Dict.get "secrets" t' = Some (JStr "rhsm") /\
    Dict.get "items" t' = Some (JObj ti') /\
    Dict.get "sha256:aa" ti' = Some (JStr "https://a") /\
    Dict.get "sha256:bb" ti' = Some (JStr "https://b").
Proof.
  destruct (C3_sources_are_merged ExamplesImport.disk
              (ExamplesImport.before ExamplesV2.pinned) 0
              (ExamplesImport.build "origin.json" "stage1")
              (ExamplesImport.mpp "origin.json" "stage1") (JStr "origin.json")
              ExamplesImport.origin
              [(ExamplesV2.curl, ExamplesV2.incoming);
               (ExamplesMore.inline, JObj [("items", JObj [("sha256:cc", JStr "c")])])]
              ExamplesV2.curl ExamplesV2.incoming ExamplesImport.after)
    as [_ H].
  - by apply (at_import_sample _ _ _ "./origin.json").
  - reflexivity.
  - solve_wf.
  - reflexivity.
  - reflexivity.
  - destruct (H ExamplesV2.pinned eq_refl eq_refl)
      as (t & ds & t' & Ht & Hds & Hafter & Hother & Hmap).
    injection Ht as <-. injection Hds as <-.
    destruct (Hmap [("sha256:aa", JStr "https://a")] [("sha256:bb", JStr "https://b")]
                [] [] eq_refl eq_refl eq_refl eq_refl)
      as (ti' & to' & Hi & _ & Hki & _); [solve_wf | solve_wf |].
    exists t', ti'. split_and!.
    + exact Hafter.
    + by rewrite Hother.
    + exact Hi.
    + by rewrite Hki.
    + by rewrite Hki.
Defined.

(** C10 on two sample imports: [bare.json] into a manifest whose
    descriptor has no [items], and [origin.json] into a manifest whose
    descriptor is a string. *)
Lemma C10_items_key_is_entered_witness :
  (exists t',
     Store.deref (manifest ExamplesImport.after_bare)
       [Key "sources"; Key ExamplesV2.curl] = Some (JObj t') /\
     Dict.get "items" t' = Some (JObj [])) /\
  raises (Mpp._manifest_process_v2 ExamplesImport.disk
            (ExamplesImport.before (JStr "elsewhere")) (entry 0)).
Proof.
  split.
  - destruct (C10_items_key_is_entered ExamplesImport.disk
                ExamplesImport.before_bare 0
                (ExamplesImport.build "bare.json" "stage1")
                (ExamplesImport.mpp "bare.json" "stage1") (JStr "bare.json")
                ExamplesImport.bare
                [(ExamplesV2.curl, JObj [("origin", JStr "base")])]
                ExamplesV2.curl (JObj [("origin", JStr "base")])
                ExamplesImport.secrets)
      as [H _].
    + by apply (at_import_sample _ _ _ "./bare.json").
    + reflexivity.
    + solve_wf.
    + reflexivity.
    + reflexivity.
    + reflexivity.
    + destruct (H ExamplesImport.after_bare eq_refl) as (t & t' & _ & Hafter & _ & Hnone).
      exists t'. split; [exact Hafter | by apply Hnone].
  - apply (C10_items_key_is_entered ExamplesImport.disk
             (ExamplesImport.before (JStr "elsewhere")) 0
             (ExamplesImport.build "origin.json" "stage1")
             (ExamplesImport.mpp "origin.json" "stage1") (JStr "origin.json")
             ExamplesImport.origin
             [(ExamplesV2.curl, ExamplesV2.incoming);
              (ExamplesMore.inline, JObj [("items", JObj [("sha256:cc", JStr "c")])])]
             ExamplesV2.curl ExamplesV2.incoming (JStr "elsewhere")).
    + by apply (at_import_sample _ _ _ "./origin.json").
    + reflexivity.
    + solve_wf.
    + reflexivity.
    + reflexivity.
    + reflexivity.
    + by left.
Defined.

(** C6 on a sample import: the pipeline [stage1] of [plain.json], which
    stands behind the pipeline [stage0]. *)
Lemma C6_import_overlays_pipeline_witness :
  exists st' e',
    Mpp._manifest_process_v2 ExamplesImport.disk
      (ExamplesImport.ready (JObj []) "plain.json" "stage1") (entry 0) = Ok st' /\
    Store.deref (manifest st') (entry 0) = Some (JObj e') /\
    Dict.get Mpp.directive e' = None /\
    Dict.get "name" e' = Some (JStr "stage1") /\
    Dict.get "type" e' = Some (JStr "org.osbuild.foo") /\
    Dict.get "runner" e' = Some (JStr "org.osbuild.linux").
Proof.
  destruct (C6_import_overlays_pipeline ExamplesImport.disk
              (ExamplesImport.ready (JObj []) "plain.json" "stage1") 0
              (ExamplesImport.build "plain.json" "stage1")
              (ExamplesImport.mpp "plain.json" "stage1") (JStr "plain.json")
              ExamplesImport.plain (JStr "stage1")
              [JObj [("name", JStr "stage0")]] ExamplesV2.stage1 [] (JStr "stage1"))
    as [H Hreturns].
  - by apply (at_import_sample _ _ _ "./plain.json").
  - reflexivity.
  - reflexivity.
  - constructor; [|constructor]. by exists (JStr "stage0").
  - reflexivity.
  - reflexivity.
  - solve_wf.
  - destruct (Hreturns eq_refl) as [st' Hst'].
    destruct (H st' Hst') as (e' & He' & Hdir & Hk).
    exists st', e'. split_and!; try done.
    + by rewrite Hk.
    + by rewrite Hk.
    + by rewrite Hk.
Defined.

(** C7 on a sample import: [base.json] has the pipeline [stage1]
    only, the directive asks for [stage9]. *)
Lemma C7_pipeline_not_found_witness :
  exists err,
    Mpp._manifest_process_v2 ExamplesImport.disk
      (ExamplesImport.ready (JObj []) "base.json" "stage9") (entry 0) = Raise err /\
    err = ValueError [FLit "Pipeline '"; FVal (JStr "stage9"); FLit "' not found in ";
                      FVal (JStr "base.json")] /\
    Mpp._main_process ExamplesImport.disk (Mpp._main_state None)
      (ExamplesImport.importer (JObj []) "base.json" "stage9") = Raise err.
Proof.
  destruct (C7_pipeline_not_found ExamplesImport.disk
              (ExamplesImport.ready (JObj []) "base.json" "stage9") 0
              (ExamplesImport.build "base.json" "stage9")
              (ExamplesImport.mpp "base.json" "stage9") (JStr "base.json")
              ExamplesV2.base (JStr "stage9") [JObj ExamplesV2.stage1])
    as (err & Hp & Herr & Hrun).
  - by apply (at_import_sample _ _ _ "./base.json").
  - reflexivity.
  - reflexivity.
  - constructor; [|constructor]. by intros name [= <-].
  - exists err. split_and!.
    + exact Hp.
    + eapply Herr.
      * constructor; [|constructor]. by exists (JStr "stage1").
      * reflexivity.
      * reflexivity.
    + apply (Hrun (Mpp._main_state None)
               (ExamplesImport.ready (JObj []) "base.json" "stage9")
               (ExamplesImport.importer (JObj []) "base.json" "stage9") [] []);
        reflexivity.
Defined.

(** C4 on a sample manifest: the build pipeline is that of
    [extra.json]. *)
Lemma C4_import_replaces_pipeline_at_depth_witness :
  manifest_todo ExamplesV1.parsed = [hops 1] /\
  Store.deref (manifest ExamplesV1.resolved) (hops 1 ++ [Key "pipeline"])
  = Some (JObj [("stages", JArr [])]) /\
  Store.deref (manifest ExamplesV1.resolved) (hops 1 ++ [Key Mpp.directive]) = None.
Proof.
  destruct (C4_import_replaces_pipeline_at_depth Examples.disk
              (Mpp._main_state None) (Examples.importer_v1 "extra.json")
              ExamplesV1.parsed ExamplesV1.resolved 1
              (JStr "extra.json") "./extra.json" Examples.extra_key)
    as (Htodo & (p & Hp & Hnew) & Hdir & _).
  - reflexivity.
  - reflexivity.
  - intros [|k] Hk; [discriminate | lia].
  - reflexivity.
  - reflexivity.
  - reflexivity.
  - reflexivity.
  - injection Hp as <-. by split_and!.
Defined.

(** * The further properties on sample manifests *)

(** X1 on a sample manifest. *)
Lemma X1_enter_gets_or_creates_witness :
  Mpp._manifest_enter (JObj [("version", JStr "2"); ("sources", JObj [])]) []
    "sources" (JArr [JStr "another default"])
  = Ok (JObj [("version", JStr "2"); ("sources", JObj [])], [Key "sources"]).
Proof.
  destruct (X1_enter_gets_or_creates (JObj [("version", JStr "2")]) [] "sources"
              (JObj []) _ _ eq_refl)
    as (d & d' & _ & _ & _ & _ & _ & _ & _ & H).
  exact (H (JArr [JStr "another default"])).
Defined.

(** X2 on a sample manifest. *)
Lemma X2_enter_needs_a_mapping_witness :
  Mpp._manifest_enter (JObj [("sources", JArr [])]) [Key "sources"] files_kind (JObj [])
  = Raise TypeError.
Proof.
  destruct (X2_enter_needs_a_mapping (JObj [("sources", JArr [])]) [Key "sources"]
              files_kind (JObj []) (JArr []) eq_refl) as [_ [H _]].
  apply H. intros d. discriminate.
Defined.

(** X3 on a sample manifest. *)
Lemma X3_descriptor_without_url_is_fatal_witness :
  Mpp._sort_urls ExamplesMore.without_url (Some urls_ref) = Raise (KeyError "url").
Proof.
  destruct (X3_descriptor_without_url_is_fatal ExamplesMore.without_url
              [("sha256:aa", JStr "https://a"); ("sha256:bb", JObj [("etag", JStr "x")])]
              "sha256:bb" [("etag", JStr "x")] eq_refl) as [H _].
  - right. left.
  - reflexivity.
  - exact H.
Defined.

(** X5 on a sample manifest. *)
Lemma X5_version_2_is_not_sorted_witness :
  Mpp.main ExamplesV2.disk None ExamplesMore.two_entries
  = Ok (mkOutcome 0 (Some ExamplesMore.two_entries_resolved)).
Proof.
  destruct (X5_version_2_is_not_sorted ExamplesV2.disk None ExamplesMore.two_entries
              (mkState "." ExamplesMore.two_entries_resolved None [entry 0])
              eq_refl eq_refl) as (_ & _ & H).
  exact H.
Defined.

(** X6 on a sample manifest. *)
Lemma X6_version_2_without_import_is_unchanged_witness :
  Mpp.main Examples.disk None ExamplesMore.plain_v2
  = Ok (mkOutcome 0 (Some ExamplesMore.plain_v2)).
Proof.
  apply (X6_version_2_without_import_is_unchanged Examples.disk None
           ExamplesMore.plain_v2
           [JObj [("name", JStr "build")];
            JObj [("name", JStr "os"); ("mpp-import-pipeline", JObj [])]]
           eq_refl eq_refl).
  apply Forall_cons. split; [exists JNull; split; reflexivity|].
  apply Forall_cons. split; [exists (JObj []); split; reflexivity|].
  apply Forall_nil. exact I.
Defined.

(** X7 on a sample manifest. *)
Lemma X7_pipelines_entry_must_be_a_mapping_witness :
  Mpp.main Examples.disk None ExamplesMore.bad_entry_v2 = Raise AttributeError.
Proof.
  destruct (X7_pipelines_entry_must_be_a_mapping Examples.disk None
              ExamplesMore.bad_entry_v2
              [JObj [("name", JStr "build")]; JStr "os"] (JStr "os")
              eq_refl eq_refl) as [_ H].
  - right. left.
  - intros e. discriminate.
  - exact H.
Defined.

(** X8 on a sample manifest. *)
Lemma X8_first_pipeline_named_id_is_taken_witness :
  Mpp.get_pipeline ExamplesV2.directive_stage1 (JStr "base.json") ExamplesMore.twice
  = Ok (JObj ExamplesMore.first_stage1).
Proof.
  apply (X8_first_pipeline_named_id_is_taken ExamplesV2.directive_stage1
           (JStr "base.json") ExamplesMore.twice (JStr "stage1")
           [JObj [("name", JStr "stage0")]; JObj ExamplesMore.first_stage1;
            JObj [("name", JStr "stage1"); ("runner", JStr "second")]; JNum 7]
           (JObj ExamplesMore.first_stage1) eq_refl eq_refl).
  exists [JObj [("name", JStr "stage0")]], ExamplesMore.first_stage1,
    [JObj [("name", JStr "stage1"); ("runner", JStr "second")]; JNum 7],
    (JStr "stage1").
  repeat split.
  apply Forall_cons. split; [exists (JStr "stage0"); split; reflexivity|].
  apply Forall_nil. exact I.
Defined.

(** X11 on a sample manifest. *)
Lemma X11_imported_urls_win_witness :
  exists final,
    Store.deref ExamplesMore.resolved_with_urls urls_ref = Some (JObj final) /\
    forall k, Dict.get k final =
              match Dict.get k [("sha256:aa"%string, JStr "https://a")] with
              | Some v => Some v
              | None => Dict.get k ExamplesMore.own_urls
              end.
Proof.
  apply (X11_imported_urls_win Examples.disk (Mpp._main_state None)
           ExamplesMore.importer_with_urls _ (hops 1) _ Examples.extra_key
           [("sha256:aa"%string, JStr "https://a")] _ ExamplesMore.own_urls
           ExamplesMore.resolved_with_urls eq_refl eq_refl eq_refl eq_refl eq_refl
           eq_refl).
  - solve_wf.
  - solve_wf.
  - reflexivity.
Defined.

(** X12 on a sample manifest. *)
Lemma X12_version_1_opens_at_most_one_file_witness :
  exists file,
    forall read_json1 read_json2,
      read_json1 file = read_json2 file ->
      Mpp.main read_json1 None (Examples.importer_v1 "extra.json")
      = Mpp.main read_json2 None (Examples.importer_v1 "extra.json").
Proof.
  apply (X12_version_1_opens_at_most_one_file None (Examples.importer_v1 "extra.json")
           eq_refl).
Defined.

(** X13 on a sample manifest. *)
Lemma X13_merge_keeps_the_other_kinds_witness :
  exists srcs',
    Store.deref ExamplesMore.merged_two_kinds [Key "sources"] = Some (JObj srcs') /\
    (forall k,
       Dict.get k [(ExamplesV2.curl, JObj [("items", JObj [("a", JObj [])])])] = None ->
       Dict.get k srcs'
       = Dict.get k [(ExamplesV2.curl, ExamplesV2.pinned);
                     (ExamplesMore.inline, JObj [("items", JObj [])])]) /\
    (exists new,
       Dict.keys srcs' = [ExamplesV2.curl; ExamplesMore.inline] ++ new) /\
    (forall k r, k <> "sources"%string ->
       Store.deref ExamplesMore.merged_two_kinds (Key k :: r)
       = Store.deref ExamplesMore.two_kinds (Key k :: r)).
Proof.
  apply (X13_merge_keeps_the_other_kinds ExamplesMore.two_kinds ExamplesV2.base
           ExamplesMore.merged_two_kinds
           [(ExamplesV2.curl, ExamplesV2.pinned);
            (ExamplesMore.inline, JObj [("items", JObj [])])]
           [(ExamplesV2.curl, JObj [("items", JObj [("a", JObj [])])])]
           eq_refl eq_refl eq_refl).
Defined.

(** X14 on a sample manifest: the imported manifest describes two
    kinds of sources, and the loop has two turns. *)
Lemma X14_kinds_are_merged_one_by_one_witness :
  (exists alone,
     Mpp.merge_source [Key "sources"] ExamplesMore.two_kinds
       (ExamplesV2.curl, ExamplesV2.incoming) = Ok alone /\
     Store.deref ExamplesImport.merged_with_origin [Key "sources"; Key ExamplesV2.curl]
     = Store.deref alone [Key "sources"; Key ExamplesV2.curl]) /\
  (exists alone,
     Mpp.merge_source [Key "sources"] ExamplesMore.two_kinds
       (ExamplesMore.inline, JObj [("items", JObj [("sha256:cc", JStr "c")])])
     = Ok alone /\
     Store.deref ExamplesImport.merged_with_origin
       [Key "sources"; Key ExamplesMore.inline]
     = Store.deref alone [Key "sources"; Key ExamplesMore.inline]).
Proof.
  split.
  - apply (X14_kinds_are_merged_one_by_one ExamplesMore.two_kinds
             ExamplesImport.origin ExamplesImport.merged_with_origin
             [(ExamplesV2.curl, ExamplesV2.incoming);
              (ExamplesMore.inline, JObj [("items", JObj [("sha256:cc", JStr "c")])])]
             ExamplesV2.curl ExamplesV2.incoming eq_refl eq_refl).
    + solve_wf.
    + reflexivity.
  - apply (X14_kinds_are_merged_one_by_one ExamplesMore.two_kinds
             ExamplesImport.origin ExamplesImport.merged_with_origin
             [(ExamplesV2.curl, ExamplesV2.incoming);
              (ExamplesMore.inline, JObj [("items", JObj [("sha256:cc", JStr "c")])])]
             ExamplesMore.inline (JObj [("items", JObj [("sha256:cc", JStr "c")])])
             eq_refl eq_refl).
    + solve_wf.
    + reflexivity.
Defined.

(** X15 on a sample manifest. *)
Lemma X15_version_2_run_keeps_the_rest_witness :
  (forall k r, k <> "sources"%string -> k <> "pipelines"%string ->
     Store.deref ExamplesMore.two_entries_resolved (Key k :: r)
     = Store.deref ExamplesMore.two_entries (Key k :: r)) /\
  (forall i p c,
     Store.deref ExamplesMore.two_entries (entry i) = Some p ->
     Py.get p Mpp.directive JNull = Ok c -> Py.truthy c = false ->
     Store.deref ExamplesMore.two_entries_resolved (entry i) = Some p).
Proof.
  apply (X15_version_2_run_keeps_the_rest ExamplesV2.disk None
           ExamplesMore.two_entries ExamplesMore.two_entries_resolved
           eq_refl eq_refl).
Defined.

(** X16 on a sample manifest. *)
Lemma X16_version_2_run_resolves_every_import_witness :
  keys_are_str (Mpp.main ExamplesV2.disk None ExamplesMore.two_entries) /\
  Mpp.main Examples.disk (Some "/srv"%string) ExamplesMore.two_entries_resolved
  = Ok (mkOutcome 0 (Some ExamplesMore.two_entries_resolved)).
Proof.
  destruct (X16_version_2_run_resolves_every_import ExamplesV2.disk None
              ExamplesMore.two_entries eq_refl) as [Hkeys H].
  - intros p. unfold ExamplesV2.disk, Examples.file_system.
    by destruct (Dict.get p _).
  - intros p imp. unfold ExamplesV2.disk, Examples.file_system. simpl.
    destruct (String.eqb p "./base.json"); [|done]. intros [= <-].
    intros srcs kind ds [= <-] Hin.
    apply list_elem_of_singleton in Hin. injection Hin as _ ->.
    split; by eexists.
  - split; [exact Hkeys|].
    destruct (H ExamplesMore.two_entries_resolved eq_refl) as [_ Hagain].
    exact (Hagain Examples.disk (Some "/srv"%string)).
Defined.

(** X17 on a sample manifest. *)
Lemma X17_version_1_run_keeps_the_other_sources_witness :
  (forall k r, k <> files_kind ->
     Store.deref ExamplesMore.resolved_with_urls (Key "sources" :: Key k :: r)
     = Store.deref ExamplesMore.importer_with_urls (Key "sources" :: Key k :: r)) /\
  (forall f r, f <> "urls"%string ->
     Store.deref ExamplesMore.resolved_with_urls
       (Key "sources" :: Key files_kind :: Key f :: r)
     = Store.deref ExamplesMore.importer_with_urls
         (Key "sources" :: Key files_kind :: Key f :: r)).
Proof.
  apply (X17_version_1_run_keeps_the_other_sources Examples.disk (Mpp._main_state None)
           ExamplesMore.importer_with_urls ExamplesMore.resolved_with_urls
           eq_refl eq_refl).
Defined.

(** X18 on a sample manifest. *)
Lemma X18_sort_urls_is_stable_witness :
  exists sorted,
    Mpp._sort_urls (ExamplesV1.with_urls ExamplesMore.same_url) (Some urls_ref)
    = Ok (Store.assign (ExamplesV1.with_urls ExamplesMore.same_url) urls_ref
            (JObj sorted)) /\
    forall u, List.filter (has_url u) sorted
              = List.filter (has_url u) ExamplesMore.same_url.
Proof.
  apply (X18_sort_urls_is_stable (ExamplesV1.with_urls ExamplesMore.same_url)
           urls_ref ExamplesMore.same_url eq_refl).
  - solve_wf.
  - repeat constructor; eexists; reflexivity.
Defined.

(** X19 on a sample manifest. *)
Lemma X19_resolved_entry_keeps_its_order_witness :
  exists e e' st',
    Store.deref (manifest ExamplesV2.start) (entry 0) = Some (JObj e) /\
    Mpp._manifest_process_v2 ExamplesV2.disk ExamplesV2.start (entry 0) = Ok st' /\
    Store.deref (manifest st') (entry 0) = Some (JObj e') /\
    Dict.keys e'
    = List.filter (fun k => negb (String.eqb Mpp.directive k)) (Dict.keys e)
      ++ List.filter (fun k => negb (Dict.mem k e)) (Dict.keys ExamplesV2.stage1).
Proof.
  eapply (X19_resolved_entry_keeps_its_order ExamplesV2.disk ExamplesV2.start 0).
  - reflexivity.
  - reflexivity.
  - reflexivity.
  - solve_wf.
Defined.
